(** * Rug-pull detector: the risk-scoring engine of [RugPullDetector]

    A shallow embedding of the scoring core of the detector
    ([normalizeScore], [calculateRiskScore], [getRiskLevel],
    [generateRecommendations], [generateSummary], [analyzeToken]) and the
    properties its specification states about it.

    - Numbers.  JavaScript numbers are IEEE 754 binary64 values.  They are
      modelled by [spec_float] at precision 53 and maximal exponent 1024,
      with the executable arithmetic of the standard library's [SpecFloat],
      so that every evaluation below is bit-exact; the universal statements
      are proved from the definition of rounding to nearest, ties to even.
    - Objects.  A sub-analysis is a record whose two fields may be missing.
    - Arrays built with [push] and strings built with [+=] are threaded
      through local rebinding, in the order of the source.
    - [Number::toString], a built-in of the host, is a parameter of the
      functions that render a number into a template literal.
    - Promises are modelled by how and when they settle; asynchronous code
      is a state-and-error monad over the log of collaborator calls. *)

From Stdlib Require Import ZArith List String Ascii Bool Lia DecimalString.
From Stdlib Require Import SpecFloat.
Import ListNotations.
Open Scope Z_scope.

(** ** JavaScript numbers *)

Module JsNumber.

Definition prec : Z := 53.
Definition emax : Z := 1024.

Definition number : Type := spec_float.

Definition NaN : number := S754_nan.

(** The number denoted by an integer literal. *)
Definition of_Z (z : Z) : number := binary_normalize prec emax z 0 false.

Definition add : number -> number -> number := SFadd prec emax.
Definition mul : number -> number -> number := SFmul prec emax.
Definition div : number -> number -> number := SFdiv prec emax.

(** The number denoted by the decimal literal [n/10^k]: the binary64
    nearest to the quotient, which a correctly rounded division of the
    two (exactly representable) integers yields. *)
Definition decimal (n d : Z) : number := div (of_Z n) (of_Z d).

(** [a < b], [a > b] and [a >= b]: false as soon as an operand is NaN. *)
Definition lt (a b : number) : bool := SFltb a b.
Definition gt (a b : number) : bool := SFltb b a.
Definition ge (a b : number) : bool :=
  match SFcompare a b with
  | Some Lt | None => false
  | Some _ => true
  end.
Definition le (a b : number) : bool := ge b a.

(** [a === b] on numbers. *)
Definition strict_eq (a b : number) : bool := SFeqb a b.

(** ToBoolean on numbers: [+0], [-0] and NaN are falsy. *)
Definition ToBoolean (x : number) : bool :=
  match x with
  | S754_zero _ | S754_nan => false
  | _ => true
  end.

Definition is_nan (x : number) : bool :=
  match x with S754_nan => true | _ => false end.

Definition is_neg_zero (x : number) : bool :=
  match x with S754_zero true => true | _ => false end.

Definition is_pos_zero (x : number) : bool :=
  match x with S754_zero false => true | _ => false end.

(** [Math.max(a, b)]: NaN if an argument is NaN; [+0] is larger than
    [-0]; otherwise the running maximum is replaced when the next
    argument is strictly larger. *)
Definition Math_max (a b : number) : number :=
  if is_nan a || is_nan b then NaN
  else if is_neg_zero a && is_pos_zero b then b
  else if gt b a then b else a.

(** [Math.min(a, b)], symmetrically: [-0] is smaller than [+0]. *)
Definition Math_min (a b : number) : number :=
  if is_nan a || is_nan b then NaN
  else if is_pos_zero a && is_neg_zero b then b
  else if lt b a then b else a.

(** [Math.round(x)]: the integer nearest to [x], a tie going to the
    integer closer to +infinity; integral and non-finite arguments are
    returned unchanged, and a result of zero keeps the sign of [x].
    For [x = (-1)^s * m * 2^e] with [e < 0], [round_integer] is
    [floor (x + 1/2)]. *)
Definition round_integer (s : bool) (m : positive) (e : Z) : Z :=
  (2 * cond_Zopp s (Zpos m) + 2 ^ (- e)) / 2 ^ (1 - e).

Definition Math_round (x : number) : number :=
  match x with
  | S754_finite s m e =>
      if 0 <=? e then x
      else
        let r := round_integer s m e in
        if r =? 0 then S754_zero s else of_Z r
  | _ => x
  end.

End JsNumber.

Import JsNumber.

(** ** JavaScript strings *)

(** Strings are byte strings (UTF-8); every pattern searched for below is
    ASCII, so searching bytes and searching UTF-16 code units agree. *)

Open Scope string_scope.

Definition newline : string := String "010"%char EmptyString.

(** [s.includes(sub)]. *)
Fixpoint includes (s sub : string) : bool :=
  if String.prefix sub s then true
  else match s with
       | EmptyString => false
       | String _ rest => includes rest sub
       end.

(** [arr.push(x)], on the array held in a local variable. *)
Definition push {A : Type} (arr : list A) (x : A) : list A :=
  (arr ++ [x])%list.

(** [arr.slice(0, n)]. *)
Definition slice0 {A : Type} (n : nat) (arr : list A) : list A := firstn n arr.

(** ** Data model *)

(** A sub-analysis as the detector reads it: both fields may be missing
    (the tests pass [{}]), which reads as [undefined]. *)
Record SubAnalysis : Type := {
  riskScore : option number;
  redFlags : option (list string)
}.

Inductive RiskLevel : Type := CRITICAL | HIGH | MEDIUM | LOW | SAFE.

Definition RiskLevel_toString (l : RiskLevel) : string :=
  match l with
  | CRITICAL => "CRITICAL"
  | HIGH => "HIGH"
  | MEDIUM => "MEDIUM"
  | LOW => "LOW"
  | SAFE => "SAFE"
  end.

(** [v || 0] for a possibly missing number. *)
Definition or_zero (v : option number) : number :=
  match v with
  | Some x => if ToBoolean x then x else of_Z 0
  | None => of_Z 0
  end.

(** [flags && flags.length > 0]: a missing list is falsy, an array is
    truthy whatever its length. *)
Definition has_items (flags : option (list string)) : bool :=
  match flags with
  | Some l => (0 <? List.length l)%nat
  | None => false
  end.

(** [flags || []]. *)
Definition or_empty (flags : option (list string)) : list string :=
  match flags with
  | Some l => l
  | None => []
  end.

(** ** The scoring functions of [RugPullDetector] *)

Definition normalizeScore (score : number) : number :=
  Math_min (of_Z 100) (Math_max (of_Z 0) score).

Definition calculateRiskScore (onChain social code : SubAnalysis) : number :=
  let onChainWeight := decimal 5 10 in
  let socialWeight := decimal 3 10 in
  let codeWeight := decimal 2 10 in
  let onChainScore := normalizeScore (or_zero (riskScore onChain)) in
  let socialScore := normalizeScore (or_zero (riskScore social)) in
  let codeScore := normalizeScore (or_zero (riskScore code)) in
  add (add (mul onChainScore onChainWeight) (mul socialScore socialWeight))
      (mul codeScore codeWeight).

Definition getRiskLevel (score : number) : RiskLevel :=
  if ge score (of_Z 80) then CRITICAL
  else if ge score (of_Z 60) then HIGH
  else if ge score (of_Z 40) then MEDIUM
  else if ge score (of_Z 20) then LOW
  else SAFE.

(** The body of the [forEach] callback over the on-chain red flags. *)
Definition recommend_for_flag (recommendations : list string) (flag : string)
  : list string :=
  let recommendations :=
    if includes flag "mint authority"
    then push recommendations
           "Mint authority not renounced - unlimited token creation possible"
    else recommendations in
  let recommendations :=
    if includes flag "liquidity" || includes flag "LP"
    then push recommendations
           "Liquidity not locked - developers can remove funds anytime"
    else recommendations in
  let recommendations :=
    if includes flag "concentration" || includes flag "distribution"
    then push recommendations
           "High token concentration - single wallet controls majority supply"
    else recommendations in
  recommendations.

Definition generateRecommendations (riskScore : number)
    (onChain social code : SubAnalysis) : list string :=
  let recommendations : list string := [] in
  let recommendations :=
    if ge riskScore (of_Z 80) then
      push (push recommendations "DO NOT BUY - HIGH RUG PULL RISK")
           "Avoid this token completely"
    else if ge riskScore (of_Z 60) then
      push (push recommendations "EXTREME CAUTION - High risk detected")
           "Only invest what you can afford to lose"
    else if ge riskScore (of_Z 40) then
      push (push recommendations "MODERATE CAUTION - Some red flags present")
           "Research thoroughly before investing"
    else
      push (push recommendations "APPEARS LEGITIMATE - Low risk detected")
           "Still exercise normal caution with new tokens" in
  let recommendations :=
    if has_items (redFlags onChain)
    then fold_left recommend_for_flag (or_empty (redFlags onChain))
           recommendations
    else recommendations in
  let recommendations :=
    if has_items (redFlags social)
    then push recommendations "Social media shows suspicious activity"
    else recommendations in
  let recommendations :=
    if has_items (redFlags code)
    then push recommendations "Contract contains potential vulnerabilities"
    else recommendations in
  recommendations.

Section Rendering.

(** The engine's conversion of a number to a string inside a template
    literal ([Number::toString]); it is a built-in of the host, kept as a
    parameter of the rendering functions. *)
Variable Number_toString : number -> string.

Definition generateSummary (riskScore : number)
    (onChain social code : SubAnalysis) : string :=
  let level := getRiskLevel riskScore in
  let summary :=
    "🚨 RUG PULL ALERT: This token has " ++ RiskLevel_toString level
    ++ " RUG PULL RISK (" ++ Number_toString (Math_round riskScore)
    ++ "/100)" ++ newline ++ newline in
  let allRedFlags :=
    (or_empty (redFlags onChain) ++ or_empty (redFlags social)
     ++ or_empty (redFlags code))%list in
  let summary :=
    if (0 <? List.length allRedFlags)%nat then
      let summary := summary ++ "🔴 KEY RED FLAGS:" ++ newline in
      let summary :=
        fold_left (fun summary flag => summary ++ "- " ++ flag ++ newline)
          (slice0 5 allRedFlags) summary in
      let summary :=
        if (5 <? List.length allRedFlags)%nat then
          summary ++ "- ...and "
          ++ Number_toString (of_Z (Z.of_nat (List.length allRedFlags) - 5))
          ++ " more issues" ++ newline
        else summary in
      summary ++ newline
    else summary in
  let summary := summary ++ "💡 RECOMMENDATION: " in
  let summary :=
    if ge riskScore (of_Z 80) then summary ++ "DO NOT BUY"
    else if ge riskScore (of_Z 60) then summary ++ "EXTREME CAUTION"
    else if ge riskScore (of_Z 40) then summary ++ "MODERATE CAUTION"
    else summary ++ "APPEARS SAFE" in
  summary.

End Rendering.

(** ** The orchestrator *)

(** A thrown [Error], identified by its message. *)
Inductive JsError : Type := Error (message : string).

(** How a promise settles. *)
Inductive settled (A : Type) : Type :=
| Fulfilled (value : A)
| Rejected (reason : JsError).
Arguments Fulfilled {A} value.
Arguments Rejected {A} reason.

(** A promise returned by a collaborator: how it settles, and when (the
    position of its settlement in the run of the event loop). *)
Record Promise (A : Type) : Type := {
  settles_at : nat;
  state : settled A
}.
Arguments settles_at {A} p.
Arguments state {A} p.

(** [Promise.all], one promise at a time from the right: the values of a
    list of promises that all fulfil, or else the rejection that settles
    first (the leftmost one among rejections of equal time). *)
Definition join_promise {A B : Type} (p : Promise A)
    (rest : (nat * JsError) + B) : (nat * JsError) + (A * B) :=
  match state p, rest with
  | Fulfilled a, inr vs => inr (a, vs)
  | Fulfilled _, inl r => inl r
  | Rejected e, inr _ => inl (settles_at p, e)
  | Rejected e, inl (t, e') =>
      if (t <? settles_at p)%nat then inl (t, e') else inl (settles_at p, e)
  end.

Definition Promise_all3 {A B C : Type} (p1 : Promise A) (p2 : Promise B)
    (p3 : Promise C) : settled (A * B * C) :=
  match join_promise p1 (join_promise p2 (join_promise p3 (inr tt))) with
  | inr (a, (b, (c, _))) => Fulfilled (a, b, c)
  | inl (_, e) => Rejected e
  end.

Record TokenInfo : Type := { symbol : option string }.

(** [symbol || tokenMint]: a missing or empty symbol is falsy. *)
Definition symbol_or (s : option string) (tokenMint : string) : string :=
  match s with
  | Some (String c rest) => String c rest
  | _ => tokenMint
  end.

(** The three collaborators held by the detector. *)
Record ChainAnalyzer : Type := {
  getTokenInfo : string -> settled (option TokenInfo);
  analyzeTokenEconomics : string -> Promise SubAnalysis
}.

Record SocialAnalyzer : Type := {
  analyzeSocialSignals : string -> Promise SubAnalysis
}.

Record CodeAnalyzer : Type := {
  analyzeCode : string -> Promise SubAnalysis
}.

Record RugPullDetector : Type := {
  chainAnalyzer : ChainAnalyzer;
  socialAnalyzer : SocialAnalyzer;
  codeAnalyzer : CodeAnalyzer;
  (** [new Date().toISOString()] at the time of the report. *)
  clock_ISO : string
}.

Record Analysis : Type := {
  onChain : SubAnalysis;
  social : SubAnalysis;
  code : SubAnalysis
}.

Module Report.
Record t : Type := {
  token : string;
  mintAddress : string;
  timestamp : string;
  riskScore : number;
  riskLevel : RiskLevel;
  analysis : Analysis;
  recommendations : list string;
  summary : string
}.
End Report.

(** The collaborator methods the orchestrator may invoke. *)
Inductive Call : Type :=
| Call_getTokenInfo (tokenMint : string)
| Call_analyzeTokenEconomics (tokenMint : string)
| Call_analyzeSocialSignals (tokenMint : string)
| Call_analyzeCode (tokenMint : string).

(** Asynchronous code: it extends the log of collaborator invocations and
    either produces a value or throws.  (Console output is not part of the
    model.) *)
Definition Async (A : Type) : Type := list Call -> settled A * list Call.

Definition ret {A : Type} (a : A) : Async A := fun log => (Fulfilled a, log).

Definition throw {A : Type} (e : JsError) : Async A :=
  fun log => (Rejected e, log).

Definition bind {A B : Type} (m : Async A) (k : A -> Async B) : Async B :=
  fun log =>
    match m log with
    | (Fulfilled a, log') => k a log'
    | (Rejected e, log') => (Rejected e, log')
    end.

Definition try_catch {A : Type} (m : Async A) (handler : JsError -> Async A)
  : Async A :=
  fun log =>
    match m log with
    | (Fulfilled a, log') => (Fulfilled a, log')
    | (Rejected e, log') => handler e log'
    end.

(** Invoking a collaborator method records the call and yields what the
    method returns. *)
Definition invoke {A : Type} (c : Call) (result : A) : Async A :=
  fun log => (Fulfilled result, push log c).

(** [await] of a settled state: its value, or its reason thrown. *)
Definition await {A : Type} (s : settled A) : Async A :=
  fun log => (s, log).

Notation "x <- m ;; k" := (bind m (fun x => k))
  (at level 61, m at next level, right associativity).
Notation "' pat <- m ;; k" := (bind m (fun x => match x with pat => k end))
  (at level 61, pat pattern, m at next level, right associativity).

Section Orchestrator.

Variable Number_toString : number -> string.

Definition analyzeToken (this : RugPullDetector) (tokenMint : string)
  : Async Report.t :=
  try_catch
    (promise <- invoke (Call_getTokenInfo tokenMint)
                  (getTokenInfo (chainAnalyzer this) tokenMint) ;;
     tokenInfo <- await promise ;;
     match tokenInfo with
     | None => throw (Error "Token not found or invalid")
     | Some tokenInfo =>
         p1 <- invoke (Call_analyzeTokenEconomics tokenMint)
                 (analyzeTokenEconomics (chainAnalyzer this) tokenMint) ;;
         p2 <- invoke (Call_analyzeSocialSignals tokenMint)
                 (analyzeSocialSignals (socialAnalyzer this) tokenMint) ;;
         p3 <- invoke (Call_analyzeCode tokenMint)
                 (analyzeCode (codeAnalyzer this) tokenMint) ;;
         '(onChainResult, socialResult, codeResult) <-
           await (Promise_all3 p1 p2 p3) ;;
         let riskScore :=
           calculateRiskScore onChainResult socialResult codeResult in
         let recommendations :=
           generateRecommendations riskScore onChainResult socialResult
             codeResult in
         let report := {|
           Report.token := symbol_or (symbol tokenInfo) tokenMint;
           Report.mintAddress := tokenMint;
           Report.timestamp := clock_ISO this;
           Report.riskScore := Math_round riskScore;
           Report.riskLevel := getRiskLevel riskScore;
           Report.analysis := {| onChain := onChainResult;
                                 social := socialResult;
                                 code := codeResult |};
           Report.recommendations := recommendations;
           Report.summary :=
             generateSummary Number_toString riskScore onChainResult
               socialResult codeResult
         |} in
         ret report
     end)
    (fun error => throw error).

End Orchestrator.

(** A rendering of integral numbers of magnitude below 2^53, of NaN and of
    the infinities, as [Number::toString] prints them; it instantiates the
    parameter of the rendering functions in the examples. *)
Definition integer_toString (x : number) : string :=
  match x with
  | S754_nan => "NaN"
  | S754_infinity s => if s then "-Infinity" else "Infinity"
  | S754_zero _ => "0"
  | S754_finite s m e =>
      (if s then "-" else EmptyString)
      ++ NilEmpty.string_of_uint (N.to_uint (Z.to_N (Z.shiftl (Zpos m) e)))
  end.

(** * Definitions used by the statements and the proofs *)

Open Scope Z_scope.

(** ** Binary64 values as integers *)

(** What [k] right shifts of the exact mantissa [M] leave: the quotient by
    [2^k], with the round and sticky bits locating the remainder. *)
Definition shifted (M : Z) (k : Z) (mrs : shr_record) : Prop :=
  exists rem,
    0 <= shr_m mrs /\
    M = shr_m mrs * 2 ^ k + rem /\
    0 <= rem < 2 ^ k /\
    (shr_r mrs = true <-> 2 ^ k <= 2 * rem) /\
    (shr_s mrs = false <-> rem = 0 \/ 2 * rem = 2 ^ k).

(** Every exponent met below is at least [-1200]; the value of the positive
    number [m * 2^e], scaled by [2^1200], is the integer [val m e]. *)
Definition bias : Z := 1200.
Definition val (m e : Z) : Z := m * 2 ^ (e + bias).

(** A number in [[+0, V]]: [+0], or a positive canonical number whose
    scaled value is at most [V]. *)
Definition in_range (V : Z) (x : number) : Prop :=
  x = S754_zero false \/
  exists m e, x = S754_finite false m e
              /\ bounded prec emax m e = true
              /\ val (Zpos m) e <= V.

(** A sub-score the engine can hold: a binary64 number (NaN and the
    infinities included), or no value at all. *)
Definition valid_score (v : option number) : Prop :=
  match v with
  | Some x => valid_binary prec emax x = true
  | None => True
  end.

Definition V100 : Z := val 7036874417766400 (-46).

Ltac closed_arith :=
  first
    [ reflexivity
    | apply Z.leb_le; vm_compute; reflexivity
    | split; [apply Z.leb_le|apply Z.ltb_lt]; vm_compute; reflexivity
    | split; apply Z.leb_le; vm_compute; reflexivity ].

Definition small_integer_ok (r : Z) : bool :=
  le (of_Z 0) (of_Z r) && le (of_Z r) (of_Z 100).

(** The classifier on integer scores, by its table. *)
Definition classify_integer (z : Z) : RiskLevel :=
  if 80 <=? z then CRITICAL
  else if 60 <=? z then HIGH
  else if 40 <=? z then MEDIUM
  else if 20 <=? z then LOW
  else SAFE.

Definition RiskLevel_eqb (a b : RiskLevel) : bool :=
  match a, b with
  | CRITICAL, CRITICAL | HIGH, HIGH | MEDIUM, MEDIUM | LOW, LOW | SAFE, SAFE =>
      true
  | _, _ => false
  end.

Definition integer_tier_ok (z : Z) : bool :=
  RiskLevel_eqb (getRiskLevel (of_Z z)) (classify_integer z).

Open Scope string_scope.

(** ** The recommendation list and the summary, declaratively *)

(** The two headlines of the band of a score. *)
Definition tier_headlines (score : number) : list string :=
  if ge score (of_Z 80) then
    ["DO NOT BUY - HIGH RUG PULL RISK"; "Avoid this token completely"]
  else if ge score (of_Z 60) then
    ["EXTREME CAUTION - High risk detected";
     "Only invest what you can afford to lose"]
  else if ge score (of_Z 40) then
    ["MODERATE CAUTION - Some red flags present";
     "Research thoroughly before investing"]
  else
    ["APPEARS LEGITIMATE - Low risk detected";
     "Still exercise normal caution with new tokens"].

(** The three warnings driven by on-chain flags, and the patterns that
    trigger them. *)
Definition mint_warning : string :=
  "Mint authority not renounced - unlimited token creation possible".
Definition liquidity_warning : string :=
  "Liquidity not locked - developers can remove funds anytime".
Definition concentration_warning : string :=
  "High token concentration - single wallet controls majority supply".

Definition about_mint (flag : string) : bool := includes flag "mint authority".
Definition about_liquidity (flag : string) : bool :=
  includes flag "liquidity" || includes flag "LP".
Definition about_concentration (flag : string) : bool :=
  includes flag "concentration" || includes flag "distribution".

(** The warnings one flag contributes, in the order of the callback. *)
Definition flag_warnings (flag : string) : list string :=
  ((if about_mint flag then [mint_warning] else [])
   ++ (if about_liquidity flag then [liquidity_warning] else [])
   ++ (if about_concentration flag then [concentration_warning] else []))%list.

Definition social_warning (social : SubAnalysis) : list string :=
  if has_items (redFlags social)
  then ["Social media shows suspicious activity"] else [].

Definition code_warning (code : SubAnalysis) : list string :=
  if has_items (redFlags code)
  then ["Contract contains potential vulnerabilities"] else [].

(** Number of occurrences of a string in a list. *)
Definition count (w : string) (l : list string) : nat :=
  List.length (filter (String.eqb w) l).

(** The label that closes the summary. *)
Definition summary_label (score : number) : string :=
  if ge score (of_Z 80) then "DO NOT BUY"
  else if ge score (of_Z 60) then "EXTREME CAUTION"
  else if ge score (of_Z 40) then "MODERATE CAUTION"
  else "APPEARS SAFE".

(** One line per listed flag. *)
Definition flag_lines (flags : list string) : string :=
  fold_right (fun flag rest => "- " ++ flag ++ newline ++ rest) EmptyString flags.

Section SummaryShape.

Variable Number_toString : number -> string.

Definition summary_headline (score : number) : string :=
  "🚨 RUG PULL ALERT: This token has "
  ++ RiskLevel_toString (getRiskLevel score)
  ++ " RUG PULL RISK (" ++ Number_toString (Math_round score)
  ++ "/100)" ++ newline ++ newline.

Definition more_issues_line (allRedFlags : list string) : string :=
  if (5 <? List.length allRedFlags)%nat then
    "- ...and "
    ++ Number_toString (of_Z (Z.of_nat (List.length allRedFlags) - 5))
    ++ " more issues" ++ newline
  else EmptyString.

Definition red_flag_section (allRedFlags : list string) : string :=
  match allRedFlags with
  | [] => EmptyString
  | _ :: _ =>
      "🔴 KEY RED FLAGS:" ++ newline
      ++ flag_lines (firstn 5 allRedFlags)
      ++ more_issues_line allRedFlags ++ newline
  end.

End SummaryShape.

(** The three flag lists, concatenated in the order of the source. *)
Definition all_red_flags (onChain social code : SubAnalysis) : list string :=
  (or_empty (redFlags onChain) ++ or_empty (redFlags social)
   ++ or_empty (redFlags code))%list.

(** ** Searching for the section title *)

(** Occurrences of the two letters [KE], which open the section title. *)
Definition is_K (c : ascii) : bool := Ascii.eqb c "K".
Definition is_E (c : ascii) : bool := Ascii.eqb c "E".

Fixpoint hasKE (s : string) : bool :=
  match s with
  | EmptyString => false
  | String c rest =>
      match rest with
      | EmptyString => false
      | String c' _ => (is_K c && is_E c') || hasKE rest
      end
  end.

Fixpoint endsK (s : string) : bool :=
  match s with
  | EmptyString => false
  | String c rest =>
      match rest with
      | EmptyString => is_K c
      | String _ _ => endsK rest
      end
  end.

Fixpoint hasK (s : string) : bool :=
  match s with
  | EmptyString => false
  | String c rest => is_K c || hasK rest
  end.

(** ** The orchestrator's calls, and sample inputs *)

(** The collaborator calls of a run that finds the token, in order. *)
Definition calls_when_found (tokenMint : string) : list Call :=
  [Call_getTokenInfo tokenMint; Call_analyzeTokenEconomics tokenMint;
   Call_analyzeSocialSignals tokenMint; Call_analyzeCode tokenMint].

Open Scope string_scope.
Open Scope Z_scope.

(** The aggregation as the specification words it: each sub-score
    normalised as it stands, weighted, summed -- and then rounded. *)
Definition weighted_sum (x y z : number) : number :=
  add (add (mul (normalizeScore x) (decimal 5 10))
           (mul (normalizeScore y) (decimal 3 10)))
      (mul (normalizeScore z) (decimal 2 10)).

Definition spec_aggregate (x y z : number) : number :=
  Math_round (weighted_sum x y z).

(** Sample inputs. *)
Definition scored (score : Z) : SubAnalysis :=
  {| riskScore := Some (of_Z score); redFlags := None |}.

Definition flagged (flags : list string) : SubAnalysis :=
  {| riskScore := None; redFlags := Some flags |}.

Definition unscored : SubAnalysis :=
  {| riskScore := None; redFlags := None |}.

Definition nan_scored : SubAnalysis :=
  {| riskScore := Some NaN; redFlags := None |}.

Definition fulfilled_at (t : nat) (a : SubAnalysis) : Promise SubAnalysis :=
  {| settles_at := t; state := Fulfilled a |}.

Definition rejected_at (t : nat) (message : string) : Promise SubAnalysis :=
  {| settles_at := t; state := Rejected (Error message) |}.

Definition sample_detector (info : settled (option TokenInfo))
    (p1 p2 p3 : Promise SubAnalysis) : RugPullDetector :=
  {| chainAnalyzer := {| getTokenInfo := fun _ => info;
                         analyzeTokenEconomics := fun _ => p1 |};
     socialAnalyzer := {| analyzeSocialSignals := fun _ => p2 |};
     codeAnalyzer := {| analyzeCode := fun _ => p3 |};
     clock_ISO := "2024-01-01T00:00:00.000Z" |}.

Definition found : settled (option TokenInfo) :=
  Fulfilled (Some {| symbol := Some "TEST" |}).

(** The four pairs of headlines, one per band. *)
Definition headline_pairs : list (list string) :=
  [["DO NOT BUY - HIGH RUG PULL RISK"; "Avoid this token completely"];
   ["EXTREME CAUTION - High risk detected";
    "Only invest what you can afford to lose"];
   ["MODERATE CAUTION - Some red flags present";
    "Research thoroughly before investing"];
   ["APPEARS LEGITIMATE - Low risk detected";
    "Still exercise normal caution with new tokens"]]%string.

Close Scope Z_scope.

(** * The rest of the code *)

(** ** Case conversion *)

(** [toLowerCase] and [toUpperCase] on the characters of ASCII; they are the
    engine's conversions on strings of ASCII characters. *)
Definition ascii_toLowerCase (c : ascii) : ascii :=
  let n := nat_of_ascii c in
  if ((65 <=? n) && (n <=? 90))%nat then ascii_of_nat (n + 32) else c.

Definition ascii_toUpperCase (c : ascii) : ascii :=
  let n := nat_of_ascii c in
  if ((97 <=? n) && (n <=? 122))%nat then ascii_of_nat (n - 32) else c.

Fixpoint string_map (f : ascii -> ascii) (s : string) : string :=
  match s with
  | EmptyString => EmptyString
  | String c rest => String (f c) (string_map f rest)
  end.

Definition toLowerCase (s : string) : string := string_map ascii_toLowerCase s.
Definition toUpperCase (s : string) : string := string_map ascii_toUpperCase s.

Fixpoint is_ascii (s : string) : bool :=
  match s with
  | EmptyString => true
  | String c rest => (nat_of_ascii c <? 128)%nat && is_ascii rest
  end.

(** ** [RugPullDetector.analyzeTokenBySymbol] *)

Module SymbolAnalysis.
Record t : Type := {
  tokenSymbol : string;
  riskScore : number;
  riskLevel : string;
  onChainIssues : list string;
  socialIssues : list string;
  codeIssues : list string;
  recommendations : list string
}.
End SymbolAnalysis.

Section BySymbol.

(** [String.prototype.toLowerCase], a built-in of the host. *)
Variable String_toLowerCase : string -> string.

Definition analyzeTokenBySymbol (symbol : string) : SymbolAnalysis.t :=
  if includes (String_toLowerCase symbol) "fake"
     || includes (String_toLowerCase symbol) "rug" then
    {| SymbolAnalysis.tokenSymbol := symbol;
       SymbolAnalysis.riskScore := of_Z 92;
       SymbolAnalysis.riskLevel := "CRITICAL";
       SymbolAnalysis.onChainIssues :=
         ["Mint authority not renounced"; "Single wallet holds 95% supply"];
       SymbolAnalysis.socialIssues :=
         ["Bot activity detected"; "Fake influencer campaigns"];
       SymbolAnalysis.codeIssues :=
         ["Backdoor functions found"; "Upgradeable contract"];
       SymbolAnalysis.recommendations :=
         ["DO NOT BUY - HIGH RUG PULL RISK"; "Avoid this token completely"] |}
  else if includes (String_toLowerCase symbol) "moon"
          || includes (String_toLowerCase symbol) "shot" then
    {| SymbolAnalysis.tokenSymbol := symbol;
       SymbolAnalysis.riskScore := of_Z 78;
       SymbolAnalysis.riskLevel := "HIGH";
       SymbolAnalysis.onChainIssues :=
         ["LP tokens not locked"; "Anonymous team"];
       SymbolAnalysis.socialIssues := ["Suspicious Telegram activity"];
       SymbolAnalysis.codeIssues := [];
       SymbolAnalysis.recommendations :=
         ["EXTREME CAUTION - High risk detected";
          "Only invest what you can afford to lose"] |}
  else
    {| SymbolAnalysis.tokenSymbol := symbol;
       SymbolAnalysis.riskScore := of_Z 23;
       SymbolAnalysis.riskLevel := "LOW";
       SymbolAnalysis.onChainIssues := [];
       SymbolAnalysis.socialIssues := [];
       SymbolAnalysis.codeIssues := [];
       SymbolAnalysis.recommendations :=
         ["APPEARS LEGITIMATE - Low risk detected";
          "Still exercise normal caution with new tokens"] |}.

End BySymbol.

(** ** [TelegramBot]: labels, emoji and advice *)

Module Bot.

Definition getRiskLevel (score : number) : string :=
  if ge score (of_Z 80) then "CRITICAL"
  else if ge score (of_Z 60) then "HIGH RISK"
  else if ge score (of_Z 40) then "MEDIUM RISK"
  else "LOW RISK".

(** A [switch] compares with [===]. *)
Definition getRiskEmoji (level : string) : string :=
  if String.eqb level "CRITICAL" then "🚨"
  else if String.eqb level "HIGH RISK" then "⚠️"
  else if String.eqb level "MEDIUM RISK" then "🟡"
  else "✅".

Definition getRecommendation (score : number) : string :=
  if ge score (of_Z 80) then "DO NOT BUY - HIGH RUG PULL RISK"
  else if ge score (of_Z 60) then "EXTREME CAUTION - HIGH RISK"
  else if ge score (of_Z 40) then "PROCEED WITH CAUTION"
  else "APPEARS LEGITIMATE - but always DYOR".

End Bot.

(** ** More of the host: [Math.floor], [Math.random], [try]/[catch] *)

(** [Math.floor(x)]: for [x = (-1)^s * m * 2^e] with [e < 0] the integer
    [floor x]; a result of zero is [+0] (it arises for [0 < x < 1] only);
    integral and non-finite arguments are returned unchanged. *)
Definition floor_integer (s : bool) (m : positive) (e : Z) : Z :=
  (cond_Zopp s (Zpos m) / 2 ^ (- e))%Z.

Definition Math_floor (x : number) : number :=
  match x with
  | S754_finite s m e =>
      if (0 <=? e)%Z then x
      else
        let r := floor_integer s m e in
        if (r =? 0)%Z then S754_zero s else of_Z r
  | _ => x
  end.

Definition sub : number -> number -> number := SFsub prec emax.

(** A value of [Math.random()]: a binary64 number that is at least [0] and
    less than [1] (and not [-0]). *)
Definition is_random (r : number) : bool :=
  valid_binary prec emax r && negb (is_neg_zero r)
  && le (of_Z 0) r && lt r (of_Z 1).

(** ToNumber of a number that may be [null]. *)
Definition to_number (v : option number) : number :=
  match v with
  | Some x => x
  | None => of_Z 0
  end.

(** [arr.includes(x)] on an array of strings. *)
Definition Array_includes (arr : list string) (x : string) : bool :=
  existsb (String.eqb x) arr.

(** Code that returns or throws, and [try { body } catch (error) { handler }]. *)
Definition settled_bind {A B : Type} (m : settled A) (k : A -> settled B)
  : settled B :=
  match m with
  | Fulfilled a => k a
  | Rejected e => Rejected e
  end.

Definition settled_catch {A : Type} (body : settled A)
    (handler : JsError -> settled A) : settled A :=
  match body with
  | Fulfilled a => Fulfilled a
  | Rejected e => handler e
  end.

Definition settled_map {A B : Type} (f : A -> B) (m : settled A) : settled B :=
  settled_bind m (fun a => Fulfilled (f a)).

Definition message_of (e : JsError) : string :=
  match e with Error message => message end.

(** ** [ChainAnalyzer] *)

(** The data of the two versions of the class, and the version that the
    detector uses (the one with [analyzeTokenEconomics]). *)
Module Chain.

Record MintInfo : Type := {
  totalSupply : option string;
  mintAuthorityRenounced : bool;
  decimals : option N
}.

Record Holder : Type := {
  address : string;
  amount : option number;
  percentage : number
}.

Record LpInfo : Type := {
  lpLocked : bool;
  lpAmount : number;
  poolAddress : option string
}.

(** The result of one of the three analyzers; [topHolders] is set by the
    first version of the holder analyzer only. *)
Record Risk : Type := {
  score : number;
  issues : list string;
  description : string;
  topHolders : option (list Holder)
}.

(** The account data is a buffer of bytes. *)
Record AccountInfo : Type := { data : option (list N) }.

(** The RPC connection; keys are given by their addresses.
    [getTokenSupply] stands for the [value.uiAmountString] of the answer,
    [getTokenLargestAccounts] for the addresses in its [value], and
    [getTokenAccountBalance] for its [value.uiAmount]. *)
Record Connection : Type := {
  getTokenSupply : string -> settled (option string);
  getAccountInfo : string -> settled (option AccountInfo);
  getTokenLargestAccounts : string -> settled (list string);
  getTokenAccountBalance : string -> settled (option number)
}.

(** [buffer.slice(first, last)]. *)
Definition Buffer_slice (first last : nat) (buffer : list N) : list N :=
  firstn (last - first) (skipn first buffer).

(** [buffer.readUInt8(offset)], which throws when the offset is out of
    range. *)
Definition Buffer_readUInt8 (buffer : list N) (offset : nat) : settled N :=
  match nth_error buffer offset with
  | Some byte => Fulfilled byte
  | None => Rejected (Error "The value of offset is out of range")
  end.

(** [!accountInfo?.data?.slice(36, 68).some(byte => byte !== 0)]. *)
Definition no_mint_authority (accountInfo : option AccountInfo) : bool :=
  negb match accountInfo with
       | Some {| data := Some buffer |} =>
           existsb (fun byte => negb (byte =? 0)%N) (Buffer_slice 36 68 buffer)
       | _ => false
       end.

(** [accountInfo?.data?.readUInt8(44)]. *)
Definition read_decimals (accountInfo : option AccountInfo)
  : settled (option N) :=
  match accountInfo with
  | Some {| data := Some buffer |} =>
      settled_map Some (Buffer_readUInt8 buffer 44)
  | _ => Fulfilled None
  end.

(** The percentages of the tracked total, as both versions of
    [getHolderDistribution] set them. *)
Definition set_percentages (holders : list Holder) : list Holder :=
  let totalTracked :=
    fold_left (fun sum holder => add sum (or_zero (amount holder)))
      holders (of_Z 0) in
  map (fun holder =>
         {| address := address holder;
            amount := amount holder;
            percentage :=
              if gt totalTracked (of_Z 0)
              then mul (div (to_number (amount holder)) totalTracked)
                     (of_Z 100)
              else of_Z 0 |})
      holders.

(** [getTokenInfo]: the two requests are awaited together; [draw] is the
    value of [Math.random()] in the handler. *)
Definition getTokenInfo (connection : Connection) (mintPublicKey : string)
    (draw : number) : settled MintInfo :=
  settled_catch
    (settled_bind (getTokenSupply connection mintPublicKey)
       (fun uiAmountString =>
     settled_bind (getAccountInfo connection mintPublicKey)
       (fun accountInfo =>
     let mintAuthorityRenounced := no_mint_authority accountInfo in
     settled_bind (read_decimals accountInfo) (fun decimals =>
     Fulfilled {| totalSupply := uiAmountString;
                  mintAuthorityRenounced := mintAuthorityRenounced;
                  decimals := decimals |}))))
    (fun error =>
       Fulfilled {| totalSupply := Some "1000000";
                    mintAuthorityRenounced := gt draw (decimal 3 10);
                    decimals := Some 9%N |}).

(** [generateRandomHolders]: five holders; [draw i] is the value of
    [Math.random()] in the round [i] of the loop. *)
Definition generateRandomHolders (draw : nat -> number) : list Holder :=
  fst
    (fold_left
       (fun '(holders, remaining) i =>
          let percentage :=
            if (i =? 4)%nat then remaining
            else mul (mul (draw i) remaining) (decimal 7 10) in
          (push holders
             {| address :=
                  "holder_" ++ integer_toString (of_Z (Z.of_nat i))
                  ++ "_address";
                amount := Some (of_Z 0);
                percentage := percentage |},
           sub remaining percentage))
       (seq 0 5) ([], of_Z 100)).

(** [getHolderDistribution]: an account whose balance cannot be read is
    skipped. *)
Definition getHolderDistribution (connection : Connection)
    (mintPublicKey : string) (draw : nat -> number) : settled (list Holder) :=
  settled_catch
    (settled_bind (getTokenLargestAccounts connection mintPublicKey)
       (fun largestAccounts =>
     let holders :=
       fold_left
         (fun holders account =>
            match getTokenAccountBalance connection account with
            | Fulfilled uiAmount =>
                push holders {| address := account;
                                amount := Some (or_zero uiAmount);
                                percentage := of_Z 0 |}
            | Rejected err => holders
            end)
         (slice0 5 largestAccounts) [] in
     if (List.length holders =? 0)%nat then
       Fulfilled (generateRandomHolders draw)
     else Fulfilled (set_percentages holders)))
    (fun error => Fulfilled (generateRandomHolders draw)).

Definition analyzeMintAuthority (tokenInfo : MintInfo) : Risk :=
  let score :=
    if mintAuthorityRenounced tokenInfo then of_Z 0 else of_Z 100 in
  let issues : list string := [] in
  let issues :=
    if negb (mintAuthorityRenounced tokenInfo)
    then push issues
           "Mint authority not renounced - developers can create unlimited tokens"
    else issues in
  {| score := score;
     issues := issues;
     description :=
       if mintAuthorityRenounced tokenInfo
       then "âœ… Mint authority renounced - safe from unlimited minting"
       else "ðŸ”´ Mint authority NOT renounced - HIGH RISK";
     topHolders := None |}.

(** [holders.slice(0, 3).reduce((sum, holder) => sum + holder.percentage, 0)]. *)
Definition top3 (holders : list Holder) : number :=
  fold_left (fun sum holder => add sum (percentage holder))
    (slice0 3 holders) (of_Z 0).

(** The score and the issues of a concentration, by its thresholds. *)
Definition concentration (Number_toFixed1 : number -> string)
    (top3Percentage : number) : number * list string :=
  let score := of_Z 0 in
  let issues : list string := [] in
  if gt top3Percentage (of_Z 90) then
    (of_Z 100,
     push issues
       ("Top 3 wallets hold " ++ Number_toFixed1 top3Percentage
        ++ "% of supply - extreme concentration"))
  else if gt top3Percentage (of_Z 70) then
    (of_Z 75,
     push issues
       ("Top 3 wallets hold " ++ Number_toFixed1 top3Percentage
        ++ "% of supply - high concentration"))
  else if gt top3Percentage (of_Z 50) then
    (of_Z 50,
     push issues
       ("Top 3 wallets hold " ++ Number_toFixed1 top3Percentage
        ++ "% of supply - moderate concentration"))
  else (of_Z 0, issues).

(** [issues[0]] in a template literal. *)
Definition first_issue (issues : list string) : string :=
  match issues with
  | issue :: _ => issue
  | [] => "undefined"
  end.

Section Holders.

(** [x.toFixed(1)], a built-in of the host. *)
Variable Number_toFixed1 : number -> string.

Definition analyzeHolderConcentration (holders : list Holder) : Risk :=
  if (List.length holders =? 0)%nat then
    {| score := of_Z 50;
       issues := ["Could not analyze holder distribution"];
       description := "âš ï¸ Unknown holder distribution";
       topHolders := None |}
  else
    let top3Percentage := top3 holders in
    let '(score, issues) := concentration Number_toFixed1 top3Percentage in
    {| score := score;
       issues := issues;
       description :=
         if strict_eq score (of_Z 0)
         then "âœ… Good holder distribution - decentralized ownership"
         else "ðŸ”´ High holder concentration - " ++ first_issue issues;
       topHolders := None |}.

End Holders.

Definition analyzeLiquidityPool (lpInfo : LpInfo) : Risk :=
  let score := if lpLocked lpInfo then of_Z 0 else of_Z 100 in
  let issues : list string := [] in
  let issues :=
    if negb (lpLocked lpInfo)
    then push issues
           "Liquidity pool not locked - developers can remove all liquidity instantly"
    else issues in
  {| score := score;
     issues := issues;
     description :=
       if lpLocked lpInfo
       then "âœ… Liquidity pool locked - safe from rug pull"
       else "ðŸ”´ Liquidity pool NOT locked - HIGH RISK";
     topHolders := None |}.

(** The constant arrays of [isPopularToken] and [getDemoAnalysis]. *)
Definition popularTokens : list string :=
  ["So11111111111111111111111111111111111111112";
   "EPjFWdd5AufqSSqeM2qN1xzybapC8G4wEGGkZwyTDt1v";
   "Es9vMFrzaCERmJfrF3MD5YNpsrZ3tqKfv8GbpowcGYPS";
   "4k3Dyjzvzp8eMZWUXbBCjEvwSkkk59S5iCNLY3QrkX6R"].

Definition safeTokens : list string :=
  ["So11111111111111111111111111111111111111112";
   "EPjFWdd5AufqSSqeM2qN1xzybapC8G4wEGGkZwyTDt1v";
   "Es9vMFrzaCERmJfrF3MD5YNpsrZ3tqKfv8GbpowcGYPS";
   "EKpQGSJtjMFqKZ9KQanSqYXRcF8fBopzLHYxdM65zcjm";
   "4k3Dyjzvzp8eMZWUXbBCjEvwSkkk59S5iCNLY3QrkX6R"].

Definition riskyTokens : list string :=
  ["Coq3LbB52jzCxk5W8SJTyK3SB83sYTKEjs2JmHaoSGxS";
   "6dhTynDkYsVM7cbF7TKfC9DWB636TcEM935fq7JzL2ES";
   "EKpQGSJtjMFqKZ9KQanSqYXRcF8fBopzLHYxdM65zcjm"].

Definition isPopularToken (mintAddress : string) : bool :=
  Array_includes popularTokens mintAddress.

(** [getLiquidityPoolInfo]; the draws are the values of the two calls of
    [Math.random()], made for tokens that are not popular. *)
Definition getLiquidityPoolInfo (locked_draw amount_draw : number)
    (tokenMintAddress : string) : LpInfo :=
  let isPopularToken := isPopularToken tokenMintAddress in
  {| lpLocked :=
       if isPopularToken then true else gt locked_draw (decimal 6 10);
     lpAmount :=
       if isPopularToken then of_Z 1000000
       else mul amount_draw (of_Z 100000);
     poolAddress := None |}.

Inductive Details : Type :=
| RealDetails (mintAuthority holderDistribution liquidityPool : Risk)
| DemoDetails (mintAuthority holderDistribution liquidityPool : number).

Record Analysis : Type := {
  riskScore : number;
  redFlags : list string;
  details : Details
}.

(** The values of [Math.random()] in [getDemoAnalysis], in the order of
    the calls. *)
Record DemoDraws : Type := {
  score_draw : number;
  mint_draw : number;
  holder_draw : number;
  lp_draw : number
}.

Definition getDemoAnalysis (draws : DemoDraws) (tokenMintAddress : string)
  : Analysis :=
  let '(riskScore, redFlags) :=
    if Array_includes safeTokens tokenMintAddress then
      (Math_floor (mul (score_draw draws) (of_Z 20)), [])
    else if Array_includes riskyTokens tokenMintAddress then
      (add (of_Z 60) (Math_floor (mul (score_draw draws) (of_Z 30))),
       ["High social media hype without fundamentals";
        "Anonymous development team";
        "Limited liquidity depth"])
    else
      (add (of_Z 40) (Math_floor (mul (score_draw draws) (of_Z 30))),
       ["New token with limited trading history";
        "Verify project legitimacy before investing"]) in
  {| riskScore := riskScore;
     redFlags := redFlags;
     details :=
       DemoDetails
         (if gt (mint_draw draws) (decimal 5 10) then of_Z 0 else of_Z 100)
         (mul (holder_draw draws) (of_Z 100))
         (if gt (lp_draw draws) (decimal 7 10) then of_Z 0 else of_Z 100) |}.

(** What an analyzer instance holds and reaches: its mode, its connection,
    the constructor of public keys (which throws on an invalid address),
    and the values of [Math.random()] at each place that calls it. *)
Record Env : Type := {
  demoMode : bool;
  connection : Connection;
  PublicKey_new : string -> settled string;
  tokenInfo_draw : number;
  holders_draw : nat -> number;
  locked_draw : number;
  amount_draw : number;
  demo_draws : DemoDraws
}.

Definition isValidSolanaAddress (this : Env) (address : string) : bool :=
  match PublicKey_new this address with
  | Fulfilled _ => true
  | Rejected _ => false
  end.

Section Economics.

Variable Number_toFixed1 : number -> string.

Definition analyzeTokenEconomics (this : Env) (tokenMintAddress : string)
  : settled Analysis :=
  settled_catch
    (if negb (isValidSolanaAddress this tokenMintAddress) then
       Rejected (Error "Invalid Solana address format")
     else if demoMode this then
       Fulfilled (getDemoAnalysis (demo_draws this) tokenMintAddress)
     else
       settled_bind (PublicKey_new this tokenMintAddress)
         (fun mintPublicKey =>
       settled_bind
         (getTokenInfo (connection this) mintPublicKey (tokenInfo_draw this))
         (fun tokenInfo =>
       settled_bind
         (getHolderDistribution (connection this) mintPublicKey
            (holders_draw this))
         (fun holderDistribution =>
       let lpInfo :=
         getLiquidityPoolInfo (locked_draw this) (amount_draw this)
           tokenMintAddress in
       let mintRisk := analyzeMintAuthority tokenInfo in
       let holderRisk :=
         analyzeHolderConcentration Number_toFixed1 holderDistribution in
       let lpRisk := analyzeLiquidityPool lpInfo in
       let totalRiskScore :=
         Math_round
           (add (add (mul (score mintRisk) (decimal 4 10))
                     (mul (score holderRisk) (decimal 35 100)))
                (mul (score lpRisk) (decimal 25 100))) in
       Fulfilled
         {| riskScore := totalRiskScore;
            redFlags :=
              (issues mintRisk ++ issues holderRisk ++ issues lpRisk)%list;
            details := RealDetails mintRisk holderRisk lpRisk |}))))
    (fun error =>
       Fulfilled (getDemoAnalysis (demo_draws this) tokenMintAddress)).

End Economics.

End Chain.

(** ** The first version of [ChainAnalyzer], with [analyzeToken] *)

Module ChainV1.

Definition getTokenInfo (connection : Chain.Connection)
    (mintPublicKey : string) : settled Chain.MintInfo :=
  settled_catch
    (settled_bind (Chain.getTokenSupply connection mintPublicKey)
       (fun uiAmountString =>
     settled_bind (Chain.getAccountInfo connection mintPublicKey)
       (fun accountInfo =>
     let mintAuthorityRenounced := Chain.no_mint_authority accountInfo in
     settled_bind (Chain.read_decimals accountInfo) (fun decimals =>
     Fulfilled {| Chain.totalSupply := uiAmountString;
                  Chain.mintAuthorityRenounced := mintAuthorityRenounced;
                  Chain.decimals := decimals |}))))
    (fun error =>
       Fulfilled {| Chain.totalSupply := None;
                    Chain.mintAuthorityRenounced := false;
                    Chain.decimals := None |}).

Definition analyzeMintAuthority (tokenInfo : Chain.MintInfo) : Chain.Risk :=
  let score :=
    if Chain.mintAuthorityRenounced tokenInfo then of_Z 0 else of_Z 100 in
  let issues : list string := [] in
  let issues :=
    if negb (Chain.mintAuthorityRenounced tokenInfo)
    then push issues
           "Mint authority not renounced - developers can create unlimited tokens"
    else issues in
  {| Chain.score := score;
     Chain.issues := issues;
     Chain.description :=
       if Chain.mintAuthorityRenounced tokenInfo
       then "✅ Mint authority renounced - safe from unlimited minting"
       else "🔴 Mint authority NOT renounced - HIGH RISK";
     Chain.topHolders := None |}.

(** [getHolderDistribution]: a balance that cannot be read fails the whole
    request, which then yields no holder. *)
Definition getHolderDistribution (connection : Chain.Connection)
    (mintPublicKey : string) : settled (list Chain.Holder) :=
  settled_catch
    (settled_bind (Chain.getTokenLargestAccounts connection mintPublicKey)
       (fun largestAccounts =>
     settled_bind
       (fold_left
          (fun acc account =>
             settled_bind acc (fun holders =>
             settled_bind (Chain.getTokenAccountBalance connection account)
               (fun uiAmount =>
             Fulfilled
               (push holders {| Chain.address := account;
                                Chain.amount := uiAmount;
                                Chain.percentage := of_Z 0 |}))))
          (slice0 10 largestAccounts) (Fulfilled []))
       (fun holders => Fulfilled (Chain.set_percentages holders))))
    (fun error => Fulfilled []).

Section Analyzer.

Variable Number_toFixed1 : number -> string.

Definition analyzeHolderConcentration (holders : list Chain.Holder)
  : Chain.Risk :=
  if (List.length holders =? 0)%nat then
    {| Chain.score := of_Z 50;
       Chain.issues := ["Could not analyze holder distribution"];
       Chain.description := "⚠️ Unknown holder distribution";
       Chain.topHolders := None |}
  else
    let top3Percentage := Chain.top3 holders in
    let '(score, issues) :=
      Chain.concentration Number_toFixed1 top3Percentage in
    let description :=
      if strict_eq score (of_Z 0)
      then "✅ Good holder distribution - decentralized ownership"
      else "🔴 High holder concentration - " ++ Chain.first_issue issues in
    {| Chain.score := score;
       Chain.issues := issues;
       Chain.description := description;
       Chain.topHolders := Some (slice0 5 holders) |}.

Definition getLiquidityPoolInfo (locked_draw amount_draw : number)
    (tokenMintAddress : string) : Chain.LpInfo :=
  {| Chain.lpLocked := gt locked_draw (decimal 7 10);
     Chain.lpAmount := mul amount_draw (of_Z 1000000);
     Chain.poolAddress := None |}.

Definition analyzeLiquidityPool (lpInfo : Chain.LpInfo) : Chain.Risk :=
  let score := if Chain.lpLocked lpInfo then of_Z 0 else of_Z 100 in
  let issues : list string := [] in
  let issues :=
    if negb (Chain.lpLocked lpInfo)
    then push issues
           "Liquidity pool not locked - developers can remove all liquidity instantly"
    else issues in
  {| Chain.score := score;
     Chain.issues := issues;
     Chain.description :=
       if Chain.lpLocked lpInfo
       then "✅ Liquidity pool locked - safe from rug pull"
       else "🔴 Liquidity pool NOT locked - HIGH RISK";
     Chain.topHolders := None |}.

Definition getRiskLevel (score : number) : string :=
  if ge score (of_Z 80) then "CRITICAL"
  else if ge score (of_Z 60) then "HIGH"
  else if ge score (of_Z 40) then "MEDIUM"
  else if ge score (of_Z 20) then "LOW"
  else "SAFE".

Definition generateRecommendations (totalScore : number)
    (mintRisk holderRisk lpRisk : Chain.Risk) : list string :=
  let recommendations : list string := [] in
  let recommendations :=
    if ge totalScore (of_Z 80) then
      push (push recommendations
              "🚨 DO NOT BUY - Extremely high rug pull risk")
        "💡 Wait for proper audits and LP locking before considering"
    else if ge totalScore (of_Z 60) then
      push (push recommendations "⚠️ HIGH RISK - Exercise extreme caution")
        "💡 Only invest what you can afford to lose completely"
    else if ge totalScore (of_Z 40) then
      push (push recommendations "🟡 MEDIUM RISK - Proceed with caution")
        "💡 Monitor closely and set stop-losses if trading"
    else
      push (push recommendations "✅ Appears legitimate - but always DYOR")
        "💡 Consider waiting for community adoption before large positions" in
  let recommendations :=
    if negb (includes (Chain.description mintRisk) "✅")
    then push recommendations
           "🔍 Verify mint authority is renounced before any investment"
    else recommendations in
  let recommendations :=
    if gt (Chain.score holderRisk) (of_Z 50)
    then push recommendations
           "🔍 Monitor top wallet movements for potential dumps"
    else recommendations in
  let recommendations :=
    if negb (includes (Chain.description lpRisk) "✅")
    then push recommendations
           "🔍 Confirm LP tokens are locked in a reputable locker"
    else recommendations in
  recommendations.

Record Analysis : Type := {
  mintAuthority : Chain.Risk;
  holderDistribution : Chain.Risk;
  liquidityPool : Chain.Risk
}.

Record Report : Type := {
  tokenAddress : string;
  timestamp : string;
  riskScore : number;
  riskLevel : string;
  analysis : Analysis;
  recommendations : list string
}.

Record Env : Type := {
  connection : Chain.Connection;
  PublicKey_new : string -> settled string;
  locked_draw : number;
  amount_draw : number;
  (** [new Date().toISOString()] at the time of the report *)
  clock_ISO : string
}.

Definition analyzeToken (this : Env) (tokenMintAddress : string)
  : settled Report :=
  settled_catch
    (settled_bind (PublicKey_new this tokenMintAddress) (fun mintPublicKey =>
     settled_bind (getTokenInfo (connection this) mintPublicKey)
       (fun tokenInfo =>
     settled_bind (getHolderDistribution (connection this) mintPublicKey)
       (fun holderDistribution =>
     let lpInfo :=
       getLiquidityPoolInfo (locked_draw this) (amount_draw this)
         tokenMintAddress in
     let mintRisk := analyzeMintAuthority tokenInfo in
     let holderRisk := analyzeHolderConcentration holderDistribution in
     let lpRisk := analyzeLiquidityPool lpInfo in
     let totalRiskScore :=
       Math_round
         (add (add (mul (Chain.score mintRisk) (decimal 4 10))
                   (mul (Chain.score holderRisk) (decimal 35 100)))
              (mul (Chain.score lpRisk) (decimal 25 100))) in
     Fulfilled
       {| tokenAddress := tokenMintAddress;
          timestamp := clock_ISO this;
          riskScore := totalRiskScore;
          riskLevel := getRiskLevel totalRiskScore;
          analysis := {| mintAuthority := mintRisk;
                         holderDistribution := holderRisk;
                         liquidityPool := lpRisk |};
          recommendations :=
            generateRecommendations totalRiskScore mintRisk holderRisk
              lpRisk |}))))
    (fun error =>
       Rejected
         (Error ("Failed to analyze token " ++ tokenMintAddress ++ ": "
                 ++ message_of error))).

End Analyzer.

End ChainV1.

(** ** [SocialAnalyzer] and [CodeAnalyzer] *)

(** In both, [draw] is the value of [Math.random()]. *)
Module Social.

Record Analysis : Type := {
  riskScore : number;
  redFlags : list string;
  analysis : string
}.

Definition analyzeSocialSignals (draw : number) (tokenMint : string)
  : Analysis :=
  let riskScore := mul draw (of_Z 100) in
  let redFlags : list string := [] in
  let redFlags :=
    if gt riskScore (of_Z 70) then
      push (push redFlags "Suspicious social media activity detected")
        "Potential bot network promoting token"
    else if gt riskScore (of_Z 50) then
      push redFlags "Limited genuine community engagement"
    else redFlags in
  {| riskScore := Math_round riskScore;
     redFlags := redFlags;
     analysis := "Social media analysis completed" |}.

End Social.

Module Code.

Record Analysis : Type := {
  riskScore : number;
  redFlags : list string;
  greenFlags : list string
}.

Definition analyzeCode (draw : number) (tokenMint : string) : Analysis :=
  let riskScore := mul draw (of_Z 100) in
  {| riskScore := riskScore;
     redFlags :=
       if gt riskScore (of_Z 70)
       then ["Potential backdoor functions detected";
             "Upgradeable contract without timelock"]
       else [];
     greenFlags :=
       if le riskScore (of_Z 30)
       then ["Contract is simple and audited"; "No upgradeable functions"]
       else [] |}.

End Code.

(** ** The detector with its own analyzers *)

(** What the detector reads of the analyzers' results. *)
Definition chain_result (a : Chain.Analysis) : SubAnalysis :=
  {| riskScore := Some (Chain.riskScore a);
     redFlags := Some (Chain.redFlags a) |}.

Definition social_result (a : Social.Analysis) : SubAnalysis :=
  {| riskScore := Some (Social.riskScore a);
     redFlags := Some (Social.redFlags a) |}.

Definition code_result (a : Code.Analysis) : SubAnalysis :=
  {| riskScore := Some (Code.riskScore a);
     redFlags := Some (Code.redFlags a) |}.

(** The token info of the chain analyzer has no [symbol]. *)
Definition mint_token_info (info : Chain.MintInfo) : TokenInfo :=
  {| symbol := None |}.

(** The surroundings of a detector made by [new RugPullDetector()]: those
    of its chain analyzer, the values of [Math.random()] in the other
    calls, the times at which the three analyses settle, and the clock. *)
Record World : Type := {
  chain : Chain.Env;
  info_draw : number;
  social_draw : number;
  code_draw : number;
  economics_settles_at : nat;
  social_settles_at : nat;
  code_settles_at : nat;
  now_ISO : string
}.

Section Constructor.

Variable Number_toFixed1 : number -> string.

Definition new_RugPullDetector (w : World) : RugPullDetector :=
  {| chainAnalyzer :=
       {| getTokenInfo := fun tokenMint =>
            settled_map (fun info => Some (mint_token_info info))
              (Chain.getTokenInfo (Chain.connection (chain w)) tokenMint
                 (info_draw w));
          analyzeTokenEconomics := fun tokenMint =>
            {| settles_at := economics_settles_at w;
               state :=
                 settled_map chain_result
                   (Chain.analyzeTokenEconomics Number_toFixed1 (chain w)
                      tokenMint) |} |};
     socialAnalyzer :=
       {| analyzeSocialSignals := fun tokenMint =>
            {| settles_at := social_settles_at w;
               state :=
                 Fulfilled
                   (social_result
                      (Social.analyzeSocialSignals (social_draw w)
                         tokenMint)) |} |};
     codeAnalyzer :=
       {| analyzeCode := fun tokenMint =>
            {| settles_at := code_settles_at w;
               state :=
                 Fulfilled
                   (code_result (Code.analyzeCode (code_draw w) tokenMint))
            |} |};
     clock_ISO := now_ISO w |}.

End Constructor.

(** ** JavaScript values *)

(** The values of the token lists and of the requests: what [JSON.parse]
    yields. *)
#[local] Set Warnings "-register-all".
Inductive JsValue : Type :=
| JsUndefined
| JsNull
| JsBoolean (b : bool)
| JsNum (x : number)
| JsString (s : string)
| JsArray (items : list JsValue)
| JsObject (properties : list (string * JsValue)).

Module Js.

(** ToBoolean. *)
Definition truthy (v : JsValue) : bool :=
  match v with
  | JsUndefined | JsNull => false
  | JsBoolean b => b
  | JsNum x => ToBoolean x
  | JsString EmptyString => false
  | JsString _ => true
  | JsArray _ | JsObject _ => true
  end.

Fixpoint lookup (properties : list (string * JsValue)) (name : string)
  : JsValue :=
  match properties with
  | [] => JsUndefined
  | (key, v) :: rest => if String.eqb key name then v else lookup rest name
  end.

(** [v.name], for the names the code reads ([tokens], [data], [symbol],
    [name], [address], [symbols]): none is a property of an array or of
    a primitive value, and reading a property of [null] or [undefined]
    throws. *)
Definition get (v : JsValue) (name : string) : settled JsValue :=
  match v with
  | JsUndefined | JsNull =>
      Rejected (Error ("Cannot read properties of null or undefined (reading '"
                       ++ name ++ "')"))
  | JsObject properties => Fulfilled (lookup properties name)
  | _ => Fulfilled JsUndefined
  end.

(** [v?.name]. *)
Definition get_optional (v : JsValue) (name : string) : JsValue :=
  match v with
  | JsObject properties => lookup properties name
  | _ => JsUndefined
  end.

Definition Array_isArray (v : JsValue) : bool :=
  match v with JsArray _ => true | _ => false end.

Fixpoint characters (s : string) : list JsValue :=
  match s with
  | EmptyString => []
  | String c rest => JsString (String c EmptyString) :: characters rest
  end.

(** [Object.values(v)]; the characters of an ASCII string. *)
Definition Object_values (v : JsValue) : settled (list JsValue) :=
  match v with
  | JsUndefined | JsNull =>
      Rejected (Error "Cannot convert undefined or null to object")
  | JsObject properties => Fulfilled (map snd properties)
  | JsArray items => Fulfilled items
  | JsString s => Fulfilled (characters s)
  | _ => Fulfilled []
  end.

(** [a || b] on values. *)
Definition or_else (a b : JsValue) : JsValue := if truthy a then a else b.

Fixpoint own (properties : list (string * JsValue)) (name : string)
  : option JsValue :=
  match properties with
  | [] => None
  | (key, v) :: rest => if String.eqb key name then Some v else own rest name
  end.

(** The own enumerable property [name] of [v], which a spread [...v]
    copies, for a name that is not an index ([symbol]): an object alone
    can have one.  The own enumerable properties of an array and of a
    string are their indices, a number and a boolean have none, and a
    spread skips [null] and [undefined]. *)
Definition own_property (v : JsValue) (name : string) : option JsValue :=
  match v with
  | JsObject properties => own properties name
  | _ => None
  end.

End Js.

(** ** [TokenResolver] *)

Module Resolver.

(** The token cache, a [Map] from strings: its entries in the order of
    their insertion. *)
Definition Map_get (m : list (string * JsValue)) (key : string) : JsValue :=
  Js.lookup m key.

Fixpoint Map_set (m : list (string * JsValue)) (key : string) (v : JsValue)
  : list (string * JsValue) :=
  match m with
  | [] => [(key, v)]
  | (k, old) :: rest =>
      if String.eqb k key then (k, v) :: rest
      else (k, old) :: Map_set rest key v
  end.

(** What a resolver holds and reaches: its token lists, the answers to
    [axios.get] (the [data] of the response, which may depend on the
    requests made before), and whether [new PublicKey(v)] succeeds. *)
Record Env : Type := {
  tokenLists : list string;
  axios_get : list string -> string -> settled JsValue;
  PublicKey_valid : JsValue -> bool
}.

Definition default_tokenLists : list string :=
  ["https://raw.githubusercontent.com/solana-labs/token-list/main/src/tokens/solana.tokenlist.json";
   "https://api.raydium.io/v2/sdk/token";
   "https://tokens.jup.ag/tokens"].

(** The state of a resolver: its cache, and the requests made so far. *)
Record State : Type := {
  tokenCache : list (string * JsValue);
  requests : list string
}.

Section Methods.

(** [String.prototype.toLowerCase], a built-in of the host. *)
Variable String_toLowerCase : string -> string.

(** [v?.toLowerCase() === lowered], for a value [v] read by [t.symbol] or
    [t.name]: calling [toLowerCase] on a value that is not a string
    throws. *)
Definition lowercase_is (v : JsValue) (lowered : string) : settled bool :=
  match v with
  | JsUndefined | JsNull => Fulfilled false
  | JsString s => Fulfilled (String.eqb (String_toLowerCase s) lowered)
  | _ => Rejected (Error "toLowerCase is not a function")
  end.

(** The predicate of [tokens.find]. *)
Definition matches (symbol : string) (t : JsValue) : settled bool :=
  settled_bind (Js.get t "symbol") (fun s =>
  settled_bind (lowercase_is s (String_toLowerCase symbol)) (fun same_symbol =>
  if same_symbol then Fulfilled true
  else
    settled_bind (Js.get t "name") (fun n =>
    lowercase_is n (String_toLowerCase symbol)))).

(** [tokens.find(predicate)]: the first element that matches, or
    [undefined]. *)
Fixpoint find (symbol : string) (tokens : list JsValue) : settled JsValue :=
  match tokens with
  | [] => Fulfilled JsUndefined
  | t :: rest =>
      settled_bind (matches symbol t) (fun found =>
      if found then Fulfilled t else find symbol rest)
  end.

(** The array searched, by the format of the list; [find] is a method of
    arrays only. *)
Definition tokens_of (tokenListUrl : string) (data : JsValue)
  : settled (list JsValue) :=
  settled_bind
    (if includes tokenListUrl "solana-labs" then
       settled_bind (Js.get data "tokens") (fun tokens =>
       Fulfilled (Js.or_else tokens (JsArray [])))
     else if includes tokenListUrl "raydium" then
       if Js.Array_isArray data then Fulfilled data
       else
         Fulfilled
           (Js.or_else (Js.get_optional data "data")
              (Js.or_else (Js.get_optional data "tokens") (JsArray [])))
     else if includes tokenListUrl "jup.ag" then
       if Js.Array_isArray data then Fulfilled data
       else settled_map JsArray (Js.Object_values data)
     else Fulfilled (JsArray []))
    (fun tokens =>
       match tokens with
       | JsArray items => Fulfilled items
       | _ => Rejected (Error "tokens.find is not a function")
       end).

Definition searchTokenList (this : Env) (tokenListUrl symbol : string)
    (st : State) : settled JsValue * State :=
  let st' := {| tokenCache := tokenCache st;
                requests := push (requests st) tokenListUrl |} in
  (settled_catch
     (settled_bind (axios_get this (requests st) tokenListUrl) (fun data =>
      settled_bind (tokens_of tokenListUrl data) (fun tokens =>
      settled_bind (find symbol tokens) (fun token =>
      if Js.truthy token then
        settled_bind (Js.get token "address") (fun address =>
        if Js.truthy address then
          if PublicKey_valid this address then Fulfilled address
          else Fulfilled JsNull
        else Fulfilled JsNull)
      else Fulfilled JsNull))))
     (fun error =>
        Rejected
          (Error ("Failed to fetch token list " ++ tokenListUrl ++ ": "
                  ++ message_of error))),
   st').

(** The loop of [resolveSymbolToMint] over the token lists: the address
    found, if any, and the state. *)
Fixpoint search_lists (this : Env) (lists : list string) (symbol : string)
    (st : State) : option JsValue * State :=
  match lists with
  | [] => (None, st)
  | tokenListUrl :: rest =>
      match searchTokenList this tokenListUrl symbol st with
      | (Fulfilled mintAddress, st') =>
          if Js.truthy mintAddress then
            (Some mintAddress,
             {| tokenCache :=
                  Map_set (tokenCache st') (String_toLowerCase symbol)
                    mintAddress;
                requests := requests st' |})
          else search_lists this rest symbol st'
      | (Rejected error, st') => search_lists this rest symbol st'
      end
  end.

(** [reverseLookupOnChain] answers [null]. *)
Definition reverseLookupOnChain (symbol : string) : settled JsValue :=
  Fulfilled JsNull.

Definition resolveSymbolToMint (this : Env) (symbol : string) (st : State)
  : settled JsValue * State :=
  let cached := Map_get (tokenCache st) (String_toLowerCase symbol) in
  if Js.truthy cached then (Fulfilled cached, st)
  else
    match search_lists this (tokenLists this) symbol st with
    | (Some mintAddress, st') => (Fulfilled mintAddress, st')
    | (None, st') =>
        match
          settled_catch
            (settled_bind (reverseLookupOnChain symbol) (fun mintAddress =>
             Fulfilled (if Js.truthy mintAddress then Some mintAddress else None)))
            (fun error => Fulfilled None)
        with
        | Fulfilled (Some mintAddress) =>
            (Fulfilled mintAddress,
             {| tokenCache :=
                  Map_set (tokenCache st') (String_toLowerCase symbol)
                    mintAddress;
                requests := requests st' |})
        | Fulfilled None => (Fulfilled JsNull, st')
        | Rejected error => (Rejected error, st')
        end
    end.

(** [getTokenInfoBySymbol]; [getTokenSupply] stands for the request of the
    supply of [new PublicKey(mintAddress)], and yields the
    [uiAmountString] and the [decimals] of the answer. *)
Record SymbolInfo : Type := {
  symbol : string;
  mintAddress : JsValue;
  totalSupply : option string;
  decimals : option N
}.

Definition getTokenInfoBySymbol (this : Env)
    (getTokenSupply : JsValue -> settled (option string * option N))
    (symbol : string) (st : State) : settled (option SymbolInfo) * State :=
  match resolveSymbolToMint this symbol st with
  | (Fulfilled mintAddress, st') =>
      if negb (Js.truthy mintAddress) then (Fulfilled None, st')
      else
        (settled_catch
           (settled_bind (getTokenSupply mintAddress) (fun tokenInfo =>
            Fulfilled
              (Some {| symbol := symbol;
                       mintAddress := mintAddress;
                       totalSupply := fst tokenInfo;
                       decimals := snd tokenInfo |})))
           (fun error => Fulfilled None),
         st')
  | (Rejected error, st') => (Rejected error, st')
  end.

End Methods.

End Resolver.

(** ** [TelegramBot]: the handlers *)

(** [s.split(' ')]: the pieces of [s] between single spaces (one piece at
    least). *)
Fixpoint split_space_from (piece : string) (s : string) : list string :=
  match s with
  | EmptyString => [piece]
  | String c rest =>
      if Ascii.eqb c " "%char then piece :: split_space_from EmptyString rest
      else split_space_from (piece ++ String c EmptyString) rest
  end.

Definition split_space (s : string) : list string :=
  split_space_from EmptyString s.

(** [/^[A-Z]{3,12}$/.test(s)]. *)
Fixpoint all_capitals (s : string) : bool :=
  match s with
  | EmptyString => true
  | String c rest =>
      ((65 <=? nat_of_ascii c) && (nat_of_ascii c <=? 90))%nat
      && all_capitals rest
  end.

Definition looks_like_symbol (s : string) : bool :=
  all_capitals s
  && ((3 <=? String.length s) && (String.length s <=? 12))%nat.

Module Chat.

(** A handler runs against a chat: it sends replies, each of which
    Telegram may refuse.  The state is the list of the replies sent. *)
Definition t (A : Type) : Type := list string -> settled A * list string.

Definition ret {A : Type} (a : A) : t A := fun sent => (Fulfilled a, sent).

Definition bind {A B : Type} (m : t A) (k : A -> t B) : t B :=
  fun sent =>
    match m sent with
    | (Fulfilled a, sent') => k a sent'
    | (Rejected e, sent') => (Rejected e, sent')
    end.

Definition try_catch {A : Type} (m : t A) (handler : JsError -> t A) : t A :=
  fun sent =>
    match m sent with
    | (Fulfilled a, sent') => (Fulfilled a, sent')
    | (Rejected e, sent') => handler e sent'
    end.

Definition await {A : Type} (s : settled A) : t A := fun sent => (s, sent).

End Chat.

Module BotHandlers.

Section Handlers.

(** Built-ins of the host. *)
Variable Number_toString : number -> string.
Variable String_toUpperCase : string -> string.
Variable String_trim : string -> string.

(** The detector's [analyzeTokenBySymbol], which may answer [null]. *)
Variable analyzeTokenBySymbol : string -> settled (option SymbolAnalysis.t).

(** Whether Telegram refuses a reply, given the replies sent before. *)
Variable refused : list string -> string -> option JsError.

Definition reply (message : string) : Chat.t unit :=
  fun sent =>
    match refused sent message with
    | Some e => (Rejected e, sent)
    | None => (Fulfilled tt, push sent message)
    end.

(** [issues.forEach(issue => { message += `• ${issue}\n`; })]. *)
Definition issue_lines (issues : list string) (message : string) : string :=
  fold_left (fun message issue => message ++ "• " ++ issue ++ newline)
    issues message.

Definition section (title : string) (issues : list string) (message : string)
  : string :=
  if (0 <? List.length issues)%nat then
    issue_lines issues (message ++ title ++ newline) ++ newline
  else message.

Definition report_message (result : SymbolAnalysis.t) : string :=
  let riskLevel := Bot.getRiskLevel (SymbolAnalysis.riskScore result) in
  let emoji := Bot.getRiskEmoji riskLevel in
  let message :=
    emoji ++ " **RUG PULL ANALYSIS: $" ++ SymbolAnalysis.tokenSymbol result
    ++ "**" ++ newline ++ newline in
  let message :=
    message ++ "📊 **Risk Score: "
    ++ Number_toString (SymbolAnalysis.riskScore result) ++ "/100** ("
    ++ riskLevel ++ ")" ++ newline ++ newline in
  let message :=
    section "🔴 **ON-CHAIN ISSUES:**" (SymbolAnalysis.onChainIssues result)
      message in
  let message :=
    section "🟡 **SOCIAL RED FLAGS:**" (SymbolAnalysis.socialIssues result)
      message in
  let message :=
    section "🟠 **CODE VULNERABILITIES:**" (SymbolAnalysis.codeIssues result)
      message in
  message ++ "💡 **RECOMMENDATION: "
  ++ Bot.getRecommendation (SymbolAnalysis.riskScore result) ++ "**".

(** The handler of [/check].  A reply that is returned, not awaited, is
    outside the reach of the handler's [catch]: the first component of the
    body's result is the message of such a reply. *)
Definition check (text : string) : Chat.t unit :=
  Chat.bind
    (Chat.try_catch
       (match nth_error (split_space text) 1 with
        | None | Some EmptyString =>
            Chat.ret
              (Some ("Usage: /check <TOKEN_SYMBOL>" ++ newline
                     ++ "Example: /check MOONSHOT"))
        | Some tokenSymbol =>
            Chat.bind
              (reply ("🔍 Analyzing $" ++ String_toUpperCase tokenSymbol
                      ++ "..."))
              (fun _ =>
            Chat.bind
              (Chat.await
                 (analyzeTokenBySymbol (String_toUpperCase tokenSymbol)))
              (fun result =>
            match result with
            | None =>
                Chat.ret
                  (Some ("❌ Token $" ++ String_toUpperCase tokenSymbol
                         ++ " not found or analysis failed."))
            | Some result =>
                Chat.bind (reply (report_message result)) (fun _ =>
                Chat.ret None)
            end))
        end)
       (fun error =>
          Chat.bind
            (reply "❌ Error analyzing token. Please try again later.")
            (fun _ => Chat.ret None)))
    (fun returned =>
       match returned with
       | Some message => reply message
       | None => Chat.ret tt
       end).

(** The handler of the other text messages. *)
Definition on_text (message_text : string) : Chat.t unit :=
  let text := String_trim message_text in
  if looks_like_symbol text then
    Chat.try_catch
      (Chat.bind (reply ("🔍 Analyzing $" ++ text ++ "...")) (fun _ =>
       Chat.bind (Chat.await (analyzeTokenBySymbol text)) (fun result =>
       match result with
       | Some result =>
           let riskLevel :=
             Bot.getRiskLevel (SymbolAnalysis.riskScore result) in
           let emoji := Bot.getRiskEmoji riskLevel in
           reply (emoji ++ " $" ++ text ++ " Risk Score: "
                  ++ Number_toString (SymbolAnalysis.riskScore result)
                  ++ "/100 (" ++ riskLevel ++ ")" ++ newline ++ newline
                  ++ "💡 "
                  ++ Bot.getRecommendation (SymbolAnalysis.riskScore result))
       | None => Chat.ret tt
       end)))
      (fun error => Chat.ret tt)
  else Chat.ret tt.

End Handlers.

End BotHandlers.

(** ** [WebDashboard]: the API routes *)

Module Dashboard.

(** An entry of the bulk results: [{ symbol, ...analysis }], or
    [{ symbol, error }]. *)
Inductive Result : Type :=
| Analysed (symbol analysis : JsValue)
| Failed (symbol : JsValue) (error : string).

(** [result.symbol]: in [{ symbol, ...analysis }] the spread comes after
    [symbol], so that a property [symbol] of the analysis replaces the
    symbol of the request. *)
Definition result_symbol (result : Result) : JsValue :=
  match result with
  | Analysed symbol analysis =>
      match Js.own_property analysis "symbol" with
      | Some own => own
      | None => symbol
      end
  | Failed symbol error => symbol
  end.

Inductive Body : Type :=
| Error_body (error : string)
| Analysis_body (analysis : JsValue)
| Results_body (results : list Result).

Record Response : Type := { status : nat; body : Body }.

Section Routes.

(** The detector's [analyzeTokenBySymbol], which is given the symbol of
    the request as it is, and answers a value. *)
Variable analyzeTokenBySymbol : JsValue -> settled JsValue.

(** [GET /api/check/:symbol]. *)
Definition api_check (symbol : string) : Response :=
  match analyzeTokenBySymbol (JsString symbol) with
  | Fulfilled analysis =>
      {| status := 200;
         body := if Js.truthy analysis then Analysis_body analysis
                 else Error_body "Token not found" |}
  | Rejected error => {| status := 500; body := Error_body "Analysis failed" |}
  end.

(** [POST /api/bulk-check], on the body of the request. *)
Definition bulk_check (req_body : JsValue) : Response :=
  match Js.get req_body "symbols" with
  | Fulfilled (JsArray (first :: others)) =>
      let symbols := first :: others in
      let results :=
        fold_left
          (fun results symbol =>
             match analyzeTokenBySymbol symbol with
             | Fulfilled analysis => push results (Analysed symbol analysis)
             | Rejected err => push results (Failed symbol "Analysis failed")
             end)
          (slice0 10 symbols) [] in
      {| status := 200; body := Results_body results |}
  | Fulfilled _ => {| status := 400; body := Error_body "Invalid symbols array" |}
  | Rejected error =>
      {| status := 500; body := Error_body "Bulk analysis failed" |}
  end.

End Routes.

End Dashboard.

(** The object that [analyzeTokenBySymbol] returns. *)
Definition analysis_object (analysis : SymbolAnalysis.t) : JsValue :=
  JsObject
    [("tokenSymbol", JsString (SymbolAnalysis.tokenSymbol analysis));
     ("riskScore", JsNum (SymbolAnalysis.riskScore analysis));
     ("riskLevel", JsString (SymbolAnalysis.riskLevel analysis));
     ("onChainIssues",
      JsArray (map JsString (SymbolAnalysis.onChainIssues analysis)));
     ("socialIssues",
      JsArray (map JsString (SymbolAnalysis.socialIssues analysis)));
     ("codeIssues",
      JsArray (map JsString (SymbolAnalysis.codeIssues analysis)));
     ("recommendations",
      JsArray (map JsString (SymbolAnalysis.recommendations analysis)))].

(** [analyzeTokenBySymbol] on the value of a request: [symbol.toLowerCase()]
    throws on what is not a string. *)
Definition analyzeTokenBySymbol_of (String_toLowerCase : string -> string)
    (symbol : JsValue) : settled JsValue :=
  match symbol with
  | JsString s =>
      Fulfilled (analysis_object (analyzeTokenBySymbol String_toLowerCase s))
  | JsUndefined | JsNull =>
      Rejected (Error "Cannot read properties of null or undefined (reading 'toLowerCase')")
  | _ => Rejected (Error "symbol.toLowerCase is not a function")
  end.

(** * Definitions used by the further statements *)

(** ** Values of [Math.random()] *)

Definition Vrandom : Z := val 9007199254740991 (-53).

(** ** Token info *)

(** The account data were read: both requests succeeded, and the account
    is absent or its data have a byte at offset 44. *)
Definition account_read (connection : Chain.Connection) (mint : string) : bool :=
  match Chain.getTokenSupply connection mint,
        Chain.getAccountInfo connection mint with
  | Fulfilled _, Fulfilled (Some {| Chain.data := Some buffer |}) =>
      (44 <? List.length buffer)%nat
  | Fulfilled _, Fulfilled _ => true
  | _, _ => false
  end.

(** ** The three analyzers and the on-chain score *)

(** What the concentration of the top three holders adds to the score. *)
Definition concentration_points (top3Percentage : number) : Z :=
  if gt top3Percentage (of_Z 90) then 35
  else if gt top3Percentage (of_Z 70) then 26
  else if gt top3Percentage (of_Z 50) then 18
  else 0.

(** The on-chain score of the real mode: 40 for a mint authority that is
    not renounced, 25 for a pool that is not locked, and the points of
    the concentration. *)
Definition real_points (tokenInfo : Chain.MintInfo)
    (holders : list Chain.Holder) (lpInfo : Chain.LpInfo) : Z :=
  40 * Z.b2z (negb (Chain.mintAuthorityRenounced tokenInfo))
  + concentration_points (Chain.top3 holders)
  + 25 * Z.b2z (negb (Chain.lpLocked lpInfo)).

(** The red flags of the real mode. *)
Definition real_flags (Number_toFixed1 : number -> string)
    (tokenInfo : Chain.MintInfo) (holders : list Chain.Holder)
    (lpInfo : Chain.LpInfo) : list string :=
  (Chain.issues (Chain.analyzeMintAuthority tokenInfo)
   ++ Chain.issues (Chain.analyzeHolderConcentration Number_toFixed1 holders)
   ++ Chain.issues (Chain.analyzeLiquidityPool lpInfo))%list.

Definition real_mode (this : Chain.Env) (tokenMintAddress : string) : bool :=
  Chain.isValidSolanaAddress this tokenMintAddress
  && negb (Chain.demoMode this).

(** ** Sample surroundings of the chain analyzer *)

Definition sample_connection (supply : settled (option string))
    (account : settled (option Chain.AccountInfo))
    (largest : settled (list string))
    (balance : string -> settled (option number)) : Chain.Connection :=
  {| Chain.getTokenSupply := fun _ => supply;
     Chain.getAccountInfo := fun _ => account;
     Chain.getTokenLargestAccounts := fun _ => largest;
     Chain.getTokenAccountBalance := balance |}.

(** A node that cannot be reached. *)
Definition offline : Chain.Connection :=
  sample_connection (Rejected (Error "fetch failed"))
    (Rejected (Error "fetch failed")) (Rejected (Error "fetch failed"))
    (fun _ => Rejected (Error "fetch failed")).

(** The data of a mint account of 82 bytes with no authority, but for the
    byte of its decimals. *)
Definition mint_account_data (decimals : N) : list N :=
  (repeat 0%N 44 ++ [decimals] ++ repeat 0%N 37)%list.

Definition sample_node (decimals : N) : Chain.Connection :=
  sample_connection (Fulfilled (Some "1000000000"))
    (Fulfilled (Some {| Chain.data := Some (mint_account_data decimals) |}))
    (Fulfilled ["holder-a"; "holder-b"])
    (fun account =>
       if String.eqb account "holder-a" then Fulfilled (Some (of_Z 900))
       else Fulfilled (Some (of_Z 100))).

Definition half : number := decimal 5 10.

Definition sample_draws : Chain.DemoDraws :=
  {| Chain.score_draw := half;
     Chain.mint_draw := half;
     Chain.holder_draw := half;
     Chain.lp_draw := half |}.

(** In the samples an address is valid when it has 32 to 44 characters. *)
Definition sample_env (demoMode : bool) (connection : Chain.Connection)
  : Chain.Env :=
  {| Chain.demoMode := demoMode;
     Chain.connection := connection;
     Chain.PublicKey_new := fun address =>
       if ((32 <=? String.length address)
           && (String.length address <=? 44))%nat
       then Fulfilled address
       else Rejected (Error "Invalid public key input");
     Chain.tokenInfo_draw := half;
     Chain.holders_draw := fun _ => half;
     Chain.locked_draw := half;
     Chain.amount_draw := half;
     Chain.demo_draws := sample_draws |}.

Definition USDC : string := "EPjFWdd5AufqSSqeM2qN1xzybapC8G4wEGGkZwyTDt1v".
Definition BONK : string := "6dhTynDkYsVM7cbF7TKfC9DWB636TcEM935fq7JzL2ES".

(** A [toFixed(1)] for the samples: the rounded value and [.0]. *)
Definition sample_toFixed1 (x : number) : string :=
  integer_toString (Math_round x) ++ ".0".

Definition sample_world (demoMode : bool) (connection : Chain.Connection)
  : World :=
  {| chain := sample_env demoMode connection;
     info_draw := half;
     social_draw := half;
     code_draw := half;
     economics_settles_at := 3;
     social_settles_at := 1;
     code_settles_at := 2;
     now_ISO := "2026-02-01T00:00:00.000Z" |}.

(** ** The first version of the chain analyzer *)

(** The two headlines of [ChainV1.generateRecommendations], by the band of
    the score. *)
Definition chain_headlines (totalScore : number) : list string :=
  if ge totalScore (of_Z 80) then
    ["🚨 DO NOT BUY - Extremely high rug pull risk";
     "💡 Wait for proper audits and LP locking before considering"]
  else if ge totalScore (of_Z 60) then
    ["⚠️ HIGH RISK - Exercise extreme caution";
     "💡 Only invest what you can afford to lose completely"]
  else if ge totalScore (of_Z 40) then
    ["🟡 MEDIUM RISK - Proceed with caution";
     "💡 Monitor closely and set stop-losses if trading"]
  else
    ["✅ Appears legitimate - but always DYOR";
     "💡 Consider waiting for community adoption before large positions"].

(** The points of the holders in the first version: an empty list counts
    as a moderate concentration. *)
Definition holder_points (holders : list Chain.Holder) : Z :=
  match holders with
  | [] => 18
  | _ => concentration_points (Chain.top3 holders)
  end.

(** A node that lists two accounts and cannot read the balance of the
    second. *)
Definition flaky_node : Chain.Connection :=
  sample_connection (Fulfilled (Some "1000000000"))
    (Fulfilled (Some {| Chain.data := Some (mint_account_data 0) |}))
    (Fulfilled ["holder-a"; "holder-b"])
    (fun account =>
       if String.eqb account "holder-a" then Fulfilled (Some (of_Z 900))
       else Rejected (Error "429 Too Many Requests")).

Definition holder_of (address : string) (amount : option number)
  : Chain.Holder :=
  {| Chain.address := address;
     Chain.amount := amount;
     Chain.percentage := of_Z 0 |}.

(** ** The token resolver *)

(** An address the resolver may return: a truthy value that is a valid
    public key. *)
Definition valid_address (this : Resolver.Env) (v : JsValue) : bool :=
  Js.truthy v && Resolver.PublicKey_valid this v.

(** A cache that holds valid addresses only. *)
Definition valid_cache (this : Resolver.Env) (st : Resolver.State) : Prop :=
  Forall (fun entry => valid_address this (snd entry) = true)
    (Resolver.tokenCache st).

(** The answer of the token list at position [i] of [lists], when the
    lists before it have been asked: what [searchTokenList] returns for
    it. *)
Definition answer_at (String_toLowerCase : string -> string)
    (this : Resolver.Env) (lists : list string) (symbol : string)
    (st : Resolver.State) (i : nat) : settled JsValue :=
  fst (Resolver.searchTokenList String_toLowerCase this
         (nth i lists EmptyString) symbol
         {| Resolver.tokenCache := Resolver.tokenCache st;
            Resolver.requests :=
              (Resolver.requests st ++ firstn i lists)%list |}).

(** An answer that ends the loop over the lists: an address. *)
Definition is_hit (answer : settled JsValue) : bool :=
  match answer with
  | Fulfilled mintAddress => Js.truthy mintAddress
  | Rejected _ => false
  end.

Definition empty_state : Resolver.State :=
  {| Resolver.tokenCache := []; Resolver.requests := [] |}.

(** A resolver whose first list cannot be fetched, whose second list has
    two entries for BONK -- the first without a valid address -- and one
    for USDC, and for which the addresses of 32 to 44 characters are
    valid. *)
Definition sample_resolver : Resolver.Env :=
  {| Resolver.tokenLists := Resolver.default_tokenLists;
     Resolver.axios_get := fun _ url =>
       if includes url "raydium" then
         Fulfilled
           (JsArray
              [JsObject [("symbol", JsString "BONK");
                         ("address", JsString "unknown")];
               JsObject [("symbol", JsString "Bonk");
                         ("address",
                          JsString "DezXAZ8z7PnrnRJjz3wXBoRgixCa6xjnB7YaB1pPB263")];
               JsObject [("symbol", JsString "USDC");
                         ("address",
                          JsString "EPjFWdd5AufqSSqeM2qN1xzybapC8G4wEGGkZwyTDt1v")]])
       else Rejected (Error "timeout of 5000ms exceeded");
     Resolver.PublicKey_valid := fun v =>
       match v with
       | JsString s =>
           ((32 <=? String.length s) && (String.length s <=? 44))%nat
       | _ => false
       end |}.

(** ** The bot and the dashboard *)

Fixpoint has_space (s : string) : bool :=
  match s with
  | EmptyString => false
  | String c rest => Ascii.eqb c " "%char || has_space rest
  end.

Definition usage : string :=
  "Usage: /check <TOKEN_SYMBOL>" ++ newline ++ "Example: /check MOONSHOT".

(** A Telegram that accepts every reply. *)
Definition accepts_all : list string -> string -> option JsError :=
  fun _ _ => None.

(** The notice that [/check] sends first. *)
Definition notice (String_toUpperCase : string -> string)
    (tokenSymbol : string) : string :=
  "🔍 Analyzing $" ++ String_toUpperCase tokenSymbol ++ "...".

Definition error_notice : string :=
  "❌ Error analyzing token. Please try again later.".


(** ** The flags of the chain analyzer and the warnings of the detector *)

Fixpoint has_char (c : ascii) (s : string) : bool :=
  match s with
  | EmptyString => false
  | String x rest => Ascii.eqb x c || has_char c rest
  end.

Open Scope Z_scope.

(** * Lemmas *)

Open Scope Z_scope.

(** ** Binary digits *)

Lemma digits2_pos_size (p : positive) : digits2_pos p = Pos.size p.
Proof. induction p; simpl; congruence. Qed.

Lemma Zdigits2_bounds (p : positive) :
  2 ^ (Zpos (digits2_pos p) - 1) <= Zpos p < 2 ^ Zpos (digits2_pos p).
Proof.
  rewrite digits2_pos_size. split.
  - pose proof (Pos.size_le p) as H.
    assert (H' : 2 ^ Zpos (Pos.size p) <= 2 * Zpos p).
    { change 2 with (Zpos 2) at 1. rewrite <- Pos2Z.inj_pow.
      change (2 * Zpos p) with (Zpos p~0). apply Pos2Z.pos_le_pos. exact H. }
    replace (Zpos (Pos.size p)) with (Z.succ (Zpos (Pos.size p) - 1)) in H' by lia.
    rewrite Z.pow_succ_r in H' by lia. lia.
  - pose proof (Pos.size_gt p) as H.
    change 2 with (Zpos 2). rewrite <- Pos2Z.inj_pow.
    apply Pos2Z.pos_lt_pos. exact H.
Qed.

Lemma pow2_pos (k : Z) : 0 <= k -> 0 < 2 ^ k.
Proof. intro. apply Z.pow_pos_nonneg; lia. Qed.

Lemma pow2_le (a b : Z) : 0 <= a <= b -> 2 ^ a <= 2 ^ b.
Proof. intro. apply Z.pow_le_mono_r; lia. Qed.

Lemma pow2_lt_inv (a b : Z) : 0 <= a -> 0 <= b -> 2 ^ a < 2 ^ b -> a < b.
Proof. intros Ha Hb H. apply (Z.pow_lt_mono_r_iff 2); lia. Qed.

Lemma pow2_split (a b : Z) : 0 <= a -> 0 <= b -> 2 ^ (a + b) = 2 ^ a * 2 ^ b.
Proof. intros. apply Z.pow_add_r; lia. Qed.

(** ** Shifting a mantissa to the right *)

Lemma iter_pos_nat {A : Type} (f : A -> A) (p : positive) (x : A) :
  iter_pos f p x = Nat.iter (Pos.to_nat p) f x.
Proof.
  revert x. induction p as [p IH|p IH|]; intro x.
  - cbn [iter_pos]. rewrite !IH. rewrite Pos2Nat.inj_xI.
    replace (S (2 * Pos.to_nat p))%nat
      with (Pos.to_nat p + S (Pos.to_nat p))%nat by lia.
    rewrite Nat.iter_add. f_equal.
    rewrite Nat.iter_succ_r. reflexivity.
  - cbn [iter_pos]. rewrite !IH. rewrite Pos2Nat.inj_xO.
    replace (2 * Pos.to_nat p)%nat with (Pos.to_nat p + Pos.to_nat p)%nat by lia.
    rewrite Nat.iter_add. reflexivity.
  - reflexivity.
Qed.

Lemma shr_1_nonneg (m : Z) (r s : bool) :
  0 <= m ->
  shr_1 (Build_shr_record m r s) = Build_shr_record (m / 2) (Z.odd m) (r || s).
Proof.
  intro Hm. destruct m as [|p|p]; [reflexivity| |lia].
  destruct p as [p|p|]; unfold shr_1.
  - f_equal. rewrite Pos2Z.inj_xI.
    apply (Z.div_unique _ _ _ 1); lia.
  - f_equal. rewrite Pos2Z.inj_xO.
    apply (Z.div_unique _ _ _ 0); lia.
  - reflexivity.
Qed.

Lemma shifted_0 (M : Z) : 0 <= M -> shifted M 0 (Build_shr_record M false false).
Proof.
  intro HM. exists 0. simpl. repeat split; try lia; intros; try discriminate; auto.
Qed.

Lemma shifted_succ (M k : Z) (mrs : shr_record) :
  0 <= k -> shifted M k mrs -> shifted M (Z.succ k) (shr_1 mrs).
Proof.
  intros Hk (rem & Hm & HM & Hrem & Hr & Hs).
  destruct mrs as [m r s]. cbn [shr_m shr_r shr_s] in *.
  rewrite shr_1_nonneg by assumption. unfold shifted.
  pose proof (pow2_pos k Hk) as HP.
  rewrite Z.pow_succ_r by assumption.
  set (P := 2 ^ k) in *.
  pose proof (Z.div_mod m 2 ltac:(lia)) as Hdm.
  pose proof (Z.mod_pos_bound m 2 ltac:(lia)) as Hmb.
  pose proof (Zmod_odd m) as Hodd.
  exists ((m mod 2) * P + rem). cbn [shr_m shr_r shr_s].
  assert (Hsf : (r || s = false) <-> rem = 0).
  { rewrite orb_false_iff. split.
    - intros [Hr' Hs']. apply Hs in Hs'. destruct Hs' as [?|?]; [assumption|].
      assert (r = true) by (apply Hr; lia). congruence.
    - intro H0. split.
      + destruct r; [|reflexivity]. assert (P <= 2 * rem) by (apply Hr; reflexivity). lia.
      + apply Hs. left; assumption. }
  repeat split.
  - apply Z.div_pos; lia.
  - nia.
  - nia.
  - destruct (Z.odd m); nia.
  - intro H. destruct (Z.odd m); [nia|discriminate].
  - intro H. destruct (Z.odd m); [reflexivity|nia].
  - intro H. apply Hsf in H. destruct (Z.odd m); [right|left]; nia.
  - intro H. apply Hsf. destruct (Z.odd m); nia.
Qed.

Lemma shifted_iter (M : Z) (k : nat) :
  0 <= M ->
  shifted M (Z.of_nat k) (Nat.iter k shr_1 (Build_shr_record M false false)).
Proof.
  intro HM. induction k as [|k IH].
  - apply shifted_0; assumption.
  - rewrite Nat2Z.inj_succ. simpl. apply shifted_succ; [lia|assumption].
Qed.

Lemma shr_spec (M e n : Z) :
  0 <= M -> 0 <= n ->
  exists mrs, shr (Build_shr_record M false false) e n = (mrs, e + n)
              /\ shifted M n mrs.
Proof.
  intros HM Hn. destruct n as [|p|p]; [| |lia].
  - exists (Build_shr_record M false false). split.
    + simpl. rewrite Z.add_0_r. reflexivity.
    + apply shifted_0; assumption.
  - exists (iter_pos shr_1 p (Build_shr_record M false false)). split.
    + reflexivity.
    + rewrite iter_pos_nat. rewrite <- (positive_nat_Z p).
      apply shifted_iter; assumption.
Qed.

Lemma shr_nonpos (mrs : shr_record) (e n : Z) :
  n <= 0 -> shr mrs e n = (mrs, e).
Proof. intro Hn. destruct n; [reflexivity|lia|reflexivity]. Qed.

(** ** Rounding to nearest, ties to even *)

Section RoundNearestEven.

Variables (M n : Z) (mrs : shr_record).
Hypothesis Hn : 0 <= n.
Hypothesis Hsh : shifted M n mrs.

Lemma rne_between :
  shr_m mrs
  <= round_nearest_even (shr_m mrs) (loc_of_shr_record mrs)
  <= shr_m mrs + 1.
Proof.
  destruct mrs as [m r s]. cbn [shr_m].
  destruct r, s; cbn [loc_of_shr_record round_nearest_even];
    try destruct (Z.even m); lia.
Qed.

Lemma rne_le_exact (K : Z) :
  M <= K * 2 ^ n ->
  round_nearest_even (shr_m mrs) (loc_of_shr_record mrs) <= K.
Proof.
  intro HK. destruct Hsh as (rem & Hm & HM & Hrem & Hr & Hs).
  pose proof (pow2_pos n Hn) as HP.
  destruct mrs as [m r s]. cbn [shr_m shr_r shr_s] in *.
  set (P := 2 ^ n) in *.
  assert (Hle : m <= K) by nia.
  assert (Hlt : m < K \/ rem = 0) by nia.
  destruct Hlt as [Hlt|H0].
  - destruct r, s; cbn [loc_of_shr_record round_nearest_even];
      try destruct (Z.even m); lia.
  - assert (r = false).
    { destruct r; [|reflexivity]. assert (P <= 2 * rem) by (apply Hr; reflexivity). lia. }
    assert (s = false) by (apply Hs; left; assumption).
    subst r s. cbn [loc_of_shr_record round_nearest_even]. lia.
Qed.

Lemma rne_le_half (K : Z) :
  Z.even K = true -> 2 * M <= (2 * K + 1) * 2 ^ n ->
  round_nearest_even (shr_m mrs) (loc_of_shr_record mrs) <= K.
Proof.
  intros HKe HK. destruct Hsh as (rem & Hm & HM & Hrem & Hr & Hs).
  pose proof (pow2_pos n Hn) as HP.
  destruct mrs as [m r s]. cbn [shr_m shr_r shr_s] in *.
  set (P := 2 ^ n) in *.
  assert (Hle : m <= K) by nia.
  assert (Hlt : m < K \/ (m = K /\ 2 * rem <= P)) by nia.
  destruct Hlt as [Hlt|[HmK Hhalf]].
  - destruct r, s; cbn [loc_of_shr_record round_nearest_even];
      try destruct (Z.even m); lia.
  - subst m. destruct r, s; cbn [loc_of_shr_record round_nearest_even];
      rewrite ?HKe; lia.
Qed.

End RoundNearestEven.

(** ** Values of binary64 numbers, as integers *)

Lemma fexp_eq (x : Z) : fexp prec emax x = Z.max (x - 53) (-1074).
Proof. reflexivity. Qed.

Lemma Zdigits2_pos_bounds (M : Z) :
  0 < M -> 1 <= Zdigits2 M /\ 2 ^ (Zdigits2 M - 1) <= M < 2 ^ Zdigits2 M.
Proof.
  intro HM. destruct M as [|p|p]; try lia.
  cbn [Zdigits2]. split; [lia|apply Zdigits2_bounds].
Qed.

Lemma Zdigits2_unique (M k : Z) :
  1 <= k -> 2 ^ (k - 1) <= M < 2 ^ k -> Zdigits2 M = k.
Proof.
  intros Hk HM.
  assert (0 < M) by (pose proof (pow2_pos (k - 1)); lia).
  destruct (Zdigits2_pos_bounds M ltac:(assumption)) as [Hd Hb].
  set (d := Zdigits2 M) in *.
  assert (d - 1 < k) by (apply pow2_lt_inv; lia).
  assert (k - 1 < d) by (apply pow2_lt_inv; lia).
  lia.
Qed.

Lemma Zdigits2_le (M k : Z) : 0 <= k -> 0 < M < 2 ^ k -> Zdigits2 M <= k.
Proof.
  intros Hk HM.
  destruct (Zdigits2_pos_bounds M ltac:(lia)) as [Hd Hb].
  set (d := Zdigits2 M) in *.
  assert (d - 1 < k) by (apply pow2_lt_inv; lia).
  lia.
Qed.

Lemma binary_round_aux_eq (sx : bool) (M e : Z) mrs' e' mrs'' e'' :
  shr_fexp prec emax M e loc_Exact = (mrs', e') ->
  shr_fexp prec emax
    (round_nearest_even (shr_m mrs') (loc_of_shr_record mrs')) e' loc_Exact
    = (mrs'', e'') ->
  binary_round_aux prec emax sx M e loc_Exact =
  match shr_m mrs'' with
  | Z0 => S754_zero sx
  | Zpos m => if e'' <=? emax - prec then S754_finite sx m e''
              else S754_infinity sx
  | Zneg _ => S754_nan
  end.
Proof.
  intros H1 H2. unfold binary_round_aux. rewrite H1, H2. reflexivity.
Qed.

(** The second shift of [binary_round_aux], on a rounded mantissa that
    fits the format or has just overflowed it by one bit. *)
Lemma shr_fexp_zero (ev : Z) :
  -1074 <= ev ->
  shr_fexp prec emax 0 ev loc_Exact = (Build_shr_record 0 false false, ev).
Proof.
  intro Hev. unfold shr_fexp. rewrite fexp_eq. cbn [Zdigits2 shr_record_of_loc].
  apply shr_nonpos. lia.
Qed.

Lemma shr_fexp_fits (m1 ev : Z) :
  -1074 <= ev -> 0 < m1 < 2 ^ 53 -> (ev = -1074 \/ 2 ^ 52 <= m1) ->
  shr_fexp prec emax m1 ev loc_Exact = (Build_shr_record m1 false false, ev)
  /\ fexp prec emax (Zdigits2 m1 + ev) = ev.
Proof.
  intros Hev Hm Hc.
  assert (Hd : Zdigits2 m1 <= 53) by (apply Zdigits2_le; lia).
  assert (Hf : fexp prec emax (Zdigits2 m1 + ev) = ev).
  { rewrite fexp_eq. destruct Hc as [->|Hn]; [lia|].
    rewrite (Zdigits2_unique m1 53); [lia|lia|].
    change (53 - 1) with 52. lia. }
  split; [|exact Hf].
  unfold shr_fexp. rewrite Hf. cbn [shr_record_of_loc].
  apply shr_nonpos. lia.
Qed.

Lemma shr_fexp_carry (ev : Z) :
  -1074 <= ev ->
  shr_fexp prec emax (2 ^ 53) ev loc_Exact
  = (Build_shr_record (2 ^ 52) false false, ev + 1).
Proof.
  intro Hev. unfold shr_fexp. rewrite fexp_eq.
  change (Zdigits2 (2 ^ 53)) with 54.
  replace (Z.max (54 + ev - 53) (-1074) - ev) with 1 by lia.
  reflexivity.
Qed.

Lemma binary_round_aux_le (M e mB eB : Z) :
  0 < M -> - bias <= e ->
  e <= fexp prec emax (Zdigits2 M + e) ->
  2 ^ 52 <= mB < 2 ^ 53 -> -1074 <= eB <= 971 -> Z.even mB = true ->
  2 * val M e <= (2 * mB + 1) * 2 ^ (eB + bias) ->
  binary_round_aux prec emax false M e loc_Exact = S754_zero false \/
  exists m' e',
    binary_round_aux prec emax false M e loc_Exact = S754_finite false m' e'
    /\ bounded prec emax m' e' = true
    /\ val (Zpos m') e' <= val mB eB.
Proof.
  intros HM He Hpre HmB HeB Heven Hval.
  destruct (Zdigits2_pos_bounds M HM) as [Hd HMd].
  set (d := Zdigits2 M) in *.
  rewrite fexp_eq in Hpre.
  set (ev := Z.max (d + e - 53) (-1074)) in *.
  set (n := ev - e).
  assert (Hn : 0 <= n) by (unfold n; lia).
  destruct (shr_spec M e n ltac:(lia) Hn) as (mrs & Hshr & Hsh).
  assert (H1 : shr_fexp prec emax M e loc_Exact = (mrs, ev)).
  { unfold shr_fexp. rewrite fexp_eq. fold d. fold ev. cbn [shr_record_of_loc].
    fold n. rewrite Hshr. f_equal. unfold n. lia. }
  set (m1 := round_nearest_even (shr_m mrs) (loc_of_shr_record mrs)).
  pose proof (rne_between M n mrs Hsh) as Hbetween. fold m1 in Hbetween.
  pose proof (rne_le_exact M n mrs Hn Hsh) as Hexact. fold m1 in Hexact.
  pose proof (rne_le_half M n mrs Hn Hsh mB Heven) as Hhalf. fold m1 in Hhalf.
  destruct Hsh as (rem & Hm0 & HMeq & Hrem & _ & _).
  set (m0 := shr_m mrs) in *.
  (* the powers of two at play *)
  unfold val, bias in *.
  assert (HPe : 0 < 2 ^ (e + 1200)) by (apply pow2_pos; lia).
  assert (HPn : 0 < 2 ^ n) by (apply pow2_pos; lia).
  assert (HPev : 2 ^ (ev + 1200) = 2 ^ (e + 1200) * 2 ^ n).
  { rewrite <- pow2_split by lia. f_equal. unfold n. lia. }
  assert (HD : 2 ^ (d - 1 + (e + 1200)) = 2 ^ (d - 1) * 2 ^ (e + 1200))
    by (apply pow2_split; lia).
  (* the rounded exponent does not exceed that of the bound *)
  assert (HevB : ev <= eB).
  { assert (d - 1 + (e + 1200) < 53 + (eB + 1200)).
    { apply pow2_lt_inv; try lia.
      rewrite HD. rewrite (pow2_split 53 (eB + 1200)) by lia.
      assert (0 < 2 ^ (eB + 1200)) by (apply pow2_pos; lia).
      change (2 ^ 53) with 9007199254740992 in *. nia. }
    lia. }
  assert (HPd : 0 < 2 ^ (eB - ev)) by (apply pow2_pos; lia).
  assert (HPB : 2 ^ (eB + 1200) = 2 ^ (eB - ev) * 2 ^ (ev + 1200)).
  { rewrite <- pow2_split by lia. f_equal. lia. }
  (* the rounded mantissa does not exceed the bound at its exponent *)
  assert (Hm1K : m1 <= mB * 2 ^ (eB - ev)).
  { destruct (Z.eq_dec ev eB) as [Heq|Hne].
    - rewrite Heq, Z.sub_diag. change (2 ^ 0) with 1. rewrite Z.mul_1_r.
      apply Hhalf. rewrite Heq, Z.sub_diag in HPB. change (2 ^ 0) with 1 in HPB.
      rewrite <- Heq in Hval. rewrite HPev in Hval. nia.
    - apply Hexact.
      assert (Hlt : d <= 52 + (eB - ev) + n) by (unfold n; lia).
      assert (2 ^ d <= 2 ^ (52 + (eB - ev) + n)) by (apply pow2_le; lia).
      rewrite !pow2_split in H by lia.
      change (2 ^ 52) with 4503599627370496 in *. nia. }
  assert (Hval1 : m1 * 2 ^ (ev + 1200) <= mB * 2 ^ (eB + 1200)).
  { rewrite HPB. assert (0 < 2 ^ (ev + 1200)) by (apply pow2_pos; lia). nia. }
  (* the shifted mantissa fits the format *)
  assert (Hsize : (ev = -1074 /\ m0 < 2 ^ 52) \/ 2 ^ 52 <= m0 < 2 ^ 53).
  { destruct (Z_le_gt_dec (-1074) (d + e - 53)) as [Hnorm|Hsub].
    - right. assert (Hnd : n = d - 53) by (unfold n; lia).
      assert (Hp1 : 2 ^ d = 2 ^ 53 * 2 ^ n).
      { rewrite <- pow2_split by lia. f_equal. lia. }
      assert (Hp2 : 2 ^ (d - 1) = 2 ^ 52 * 2 ^ n).
      { rewrite <- pow2_split by lia. f_equal. lia. }
      rewrite Hp1, Hp2 in HMd.
      change (2 ^ 52) with 4503599627370496 in *.
      change (2 ^ 53) with 9007199254740992 in *. nia.
    - left. split; [lia|].
      assert (2 ^ d <= 2 ^ (52 + n)) by (apply pow2_le; unfold n; lia).
      rewrite pow2_split in H by lia.
      change (2 ^ 52) with 4503599627370496 in *. nia. }
  assert (Hev : -1074 <= ev) by lia.
  change (2 ^ 52) with 4503599627370496 in *.
  change (2 ^ 53) with 9007199254740992 in *.
  destruct (Z.eq_dec m1 0) as [Hz|Hnz].
  - left.
    assert (H2 : shr_fexp prec emax m1 ev loc_Exact
                 = (Build_shr_record 0 false false, ev))
      by (rewrite Hz; apply shr_fexp_zero; exact Hev).
    rewrite (binary_round_aux_eq false M e _ _ _ _ H1 H2). reflexivity.
  - right. destruct (Z.eq_dec m1 9007199254740992) as [Hc|Hnc].
    + assert (HevB' : ev < eB).
      { destruct (Z.eq_dec ev eB) as [Heq|Hne]; [|lia].
        rewrite Heq, Z.sub_diag in Hm1K. change (2 ^ 0) with 1 in Hm1K. lia. }
      exists 4503599627370496%positive, (ev + 1).
      assert (H2 : shr_fexp prec emax m1 ev loc_Exact
                   = (Build_shr_record (2 ^ 52) false false, ev + 1))
        by (rewrite Hc; apply (shr_fexp_carry ev Hev)).
      rewrite (binary_round_aux_eq false M e _ _ _ _ H1 H2).
      cbn [shr_m]. change (2 ^ 52) with 4503599627370496.
      change (emax - prec) with 971.
      replace (ev + 1 <=? 971) with true by (symmetry; apply Z.leb_le; lia).
      split; [reflexivity|]. split.
      * unfold bounded, canonical_mantissa. rewrite fexp_eq.
        change (Z.pos (digits2_pos 4503599627370496)) with 53.
        change (emax - prec) with 971.
        apply andb_true_intro. split; [apply Z.eqb_eq|apply Z.leb_le]; lia.
      * replace (ev + 1 + 1200) with (1 + (ev + 1200)) by lia.
        rewrite pow2_split by lia. change (2 ^ 1) with 2.
        rewrite Hc in Hval1. lia.
    + assert (Hm1 : 0 < m1 < 9007199254740992) by lia.
      destruct (shr_fexp_fits m1 ev Hev Hm1 ltac:(lia)) as [H2 Hcan].
      rewrite (binary_round_aux_eq false M e _ _ _ _ H1 H2).
      cbn [shr_m].
      destruct m1 as [|p|p] eqn:Em1; try lia.
      exists p, ev. change (emax - prec) with 971.
      replace (ev <=? 971) with true by (symmetry; apply Z.leb_le; lia).
      split; [reflexivity|]. split.
      * unfold bounded, canonical_mantissa. cbn [Zdigits2] in Hcan.
        rewrite Hcan. change (emax - prec) with 971.
        apply andb_true_intro. split; [apply Z.eqb_eq|apply Z.leb_le]; lia.
      * exact Hval1.
Qed.

(** ** Canonical numbers and their order *)

Lemma bounded_inv (m : positive) (e : Z) :
  bounded prec emax m e = true ->
  -1074 <= e <= 971 /\ Zpos m < 2 ^ 53 /\ (e = -1074 \/ 2 ^ 52 <= Zpos m).
Proof.
  unfold bounded, canonical_mantissa. rewrite fexp_eq.
  change (emax - prec) with 971.
  intro H. apply andb_prop in H. destruct H as [Hc He].
  apply Z.eqb_eq in Hc. apply Z.leb_le in He.
  pose proof (Zdigits2_bounds m) as Hb.
  set (d := Zpos (digits2_pos m)) in *.
  assert (Hd : 1 <= d) by (unfold d; lia).
  split; [lia|].
  destruct (Z_le_gt_dec (-1074) (d + e - 53)) as [Hn|Hs].
  - assert (d = 53) by lia. subst d. rewrite H in Hb.
    change (53 - 1) with 52 in Hb. split; [lia|right; lia].
  - assert (e = -1074) by lia. split; [|left; assumption].
    assert (2 ^ d <= 2 ^ 53) by (apply pow2_le; lia). lia.
Qed.

Lemma in_range_weaken (V W : Z) (x : number) :
  V <= W -> in_range V x -> in_range W x.
Proof.
  intros HVW [Hz|(m & e & Hx & Hb & Hv)]; [left; assumption|].
  right. exists m, e. repeat split; try assumption. lia.
Qed.

(** Order of a canonical number and a normal one, read on the values. *)
Lemma compare_lt_val (m : positive) (e : Z) (mB : positive) (eB : Z) :
  bounded prec emax m e = true ->
  2 ^ 52 <= Zpos mB -> -1074 <= eB ->
  SFltb (S754_finite false m e) (S754_finite false mB eB) = true ->
  val (Zpos m) e <= val (Zpos mB) eB.
Proof.
  intros Hb HmB HeB Hlt. apply bounded_inv in Hb. destruct Hb as (He & Hm & _).
  unfold SFltb, SFcompare in Hlt. unfold val, bias.
  assert (HP : 0 < 2 ^ (e + 1200)) by (apply pow2_pos; lia).
  destruct (Z.compare_spec e eB) as [Heq|Hl|Hg]; try discriminate.
  - subst eB. rewrite Pos.compare_cont_spec in Hlt. cbn [Pos.switch_Eq] in Hlt.
    destruct (Pos.compare_spec m mB) as [?|Hpl|?]; try discriminate.
    apply Pos2Z.pos_lt_pos in Hpl. nia.
  - assert (Hs : 2 ^ (eB + 1200) = 2 ^ (eB - e) * 2 ^ (e + 1200)).
    { rewrite <- pow2_split by lia. f_equal. lia. }
    assert (2 ^ 1 <= 2 ^ (eB - e)) by (apply pow2_le; lia).
    change (2 ^ 1) with 2 in *.
    change (2 ^ 52) with 4503599627370496 in *.
    change (2 ^ 53) with 9007199254740992 in *.
    rewrite Hs. nia.
Qed.

Lemma val_le_compare (m : positive) (e : Z) (mB : positive) (eB : Z) :
  bounded prec emax m e = true ->
  Zpos mB < 2 ^ 53 -> -1074 <= eB ->
  val (Zpos m) e <= val (Zpos mB) eB ->
  SFleb (S754_finite false m e) (S754_finite false mB eB) = true.
Proof.
  intros Hb HmB HeB Hv. apply bounded_inv in Hb. destruct Hb as (He & Hm & Hc).
  unfold SFleb, SFcompare. unfold val, bias in Hv.
  assert (HP : 0 < 2 ^ (eB + 1200)) by (apply pow2_pos; lia).
  destruct (Z.compare_spec e eB) as [Heq|Hl|Hg]; try reflexivity.
  - subst eB. rewrite Pos.compare_cont_spec. cbn [Pos.switch_Eq].
    destruct (Pos.compare_spec m mB) as [?|Hpl|Hpg]; try reflexivity.
    apply Pos2Z.pos_lt_pos in Hpg. nia.
  - exfalso.
    assert (Hs : 2 ^ (e + 1200) = 2 ^ (e - eB) * 2 ^ (eB + 1200)).
    { rewrite <- pow2_split by lia. f_equal. lia. }
    assert (2 ^ 1 <= 2 ^ (e - eB)) by (apply pow2_le; lia).
    change (2 ^ 1) with 2 in *.
    change (2 ^ 52) with 4503599627370496 in *.
    change (2 ^ 53) with 9007199254740992 in *.
    rewrite Hs in Hv. destruct Hc as [Hc|Hc]; [lia|]. nia.
Qed.

(** ** Products and sums of numbers in a range *)

Lemma mul_in_range (x : number) (mw : positive) (ew V mB eB : Z) :
  in_range V x ->
  2 ^ 52 <= Zpos mw -> -126 <= ew <= 0 ->
  2 ^ 52 <= mB < 2 ^ 53 -> -1074 <= eB <= 971 -> Z.even mB = true ->
  2 * (V * Zpos mw) <= (2 * mB + 1) * 2 ^ (eB + bias - ew) ->
  in_range (val mB eB) (mul x (S754_finite false mw ew)).
Proof.
  intros [Hz|(m & e & Hx & Hb & Hv)] Hmw Hew HmB HeB Heven Hclosed.
  - subst x. left. reflexivity.
  - subst x. unfold mul, SFmul. cbn [xorb].
    pose proof (bounded_inv m e Hb) as (He & Hm & _).
    rewrite Pos2Z.inj_mul.
    assert (HM : 0 < Zpos m * Zpos mw) by lia.
    destruct (binary_round_aux_le (Zpos m * Zpos mw) (e + ew) mB eB)
      as [Hr|(m' & e' & Hr & Hb' & Hv')]; try assumption.
    + unfold bias. lia.
    + rewrite fexp_eq.
      destruct (Zdigits2_pos_bounds _ HM) as [HD HMD].
      set (D := Zdigits2 (Zpos m * Zpos mw)) in *.
      assert (52 < D).
      { apply pow2_lt_inv; [lia|lia|].
        change (2 ^ 52) with 4503599627370496 in *. nia. }
      lia.
    + unfold val, bias in *.
      assert (HP : 0 < 2 ^ (- ew)) by (apply pow2_pos; lia).
      assert (H1 : 2 ^ (e + 1200) = 2 ^ (e + ew + 1200) * 2 ^ (- ew)).
      { rewrite <- pow2_split by lia. f_equal; try lia. }
      assert (H2 : 2 ^ (eB + 1200 - ew) = 2 ^ (eB + 1200) * 2 ^ (- ew)).
      { rewrite <- pow2_split by lia. f_equal; try lia. }
      rewrite H1 in Hv. rewrite H2 in Hclosed.
      assert (0 < 2 ^ (e + ew + 1200)) by (apply pow2_pos; lia).
      assert (0 < 2 ^ (eB + 1200)) by (apply pow2_pos; lia).
      set (A := 2 ^ (e + ew + 1200)) in *.
      set (B := 2 ^ (eB + 1200)) in *.
      set (Q := 2 ^ (- ew)) in *.
      assert (Hs : 2 * (Zpos m * Zpos mw * A) * Q <= (2 * mB + 1) * B * Q) by nia.
      nia.
    + left. exact Hr.
    + right. exists m', e'. auto.
Qed.

Lemma iter_xO_pow (m d : positive) :
  Zpos (Pos.iter xO m d) = Zpos m * 2 ^ Zpos d.
Proof.
  induction d as [|d IH] using Pos.peano_ind.
  - cbn [Pos.iter]. rewrite Pos2Z.inj_xO. change (2 ^ 1) with 2. lia.
  - rewrite Pos.iter_succ. rewrite Pos2Z.inj_xO, IH.
    rewrite Pos2Z.inj_succ. rewrite Z.pow_succ_r by lia. lia.
Qed.

Lemma shl_align_fst (m : positive) (e ez : Z) :
  ez <= e -> Zpos (fst (shl_align m e ez)) = Zpos m * 2 ^ (e - ez).
Proof.
  intro H. unfold shl_align.
  destruct (ez - e) as [|d|d] eqn:Ed; try lia.
  - replace (e - ez) with 0 by lia. cbn [fst]. change (2 ^ 0) with 1. lia.
  - cbn [fst]. rewrite iter_xO_pow. f_equal. f_equal. lia.
Qed.

Lemma shl_align_id (m : positive) (e e' : Z) :
  e <= e' -> shl_align m e e' = (m, e).
Proof.
  intro H. unfold shl_align. destruct (e' - e) eqn:Ed; try reflexivity. lia.
Qed.

Lemma add_in_range (x y : number) (V1 V2 mB eB : Z) :
  in_range V1 x -> in_range V2 y ->
  2 ^ 52 <= mB < 2 ^ 53 -> -1074 <= eB <= 971 -> Z.even mB = true ->
  V1 <= val mB eB -> V2 <= val mB eB ->
  2 * (V1 + V2) <= (2 * mB + 1) * 2 ^ (eB + bias) ->
  in_range (val mB eB) (add x y).
Proof.
  intros Hx Hy HmB HeB Heven HV1 HV2 Hclosed.
  destruct Hx as [Hx|(mx & ex & Hx & Hbx & Hvx)];
    destruct Hy as [Hy|(my & ey & Hy & Hby & Hvy)]; subst x y.
  - left. reflexivity.
  - right. exists my, ey. split; [reflexivity|split; [assumption|lia]].
  - right. exists mx, ex. split; [reflexivity|split; [assumption|lia]].
  - unfold add, SFadd.
    pose proof (bounded_inv mx ex Hbx) as (Hex & Hmx & Hcx).
    pose proof (bounded_inv my ey Hby) as (Hey & Hmy & Hcy).
    set (ez := Z.min ex ey).
    cbn [cond_Zopp].
    pose proof (shl_align_fst mx ex ez ltac:(unfold ez; lia)) as Hax.
    pose proof (shl_align_fst my ey ez ltac:(unfold ez; lia)) as Hay.
    set (ax := fst (shl_align mx ex ez)) in *.
    set (ay := fst (shl_align my ey ez)) in *.
    change (Zpos ax + Zpos ay) with (Zpos (ax + ay)).
    cbn [binary_normalize]. unfold binary_round.
    assert (HPx : 1 <= 2 ^ (ex - ez)).
    { change 1 with (2 ^ 0). apply pow2_le. unfold ez. lia. }
    assert (HPy : 1 <= 2 ^ (ey - ez)).
    { change 1 with (2 ^ 0). apply pow2_le. unfold ez. lia. }
    assert (Hpre : ez <= fexp prec emax (Zpos (digits2_pos (ax + ay)) + ez)).
    { rewrite fexp_eq.
      pose proof (Zdigits2_bounds (ax + ay)) as HD.
      set (D := Zpos (digits2_pos (ax + ay))) in *.
      rewrite Pos2Z.inj_add in HD.
      destruct (Z.eq_dec ez (-1074)) as [->|Hne]; [lia|].
      assert (2 ^ 52 <= Zpos ax + Zpos ay).
      { change (2 ^ 52) with 4503599627370496 in *.
        destruct (Z.min_spec ex ey) as [[_ Hmin]|[_ Hmin]]; fold ez in Hmin.
        - destruct Hcx as [Hcx|Hcx]; [lia|]. nia.
        - destruct Hcy as [Hcy|Hcy]; [lia|]. nia. }
      assert (0 <= D) by (unfold D; lia).
      assert (52 < D) by (apply pow2_lt_inv; lia).
      lia. }
    rewrite shl_align_id by exact Hpre.
    destruct (binary_round_aux_le (Zpos (ax + ay)) ez mB eB)
      as [Hr|(m' & e' & Hr & Hb' & Hv')]; try assumption.
    + lia.
    + unfold bias, ez. lia.
    + unfold val, bias in *. rewrite Pos2Z.inj_add, Hax, Hay.
      assert (H1 : 2 ^ (ex + 1200) = 2 ^ (ex - ez) * 2 ^ (ez + 1200)).
      { rewrite <- pow2_split by (unfold ez; lia). f_equal; try lia. }
      assert (H2 : 2 ^ (ey + 1200) = 2 ^ (ey - ez) * 2 ^ (ez + 1200)).
      { rewrite <- pow2_split by (unfold ez; lia). f_equal; try lia. }
      rewrite H1 in Hvx. rewrite H2 in Hvy. nia.
    + left. exact Hr.
    + right. exists m', e'. auto.
Qed.

(** ** Comparison *)

Lemma SFcompare_antisym (a b : number) :
  SFcompare b a = option_map CompOpp (SFcompare a b).
Proof.
  destruct a as [sa|sa| |sa ma ea], b as [sb|sb| |sb mb eb]; cbn;
    try reflexivity; try (destruct sa; reflexivity);
    try (destruct sb; reflexivity);
    try (destruct sa, sb; reflexivity).
  destruct sa, sb; cbn; try reflexivity.
  - rewrite (Z.compare_antisym ea eb).
    destruct (ea ?= eb); cbn; try reflexivity.
    rewrite (Pos.compare_cont_antisym ma mb Eq). reflexivity.
  - rewrite (Z.compare_antisym ea eb).
    destruct (ea ?= eb); cbn; try reflexivity.
    rewrite (Pos.compare_cont_antisym ma mb Eq). reflexivity.
Qed.

Lemma ge_of_SFleb (a b : number) : SFleb a b = true -> ge b a = true.
Proof.
  unfold SFleb, ge. rewrite (SFcompare_antisym a b).
  destruct (SFcompare a b) as [[| |]|]; cbn; congruence.
Qed.

Lemma lt_not_ge (a b : number) : lt a b = true -> ge a b = false.
Proof.
  unfold lt, SFltb, ge. destruct (SFcompare a b) as [[| |]|]; congruence.
Qed.

(** ** The literals of the scoring functions *)

Lemma of_Z_0 : of_Z 0 = S754_zero false.
Proof. reflexivity. Qed.

Lemma of_Z_100 : of_Z 100 = S754_finite false 7036874417766400 (-46).
Proof. reflexivity. Qed.

Lemma of_Z_80 : of_Z 80 = S754_finite false 5629499534213120 (-46).
Proof. reflexivity. Qed.

Lemma of_Z_60 : of_Z 60 = S754_finite false 8444249301319680 (-47).
Proof. reflexivity. Qed.

Lemma of_Z_40 : of_Z 40 = S754_finite false 5629499534213120 (-47).
Proof. reflexivity. Qed.

Lemma of_Z_20 : of_Z 20 = S754_finite false 5629499534213120 (-48).
Proof. reflexivity. Qed.

Lemma decimal_0_5 : decimal 5 10 = S754_finite false 4503599627370496 (-53).
Proof. reflexivity. Qed.

Lemma decimal_0_3 : decimal 3 10 = S754_finite false 5404319552844595 (-54).
Proof. reflexivity. Qed.

Lemma decimal_0_2 : decimal 2 10 = S754_finite false 7205759403792794 (-55).
Proof. reflexivity. Qed.

(** ** The normalizer and the weighted sum stay in range *)

Lemma in_range_100 : in_range V100 (S754_finite false 7036874417766400 (-46)).
Proof.
  right. exists 7036874417766400%positive, (-46).
  split; [reflexivity|]. split; [reflexivity|]. unfold V100. lia.
Qed.

Lemma normalizeScore_pos_finite (m : positive) (e : Z) :
  normalizeScore (S754_finite false m e) =
  if lt (S754_finite false m e) (of_Z 100) then S754_finite false m e
  else of_Z 100.
Proof. reflexivity. Qed.

Lemma normalizeScore_in_range (v : option number) :
  valid_score v -> in_range V100 (normalizeScore (or_zero v)).
Proof.
  intro Hv. destruct v as [[s|s| |s m e]|]; cbn [or_zero ToBoolean];
    try (left; reflexivity).
  - destruct s; [left; reflexivity|]. exact in_range_100.
  - destruct s; [left; reflexivity|].
    rewrite normalizeScore_pos_finite.
    destruct (lt (S754_finite false m e) (of_Z 100)) eqn:Hlt.
    + right. exists m, e. split; [reflexivity|]. split; [exact Hv|].
      unfold V100. apply compare_lt_val; try assumption; lia.
    + exact in_range_100.
Qed.

Lemma calculateRiskScore_in_range (onChain social code : SubAnalysis) :
  valid_score (riskScore onChain) -> valid_score (riskScore social) ->
  valid_score (riskScore code) ->
  in_range V100 (calculateRiskScore onChain social code).
Proof.
  intros H1 H2 H3. unfold calculateRiskScore.
  rewrite decimal_0_5, decimal_0_3, decimal_0_2.
  unfold V100.
  apply (add_in_range _ _ (val 5629499534213120 (-46))
                          (val 5629499534213120 (-48)));
    try closed_arith.
  - apply (add_in_range _ _ (val 7036874417766400 (-47))
                            (val 8444249301319680 (-48)));
      try closed_arith.
    + apply (mul_in_range _ _ _ V100); try closed_arith.
      apply normalizeScore_in_range; assumption.
    + apply (mul_in_range _ _ _ V100); try closed_arith.
      apply normalizeScore_in_range; assumption.
  - apply (mul_in_range _ _ _ V100); try closed_arith.
    apply normalizeScore_in_range; assumption.
Qed.

Lemma in_range_bounds (x : number) :
  in_range V100 x -> le (of_Z 0) x = true /\ le x (of_Z 100) = true.
Proof.
  intros [Hz|(m & e & Hx & Hb & Hv)]; subst x.
  - split; reflexivity.
  - split; [reflexivity|]. unfold le. apply ge_of_SFleb. rewrite of_Z_100.
    apply val_le_compare; try assumption; lia.
Qed.

(** ** Rounding to the nearest integer *)

Lemma round_integer_nearest (s : bool) (m : positive) (e : Z) :
  e < 0 ->
  (2 * round_integer s m e - 1) * 2 ^ (- e) <= 2 * cond_Zopp s (Zpos m)
  /\ 2 * cond_Zopp s (Zpos m) < (2 * round_integer s m e + 1) * 2 ^ (- e).
Proof.
  intro He. unfold round_integer.
  assert (HP : 0 < 2 ^ (- e)) by (apply pow2_pos; lia).
  assert (H2 : 2 ^ (1 - e) = 2 * 2 ^ (- e)).
  { replace (1 - e) with (Z.succ (- e)) by lia. apply Z.pow_succ_r. lia. }
  rewrite H2. set (P := 2 ^ (- e)) in *. set (x2 := 2 * cond_Zopp s (Zpos m)).
  pose proof (Z.div_mod (x2 + P) (2 * P) ltac:(lia)) as Hdm.
  pose proof (Z.mod_pos_bound (x2 + P) (2 * P) ltac:(lia)) as Hmb.
  nia.
Qed.

Lemma small_integers_ok :
  forallb small_integer_ok (map Z.of_nat (seq 0 101)) = true.
Proof. vm_compute. reflexivity. Qed.

Lemma of_Z_small_bounds (r : Z) :
  0 <= r <= 100 ->
  le (of_Z 0) (of_Z r) = true /\ le (of_Z r) (of_Z 100) = true.
Proof.
  intro Hr. pose proof small_integers_ok as H.
  rewrite forallb_forall in H.
  specialize (H r). apply andb_prop. apply H.
  apply in_map_iff. exists (Z.to_nat r). split; [lia|].
  apply in_seq. lia.
Qed.

Lemma Math_round_in_range (x : number) :
  in_range V100 x ->
  exists r, 0 <= r <= 100 /\ Math_round x = of_Z r.
Proof.
  intros [Hz|(m & e & Hx & Hb & Hv)]; subst x.
  - exists 0. split; [lia|reflexivity].
  - pose proof (bounded_inv m e Hb) as (He & Hm & Hc).
    unfold V100, val, bias in Hv.
    change (-46 + 1200) with 1154 in Hv.
    assert (H1200 : 7036874417766400 * 2 ^ 1154 = 100 * 2 ^ 1200)
      by (vm_compute; reflexivity).
    rewrite H1200 in Hv.
    assert (HPe : 0 < 2 ^ (e + 1200)) by (apply pow2_pos; lia).
    destruct (Z_le_gt_dec 0 e) as [Hpos|Hneg].
    + exfalso. destruct Hc as [Hc|Hc]; [lia|].
      assert (2 ^ 1200 <= 2 ^ (e + 1200)) by (apply pow2_le; lia).
      change (2 ^ 52) with 4503599627370496 in Hc.
      assert (0 < 2 ^ 1200) by (apply pow2_pos; lia). nia.
    + cbn [Math_round].
      replace (0 <=? e) with false by (symmetry; apply Z.leb_gt; lia).
      set (r := round_integer false m e).
      pose proof (round_integer_nearest false m e ltac:(lia)) as [Hlo Hhi].
      fold r in Hlo, Hhi. cbn [cond_Zopp] in Hlo, Hhi.
      assert (HP : 0 < 2 ^ (- e)) by (apply pow2_pos; lia).
      assert (Hs : 2 ^ 1200 = 2 ^ (e + 1200) * 2 ^ (- e)).
      { rewrite <- pow2_split by lia. f_equal. lia. }
      rewrite Hs in Hv.
      assert (Hm100 : Zpos m <= 100 * 2 ^ (- e)) by nia.
      assert (Hr : 0 <= r <= 100) by nia.
      exists r. split; [exact Hr|].
      destruct (r =? 0) eqn:Er; [|reflexivity].
      apply Z.eqb_eq in Er. rewrite Er. reflexivity.
Qed.

Open Scope string_scope.

(** ** The recommendation list *)

Lemma recommend_for_flag_app (recs : list string) (flag : string) :
  recommend_for_flag recs flag = (recs ++ flag_warnings flag)%list.
Proof.
  unfold recommend_for_flag, flag_warnings, about_mint, about_liquidity,
    about_concentration, push, mint_warning, liquidity_warning,
    concentration_warning.
  destruct (includes flag "mint authority");
    destruct (includes flag "liquidity" || includes flag "LP");
    destruct (includes flag "concentration" || includes flag "distribution");
    cbn [app]; rewrite <- ?app_assoc, ?app_nil_r; reflexivity.
Qed.

Lemma fold_recommend_for_flag (flags recs : list string) :
  fold_left recommend_for_flag flags recs
  = (recs ++ flat_map flag_warnings flags)%list.
Proof.
  revert recs. induction flags as [|flag flags IH]; intro recs; cbn [fold_left flat_map].
  - rewrite app_nil_r. reflexivity.
  - rewrite IH, recommend_for_flag_app, <- app_assoc. reflexivity.
Qed.

Lemma has_items_false (flags : option (list string)) :
  has_items flags = false -> or_empty flags = [].
Proof.
  destruct flags as [[|f l]|]; cbn; intro H; try reflexivity; discriminate.
Qed.

Lemma generateRecommendations_shape (score : number)
    (onChain social code : SubAnalysis) :
  generateRecommendations score onChain social code
  = (tier_headlines score
     ++ flat_map flag_warnings (or_empty (redFlags onChain))
     ++ social_warning social ++ code_warning code)%list.
Proof.
  unfold generateRecommendations, tier_headlines, social_warning, code_warning, push.
  set (hs := if ge score (of_Z 80) then _ else _).
  assert (Hflags :
    (if has_items (redFlags onChain)
     then fold_left recommend_for_flag (or_empty (redFlags onChain)) hs
     else hs)
    = (hs ++ flat_map flag_warnings (or_empty (redFlags onChain)))%list).
  { destruct (has_items (redFlags onChain)) eqn:Hi.
    - apply fold_recommend_for_flag.
    - rewrite (has_items_false _ Hi). cbn [flat_map]. rewrite app_nil_r. reflexivity. }
  rewrite Hflags.
  assert (Hhs : hs = tier_headlines score).
  { unfold hs, tier_headlines.
    destruct (ge score (of_Z 80)); [reflexivity|].
    destruct (ge score (of_Z 60)); [reflexivity|].
    destruct (ge score (of_Z 40)); reflexivity. }
  rewrite Hhs. unfold tier_headlines.
  destruct (has_items (redFlags social)), (has_items (redFlags code));
    rewrite <- ?app_assoc, ?app_nil_r; reflexivity.
Qed.

Lemma tier_headlines_length (score : number) :
  List.length (tier_headlines score) = 2%nat.
Proof.
  unfold tier_headlines.
  destruct (ge score (of_Z 80)); [reflexivity|].
  destruct (ge score (of_Z 60)); [reflexivity|].
  destruct (ge score (of_Z 40)); reflexivity.
Qed.

Lemma count_app (w : string) (l1 l2 : list string) :
  count w (l1 ++ l2) = (count w l1 + count w l2)%nat.
Proof. unfold count. rewrite filter_app, length_app. reflexivity. Qed.

Lemma count_flag_warnings (flags : list string) :
  count mint_warning (flat_map flag_warnings flags)
  = List.length (filter about_mint flags)
  /\ count liquidity_warning (flat_map flag_warnings flags)
     = List.length (filter about_liquidity flags)
  /\ count concentration_warning (flat_map flag_warnings flags)
     = List.length (filter about_concentration flags).
Proof.
  induction flags as [|flag flags (IH1 & IH2 & IH3)]; [repeat split|].
  cbn [flat_map filter]. rewrite !count_app, IH1, IH2, IH3.
  unfold flag_warnings.
  destruct (about_mint flag), (about_liquidity flag),
    (about_concentration flag); repeat split; reflexivity.
Qed.

(** ** The summary *)

(** *** Appending strings *)

Lemma string_app_assoc (a b c : string) : (a ++ b) ++ c = a ++ (b ++ c).
Proof. induction a as [|x a IH]; cbn; [reflexivity|rewrite IH; reflexivity]. Qed.

Lemma string_app_nil_r (a : string) : a ++ EmptyString = a.
Proof. induction a as [|x a IH]; cbn; [reflexivity|rewrite IH; reflexivity]. Qed.

Lemma fold_flag_lines (flags : list string) (init : string) :
  fold_left (fun summary flag => summary ++ "- " ++ flag ++ newline) flags init
  = init ++ flag_lines flags.
Proof.
  revert init. induction flags as [|flag flags IH]; intro init; cbn [fold_left flag_lines fold_right].
  - rewrite string_app_nil_r. reflexivity.
  - rewrite IH. fold (flag_lines flags). rewrite !string_app_assoc. reflexivity.
Qed.

(** *** Searching a string *)

Lemma prefix_app (needle rest : string) : String.prefix needle (needle ++ rest) = true.
Proof.
  induction needle as [|c n IH]; cbn.
  - destruct rest; reflexivity.
  - destruct (ascii_dec c c) as [_|Hne]; [exact IH|congruence].
Qed.

Lemma includes_app_intro (pre needle post : string) :
  includes (pre ++ needle ++ post) needle = true.
Proof.
  induction pre as [|c pre IH].
  - cbn [append]. destruct (needle ++ post) eqn:E; cbn [includes];
      rewrite <- E, prefix_app; reflexivity.
  - cbn [append includes]. rewrite IH.
    destruct (String.prefix needle (String c (pre ++ needle ++ post))); reflexivity.
Qed.

Lemma includes_KE (s : string) :
  includes s "KEY RED FLAGS" = true -> hasKE s = true.
Proof.
  induction s as [|c s IH]; [cbn; discriminate|].
  cbn [includes].
  destruct (String.prefix "KEY RED FLAGS" (String c s)) eqn:Hp.
  - intros _. cbn [String.prefix] in Hp.
    destruct (ascii_dec "K" c) as [<-|]; [|discriminate].
    destruct s as [|c' s]; [discriminate|].
    cbn [String.prefix] in Hp.
    destruct (ascii_dec "E" c') as [<-|]; [|discriminate].
    reflexivity.
  - intro H. specialize (IH H). cbn [hasKE].
    destruct s as [|c' s]; [discriminate IH|].
    rewrite IH. apply orb_true_r.
Qed.

Lemma hasKE_cons (c c' : ascii) (rest : string) :
  hasKE (String c (String c' rest))
  = (is_K c && is_E c') || hasKE (String c' rest).
Proof. reflexivity. Qed.

Lemma hasKE_app (a b : string) :
  endsK a = false -> hasKE (a ++ b) = hasKE a || hasKE b.
Proof.
  induction a as [|c a IH]; intro He; [reflexivity|].
  destruct a as [|c' a].
  - cbn in He. cbn [append hasKE]. rewrite He.
    destruct b; reflexivity.
  - change (endsK (String c' a) = false) in He. specialize (IH He).
    cbn [append] in IH |- *.
    rewrite !hasKE_cons, IH, orb_assoc. reflexivity.
Qed.

Lemma hasK_includes (s : string) : includes s "K" = false -> hasK s = false.
Proof.
  induction s as [|c s IH]; [reflexivity|].
  cbn [includes String.prefix hasK]. unfold is_K.
  destruct (ascii_dec "K" c) as [<-|Hne].
  - destruct s; discriminate.
  - intro H. rewrite (IH H).
    destruct (Ascii.eqb_spec c "K") as [->|_]; [congruence|reflexivity].
Qed.

Lemma hasK_free (s : string) :
  hasK s = false -> hasKE s = false /\ endsK s = false.
Proof.
  induction s as [|c s IH]; [split; reflexivity|].
  cbn [hasK]. intro H. apply orb_false_elim in H. destruct H as [Hc Hs].
  destruct (IH Hs) as [IH1 IH2].
  destruct s as [|c' s].
  - split; [reflexivity|exact Hc].
  - split.
    + rewrite hasKE_cons, Hc, IH1. reflexivity.
    + exact IH2.
Qed.

Lemma includes_hasK (s : string) : hasK s = false -> includes s "K" = false.
Proof.
  induction s as [|c s IH]; [reflexivity|].
  cbn [hasK]. intro H. apply orb_false_elim in H. destruct H as [Hc Hs].
  cbn [includes String.prefix]. rewrite (IH Hs).
  destruct (ascii_dec "K" c) as [<-|_]; [discriminate Hc|reflexivity].
Qed.

Lemma hasK_app (a b : string) : hasK (a ++ b) = hasK a || hasK b.
Proof.
  induction a as [|c a IH]; [reflexivity|].
  cbn [append hasK]. rewrite IH, orb_assoc. reflexivity.
Qed.

Lemma hasK_string_of_uint (u : Decimal.uint) :
  hasK (NilEmpty.string_of_uint u) = false.
Proof. induction u; cbn; assumption || reflexivity. Qed.

Lemma integer_toString_no_K (x : number) :
  includes (integer_toString x) "K" = false.
Proof.
  apply includes_hasK. destruct x as [s|s| |s m e]; cbn [integer_toString].
  - reflexivity.
  - destruct s; reflexivity.
  - reflexivity.
  - rewrite hasK_app, hasK_string_of_uint. destruct s; reflexivity.
Qed.

Section SummaryProofs.

Variable Number_toString : number -> string.

Lemma generateSummary_shape (score : number)
    (onChain social code : SubAnalysis) :
  generateSummary Number_toString score onChain social code
  = summary_headline Number_toString score
    ++ red_flag_section Number_toString (all_red_flags onChain social code)
    ++ "💡 RECOMMENDATION: " ++ summary_label score.
Proof.
  unfold generateSummary. fold (all_red_flags onChain social code).
  fold (summary_headline Number_toString score).
  set (all := all_red_flags onChain social code).
  set (hd := summary_headline Number_toString score).
  assert (Hlabel : forall summary : string,
    (if ge score (of_Z 80) then summary ++ "DO NOT BUY"
     else if ge score (of_Z 60) then summary ++ "EXTREME CAUTION"
     else if ge score (of_Z 40) then summary ++ "MODERATE CAUTION"
     else summary ++ "APPEARS SAFE") = summary ++ summary_label score).
  { intro summary. unfold summary_label.
    destruct (ge score (of_Z 80)); [reflexivity|].
    destruct (ge score (of_Z 60)); [reflexivity|].
    destruct (ge score (of_Z 40)); reflexivity. }
  rewrite Hlabel.
  destruct all as [|flag flags] eqn:Hall.
  - cbn [List.length Nat.ltb Nat.leb red_flag_section].
    rewrite !string_app_assoc. reflexivity.
  - assert (Hpos : (0 <? List.length (flag :: flags))%nat = true) by reflexivity.
    rewrite Hpos. rewrite fold_flag_lines.
    unfold red_flag_section, more_issues_line, slice0.
    destruct (5 <? List.length (flag :: flags))%nat;
      rewrite !string_app_assoc; reflexivity.
Qed.

Lemma summary_mentions_flags (score : number)
    (onChain social code : SubAnalysis) :
  all_red_flags onChain social code <> [] ->
  includes (generateSummary Number_toString score onChain social code)
    "KEY RED FLAGS" = true.
Proof.
  intro Hne. rewrite generateSummary_shape.
  destruct (all_red_flags onChain social code) as [|flag flags];
    [congruence|].
  unfold red_flag_section.
  set (rest := newline ++ _ ++ _ ++ newline).
  change ("🔴 KEY RED FLAGS:" ++ rest)
    with ("🔴 " ++ "KEY RED FLAGS" ++ ":" ++ rest).
  rewrite !string_app_assoc.
  rewrite <- (string_app_assoc _ "🔴 ").
  apply includes_app_intro.
Qed.

Lemma summary_omits_section (score : number)
    (onChain social code : SubAnalysis) :
  includes (Number_toString (Math_round score)) "K" = false ->
  all_red_flags onChain social code = [] ->
  includes (generateSummary Number_toString score onChain social code)
    "KEY RED FLAGS" = false.
Proof.
  intros HnoK He. rewrite generateSummary_shape, He.
  cbn [red_flag_section]. 
  destruct (includes _ "KEY RED FLAGS") eqn:Hinc; [|reflexivity].
  apply includes_KE in Hinc. rewrite <- Hinc. symmetry.
  pose proof (hasK_free _ (hasK_includes _ HnoK)) as [HT1 HT2].
  unfold summary_headline, summary_label.
  rewrite !string_app_assoc.
  set (T := Number_toString (Math_round score)) in *.
  rewrite (hasKE_app "🚨 RUG PULL ALERT: This token has ") by reflexivity.
  rewrite (hasKE_app (RiskLevel_toString (getRiskLevel score)))
    by (destruct (getRiskLevel score); reflexivity).
  rewrite (hasKE_app " RUG PULL RISK (") by reflexivity.
  rewrite (hasKE_app T) by exact HT2.
  rewrite HT1.
  destruct (getRiskLevel score);
    destruct (ge score (of_Z 80)); try reflexivity;
    destruct (ge score (of_Z 60)); try reflexivity;
    destruct (ge score (of_Z 40)); reflexivity.
Qed.

End SummaryProofs.

Open Scope Z_scope.

(** ** The classifier's thresholds *)

Lemma ge_threshold_mono (x : number) (m1 m2 : positive) (e1 e2 : Z) :
  e2 < e1 \/ (e2 = e1 /\ (m2 <= m1)%positive) ->
  ge x (S754_finite false m1 e1) = true ->
  ge x (S754_finite false m2 e2) = true.
Proof.
  intro Hc. unfold ge.
  destruct x as [s|s| |s m e]; cbn; try congruence.
  destruct s; [congruence|].
  rewrite !Pos.compare_cont_spec.
  destruct (Z.compare_spec e e1) as [->|Hl|Hg]; cbn; try congruence.
  - destruct (Pos.compare_spec m m1) as [->|Hpl|Hpg]; cbn; try congruence;
      intros _.
    + destruct (Z.compare_spec e1 e2) as [->|?|?]; cbn;
        try reflexivity; try (exfalso; lia).
      destruct (Pos.compare_spec m1 m2); cbn; try reflexivity. exfalso; lia.
    + destruct (Z.compare_spec e1 e2) as [->|?|?]; cbn;
        try reflexivity; try (exfalso; lia).
      destruct (Pos.compare_spec m m2); cbn; try reflexivity. exfalso; lia.
  - intros _. destruct (Z.compare_spec e e2) as [->|?|?]; cbn;
      try reflexivity; exfalso; lia.
Qed.

Lemma ge_80_60 (x : number) : ge x (of_Z 80) = true -> ge x (of_Z 60) = true.
Proof. rewrite of_Z_80, of_Z_60. apply ge_threshold_mono. left. lia. Qed.

Lemma ge_60_40 (x : number) : ge x (of_Z 60) = true -> ge x (of_Z 40) = true.
Proof. rewrite of_Z_60, of_Z_40. apply ge_threshold_mono. right. split; [reflexivity|lia]. Qed.

Lemma ge_40_20 (x : number) : ge x (of_Z 40) = true -> ge x (of_Z 20) = true.
Proof. rewrite of_Z_40, of_Z_20. apply ge_threshold_mono. left. lia. Qed.

Lemma not_ge_mono (x a b : number) :
  (ge x b = true -> ge x a = true) -> ge x a = false -> ge x b = false.
Proof. intros H Ha. destruct (ge x b); [rewrite H in Ha by reflexivity; discriminate|reflexivity]. Qed.

Lemma getRiskLevel_bands (score : number) :
  (ge score (of_Z 80) = true -> getRiskLevel score = CRITICAL)
  /\ (ge score (of_Z 60) = true -> lt score (of_Z 80) = true ->
      getRiskLevel score = HIGH)
  /\ (ge score (of_Z 40) = true -> lt score (of_Z 60) = true ->
      getRiskLevel score = MEDIUM)
  /\ (ge score (of_Z 20) = true -> lt score (of_Z 40) = true ->
      getRiskLevel score = LOW)
  /\ (lt score (of_Z 20) = true -> getRiskLevel score = SAFE).
Proof.
  unfold getRiskLevel. repeat split.
  - intros ->. reflexivity.
  - intros H60 H80. apply lt_not_ge in H80. rewrite H80, H60. reflexivity.
  - intros H40 H60. apply lt_not_ge in H60.
    rewrite (not_ge_mono _ _ _ (ge_80_60 score) H60), H60, H40. reflexivity.
  - intros H20 H40. apply lt_not_ge in H40.
    pose proof (not_ge_mono _ _ _ (ge_60_40 score) H40) as H60.
    rewrite (not_ge_mono _ _ _ (ge_80_60 score) H60), H60, H40, H20. reflexivity.
  - intros H20. apply lt_not_ge in H20.
    pose proof (not_ge_mono _ _ _ (ge_40_20 score) H20) as H40.
    pose proof (not_ge_mono _ _ _ (ge_60_40 score) H40) as H60.
    rewrite (not_ge_mono _ _ _ (ge_80_60 score) H60), H60, H40, H20. reflexivity.
Qed.

(** On the integers from 0 to 100 the classifier follows its table. *)
Lemma RiskLevel_eqb_eq (a b : RiskLevel) : RiskLevel_eqb a b = true -> a = b.
Proof. destruct a, b; cbn; congruence. Qed.

Lemma integer_tiers_ok :
  forallb integer_tier_ok (map Z.of_nat (seq 0 101)) = true.
Proof. vm_compute. reflexivity. Qed.

Lemma getRiskLevel_integer (z : Z) :
  0 <= z <= 100 -> getRiskLevel (of_Z z) = classify_integer z.
Proof.
  intro Hz. apply RiskLevel_eqb_eq.
  pose proof integer_tiers_ok as H. rewrite forallb_forall in H.
  apply (H z). apply in_map_iff. exists (Z.to_nat z). split; [lia|].
  apply in_seq. lia.
Qed.

(** ** The normalizer *)

Lemma SFcompare_Eq_finite (m1 m2 : positive) (e1 e2 : Z) :
  SFcompare (S754_finite false m1 e1) (S754_finite false m2 e2) = Some Eq ->
  S754_finite false m1 e1 = S754_finite false m2 e2.
Proof.
  cbn. destruct (Z.compare_spec e1 e2) as [->|?|?]; try discriminate.
  rewrite Pos.compare_cont_spec. cbn [Pos.switch_Eq].
  destruct (Pos.compare_spec m1 m2) as [->|?|?]; try discriminate. reflexivity.
Qed.

Lemma normalizeScore_clamps (s : number) :
  is_nan s = false ->
  le (of_Z 0) (normalizeScore s) = true
  /\ le (normalizeScore s) (of_Z 100) = true
  /\ (le (of_Z 0) s = true -> le s (of_Z 100) = true ->
      strict_eq (normalizeScore s) s = true
      /\ (is_neg_zero s = false -> normalizeScore s = s)).
Proof.
  intro Hnan. destruct s as [sg|sg| |sg m e]; try discriminate.
  - destruct sg; repeat split; try reflexivity. discriminate.
  - destruct sg; repeat split; try reflexivity; discriminate.
  - destruct sg.
    + repeat split; try reflexivity; discriminate.
    + rewrite normalizeScore_pos_finite.
      destruct (lt (S754_finite false m e) (of_Z 100)) eqn:Hlt.
      * split; [reflexivity|]. split.
        -- unfold le. apply ge_of_SFleb. unfold lt, SFltb in Hlt. unfold SFleb.
           destruct (SFcompare (S754_finite false m e) (of_Z 100)) as [[| |]|];
             congruence.
        -- intros _ _. split; [|reflexivity].
           unfold strict_eq, SFeqb. cbn.
           rewrite Z.compare_refl, Pos.compare_cont_refl. reflexivity.
      * split; [reflexivity|]. split; [reflexivity|].
        intros _ Hle. unfold le, ge in Hle.
        rewrite (SFcompare_antisym (S754_finite false m e) (of_Z 100)) in Hle.
        unfold lt, SFltb in Hlt.
        destruct (SFcompare (S754_finite false m e) (of_Z 100)) as [[| |]|] eqn:Hc;
          try discriminate.
        rewrite of_Z_100 in Hc |- *. apply SFcompare_Eq_finite in Hc.
        rewrite <- Hc. split; [|reflexivity].
        unfold strict_eq, SFeqb. cbn.
        rewrite Z.compare_refl, Pos.compare_cont_refl. reflexivity.
Qed.

Lemma or_zero_normalize (x : number) :
  is_nan x = false -> normalizeScore (or_zero (Some x)) = normalizeScore x.
Proof. destruct x as [[|]|[|]| |s m e]; try reflexivity. discriminate. Qed.

Open Scope string_scope.

(** ** The orchestrator *)

Lemma Promise_all3_fulfilled {A B C : Type} (p1 : Promise A) (p2 : Promise B)
    (p3 : Promise C) (a : A) (b : B) (c : C) :
  Promise_all3 p1 p2 p3 = Fulfilled (a, b, c) <->
  state p1 = Fulfilled a /\ state p2 = Fulfilled b /\ state p3 = Fulfilled c.
Proof.
  unfold Promise_all3, join_promise.
  destruct (state p1) as [a'|e1], (state p2) as [b'|e2], (state p3) as [c'|e3];
    repeat match goal with
           | |- context [if ?c then _ else _] => destruct c
           end;
    split; try (intros (H1 & H2 & H3)); try intro H; try discriminate;
    try (inversion H; subst; auto); try congruence.
Qed.

Lemma Promise_all3_rejected {A B C : Type} (p1 : Promise A) (p2 : Promise B)
    (p3 : Promise C) (e : JsError) :
  Promise_all3 p1 p2 p3 = Rejected e ->
  state p1 = Rejected e \/ state p2 = Rejected e \/ state p3 = Rejected e.
Proof.
  unfold Promise_all3, join_promise.
  destruct (state p1) as [a'|e1], (state p2) as [b'|e2], (state p3) as [c'|e3];
    repeat match goal with
           | |- context [if ?c then _ else _] => destruct c
           end;
    intro H; inversion H; subst; auto.
Qed.

Lemma Promise_all3_settles {A B C : Type} (p1 : Promise A) (p2 : Promise B)
    (p3 : Promise C) :
  (exists a b c, Promise_all3 p1 p2 p3 = Fulfilled (a, b, c))
  \/ (exists e, Promise_all3 p1 p2 p3 = Rejected e).
Proof.
  destruct (Promise_all3 p1 p2 p3) as [[[a b] c]|e];
    [left; exists a, b, c; reflexivity|right; exists e; reflexivity].
Qed.

(** When several promises reject, [Promise.all] rejects with the reason of
    the one that settles first. *)
Lemma Promise_all3_earliest {A B C : Type} (p1 : Promise A) (p2 : Promise B)
    (p3 : Promise C) (e : JsError) :
  Promise_all3 p1 p2 p3 = Rejected e ->
  (state p1 = Rejected e
   /\ (forall e2, state p2 = Rejected e2 -> (settles_at p1 <= settles_at p2)%nat)
   /\ (forall e3, state p3 = Rejected e3 -> (settles_at p1 <= settles_at p3)%nat))
  \/ (state p2 = Rejected e
      /\ (forall e1, state p1 = Rejected e1 -> (settles_at p2 < settles_at p1)%nat)
      /\ (forall e3, state p3 = Rejected e3 -> (settles_at p2 <= settles_at p3)%nat))
  \/ (state p3 = Rejected e
      /\ (forall e1, state p1 = Rejected e1 -> (settles_at p3 < settles_at p1)%nat)
      /\ (forall e2, state p2 = Rejected e2 -> (settles_at p3 < settles_at p2)%nat)).
Proof.
  unfold Promise_all3, join_promise.
  destruct (state p1) as [a'|e1], (state p2) as [b'|e2], (state p3) as [c'|e3];
    repeat match goal with
           | |- context [if (?a <? ?b)%nat then _ else _] =>
               destruct (Nat.ltb_spec a b)
           end;
    intro Hres; inversion Hres; subst;
    try (left; split; [reflexivity|split; intros ? Hx; inversion Hx; subst; lia]);
    try (right; left; split; [reflexivity|split; intros ? Hx; inversion Hx; subst; lia]);
    try (right; right; split; [reflexivity|split; intros ? Hx; inversion Hx; subst; lia]).
Qed.

Section OrchestratorProofs.

Variable Number_toString : number -> string.
Variable this : RugPullDetector.
Variable tokenMint : string.
Variable log : list Call.

Lemma analyzeToken_metadata_rejected (e : JsError) :
  getTokenInfo (chainAnalyzer this) tokenMint = Rejected e ->
  analyzeToken Number_toString this tokenMint log
  = (Rejected e, (log ++ [Call_getTokenInfo tokenMint])%list).
Proof.
  intro H. unfold analyzeToken, try_catch, bind, invoke, await, throw, push.
  rewrite H. reflexivity.
Qed.

Lemma analyzeToken_not_found :
  getTokenInfo (chainAnalyzer this) tokenMint = Fulfilled None ->
  analyzeToken Number_toString this tokenMint log
  = (Rejected (Error "Token not found or invalid"),
     (log ++ [Call_getTokenInfo tokenMint])%list).
Proof.
  intro H. unfold analyzeToken, try_catch, bind, invoke, await, throw, push.
  rewrite H. reflexivity.
Qed.

Lemma analyzeToken_sub_analyzer_rejected (info : TokenInfo) (e : JsError) :
  getTokenInfo (chainAnalyzer this) tokenMint = Fulfilled (Some info) ->
  Promise_all3 (analyzeTokenEconomics (chainAnalyzer this) tokenMint)
    (analyzeSocialSignals (socialAnalyzer this) tokenMint)
    (analyzeCode (codeAnalyzer this) tokenMint) = Rejected e ->
  analyzeToken Number_toString this tokenMint log
  = (Rejected e, (log ++ calls_when_found tokenMint)%list).
Proof.
  intros H Hall. unfold analyzeToken, try_catch, bind, invoke, await, throw, push.
  rewrite H, Hall.
  unfold calls_when_found. rewrite <- !app_assoc. reflexivity.
Qed.

Lemma analyzeToken_report (info : TokenInfo)
    (onChainResult socialResult codeResult : SubAnalysis) :
  getTokenInfo (chainAnalyzer this) tokenMint = Fulfilled (Some info) ->
  Promise_all3 (analyzeTokenEconomics (chainAnalyzer this) tokenMint)
    (analyzeSocialSignals (socialAnalyzer this) tokenMint)
    (analyzeCode (codeAnalyzer this) tokenMint)
  = Fulfilled (onChainResult, socialResult, codeResult) ->
  exists report,
    analyzeToken Number_toString this tokenMint log
    = (Fulfilled report, (log ++ calls_when_found tokenMint)%list)
    /\ Report.analysis report
       = {| onChain := onChainResult; social := socialResult;
            code := codeResult |}
    /\ Report.riskScore report
       = Math_round (calculateRiskScore onChainResult socialResult codeResult)
    /\ Report.riskLevel report
       = getRiskLevel (calculateRiskScore onChainResult socialResult codeResult)
    /\ Report.recommendations report
       = generateRecommendations
           (calculateRiskScore onChainResult socialResult codeResult)
           onChainResult socialResult codeResult
    /\ Report.summary report
       = generateSummary Number_toString
           (calculateRiskScore onChainResult socialResult codeResult)
           onChainResult socialResult codeResult.
Proof.
  intros H Hall. unfold analyzeToken, try_catch, bind, invoke, await, throw, push, ret.
  rewrite H, Hall.
  unfold calls_when_found. rewrite <- !app_assoc.
  eexists. split; [reflexivity|]. cbn. repeat split; reflexivity.
Qed.

(** Every run is one of the four above. *)
Lemma analyzeToken_fulfilled_inv (report : Report.t) (log' : list Call) :
  analyzeToken Number_toString this tokenMint log = (Fulfilled report, log') ->
  exists info onChainResult socialResult codeResult,
    getTokenInfo (chainAnalyzer this) tokenMint = Fulfilled (Some info)
    /\ Promise_all3 (analyzeTokenEconomics (chainAnalyzer this) tokenMint)
    (analyzeSocialSignals (socialAnalyzer this) tokenMint)
    (analyzeCode (codeAnalyzer this) tokenMint)
       = Fulfilled (onChainResult, socialResult, codeResult).
Proof.
  intro Hrun.
  destruct (getTokenInfo (chainAnalyzer this) tokenMint) as [[info|]|e] eqn:Hinfo.
  - destruct (Promise_all3_settles
                (analyzeTokenEconomics (chainAnalyzer this) tokenMint)
                (analyzeSocialSignals (socialAnalyzer this) tokenMint)
                (analyzeCode (codeAnalyzer this) tokenMint))
      as [(a & b & c & Hall)|(e & Hall)].
    + exists info, a, b, c. split; [reflexivity|exact Hall].
    + rewrite (analyzeToken_sub_analyzer_rejected info e Hinfo Hall) in Hrun.
      discriminate.
  - rewrite (analyzeToken_not_found Hinfo) in Hrun. discriminate.
  - rewrite (analyzeToken_metadata_rejected e Hinfo) in Hrun. discriminate.
Qed.

End OrchestratorProofs.

Open Scope string_scope.
Open Scope Z_scope.

(** * The claims *)

(** C1, as stated, fails: for sub-scores 1, 0 and 0 [calculateRiskScore]
    returns the weighted sum 0.5, not its rounding 1. *)
Lemma calculateRiskScore_is_not_rounded :
  calculateRiskScore (scored 1) (scored 0) (scored 0) = decimal 5 10
  /\ spec_aggregate (of_Z 1) (of_Z 0) (of_Z 0) = of_Z 1
  /\ calculateRiskScore (scored 1) (scored 0) (scored 0)
     <> spec_aggregate (of_Z 1) (of_Z 0) (of_Z 0).
Proof.
  split; [reflexivity|]. split; [reflexivity|].
  intro H. vm_compute in H. discriminate.
Qed.

(** C1 (amended): [calculateRiskScore] returns the unrounded weighted sum
    of the normalised sub-scores, each read through [|| 0], which changes
    nothing for a number other than NaN; the rounding is applied by
    [analyzeToken], whose [report.riskScore] is [Math.round] of that sum,
    the nearest integer with a tie going up; sub-scores 100, 50 and 25
    give 70. *)
Theorem calculateRiskScore_weighted_sum :
  (forall onChain social code,
      calculateRiskScore onChain social code
      = weighted_sum (or_zero (riskScore onChain)) (or_zero (riskScore social))
          (or_zero (riskScore code)))
  /\ (forall onChain social code x y z,
         riskScore onChain = Some x -> riskScore social = Some y ->
         riskScore code = Some z ->
         is_nan x = false -> is_nan y = false -> is_nan z = false ->
         calculateRiskScore onChain social code = weighted_sum x y z)
  /\ (forall Number_toString this tokenMint log report log',
         analyzeToken Number_toString this tokenMint log
         = (Fulfilled report, log') ->
         Report.riskScore report
         = Math_round
             (calculateRiskScore (onChain (Report.analysis report))
                (social (Report.analysis report))
                (code (Report.analysis report))))
  /\ (forall s m e,
         e < 0 ->
         Math_round (S754_finite s m e)
         = (if round_integer s m e =? 0 then S754_zero s
            else of_Z (round_integer s m e))
         /\ (2 * round_integer s m e - 1) * 2 ^ (- e)
            <= 2 * cond_Zopp s (Zpos m)
            < (2 * round_integer s m e + 1) * 2 ^ (- e))
  /\ (forall s m e, 0 <= e ->
         Math_round (S754_finite s m e) = S754_finite s m e)
  /\ calculateRiskScore (scored 100) (scored 50) (scored 25) = of_Z 70
  /\ Math_round (of_Z 70) = of_Z 70.
Proof.
  split; [reflexivity|]. split.
  { intros onChain social code x y z Hx Hy Hz Nx Ny Nz.
    unfold calculateRiskScore, weighted_sum. rewrite Hx, Hy, Hz.
    rewrite !or_zero_normalize by assumption. reflexivity. }
  split.
  { intros ts this tokenMint log report log' Hrun.
    destruct (analyzeToken_fulfilled_inv ts this tokenMint log report log' Hrun)
      as (info & a & b & c & Hinfo & Hall).
    destruct (analyzeToken_report ts this tokenMint log info a b c Hinfo Hall)
      as (report' & Hrun' & Han & Hscore & _).
    rewrite Hrun in Hrun'. inversion Hrun'; subst report'.
    rewrite Han. exact Hscore. }
  split.
  { intros s m e He. split.
    - cbn [Math_round].
      replace (0 <=? e) with false by (symmetry; apply Z.leb_gt; lia).
      reflexivity.
    - apply round_integer_nearest. exact He. }
  split.
  { intros s m e He. cbn [Math_round].
    replace (0 <=? e) with true by (symmetry; apply Z.leb_le; lia).
    reflexivity. }
  split; reflexivity.
Qed.

Lemma calculateRiskScore_weighted_sum_witness :
  is_nan (of_Z 150) = false
  /\ calculateRiskScore (scored 150) (scored (-10)) (scored 75)
     = weighted_sum (of_Z 150) (of_Z (-10)) (of_Z 75).
Proof.
  split; [reflexivity|].
  apply (proj1 (proj2 calculateRiskScore_weighted_sum)
           (scored 150) (scored (-10)) (scored 75));
    reflexivity.
Defined.

(** C2: whatever the three sub-scores -- negative, above 100, infinite,
    NaN or missing -- each normalised sub-score is in [0,100], the weights
    sum to 1, and so the weighted sum is in [0,100] and its rounding, the
    composite score of the report, is an integer of [0,100]. *)
Theorem composite_score_in_range (onChain social code : SubAnalysis) :
  valid_score (riskScore onChain) -> valid_score (riskScore social) ->
  valid_score (riskScore code) ->
  (forall v, In v [riskScore onChain; riskScore social; riskScore code] ->
     le (of_Z 0) (normalizeScore (or_zero v)) = true
     /\ le (normalizeScore (or_zero v)) (of_Z 100) = true)
  /\ add (add (decimal 5 10) (decimal 3 10)) (decimal 2 10) = of_Z 1
  /\ le (of_Z 0) (calculateRiskScore onChain social code) = true
  /\ le (calculateRiskScore onChain social code) (of_Z 100) = true
  /\ (exists r, 0 <= r <= 100
        /\ Math_round (calculateRiskScore onChain social code) = of_Z r)
  /\ le (of_Z 0) (Math_round (calculateRiskScore onChain social code)) = true
  /\ le (Math_round (calculateRiskScore onChain social code)) (of_Z 100) = true.
Proof.
  intros H1 H2 H3.
  pose proof (calculateRiskScore_in_range onChain social code H1 H2 H3) as Hs.
  destruct (in_range_bounds _ Hs) as [Hlo Hhi].
  destruct (Math_round_in_range _ Hs) as (r & Hr & Hround).
  destruct (of_Z_small_bounds r Hr) as [Hrlo Hrhi].
  split.
  { intros v Hv. apply in_range_bounds. apply normalizeScore_in_range.
    cbn [In] in Hv. destruct Hv as [<-|[<-|[<-|[]]]]; assumption. }
  split; [reflexivity|].
  split; [exact Hlo|]. split; [exact Hhi|].
  split; [exists r; split; assumption|].
  rewrite Hround. split; assumption.
Qed.

Lemma composite_score_in_range_witness :
  valid_score (Some (of_Z 150))
  /\ valid_score (Some (of_Z (-10)))
  /\ valid_score (Some (of_Z 75))
  /\ le (calculateRiskScore (scored 150) (scored (-10)) (scored 75)) (of_Z 100)
     = true.
Proof.
  split; [reflexivity|]. split; [reflexivity|]. split; [reflexivity|].
  apply (composite_score_in_range (scored 150) (scored (-10)) (scored 75));
    reflexivity.
Defined.

(** C3: the classifier's five tiers have inclusive lower bounds: the nine
    boundary scores are classified as listed, the bands hold for every
    number, and on integer scores they are 80 and more, 60-79, 40-59,
    20-39 and below 20. *)
Theorem getRiskLevel_tiers :
  map getRiskLevel (map of_Z [80; 79; 60; 59; 40; 39; 20; 19; 0])
  = [CRITICAL; HIGH; HIGH; MEDIUM; MEDIUM; LOW; LOW; SAFE; SAFE]
  /\ forall score,
      (ge score (of_Z 80) = true -> getRiskLevel score = CRITICAL)
      /\ (ge score (of_Z 60) = true -> lt score (of_Z 80) = true ->
          getRiskLevel score = HIGH)
      /\ (ge score (of_Z 40) = true -> lt score (of_Z 60) = true ->
          getRiskLevel score = MEDIUM)
      /\ (ge score (of_Z 20) = true -> lt score (of_Z 40) = true ->
          getRiskLevel score = LOW)
      /\ (lt score (of_Z 20) = true -> getRiskLevel score = SAFE)
      /\ (forall z, 0 <= z <= 100 ->
          getRiskLevel (of_Z z) = classify_integer z).
Proof.
  split; [reflexivity|]. intro score.
  destruct (getRiskLevel_bands score) as (H1 & H2 & H3 & H4 & H5).
  repeat split; try assumption. apply getRiskLevel_integer.
Qed.

Lemma getRiskLevel_tiers_witness :
  ge (decimal 795 10) (of_Z 60) = true
  /\ lt (decimal 795 10) (of_Z 80) = true
  /\ getRiskLevel (decimal 795 10) = HIGH.
Proof.
  split; [reflexivity|]. split; [reflexivity|].
  apply (proj1 (proj2 (proj2 getRiskLevel_tiers (decimal 795 10))));
    reflexivity.
Defined.

(** C4: [analyzeToken] fails with the token-not-found error, before any
    sub-analyzer is invoked, when [getTokenInfo] resolves to [null]; once
    the token is found all three sub-analyzers are invoked, and if any of
    them fails [analyzeToken] fails with the error of a failing one (the
    one error there is, when one fails); a report is returned only when
    all three have succeeded. *)
Theorem analyzeToken_all_or_nothing
    (Number_toString : number -> string) (this : RugPullDetector)
    (tokenMint : string) (log : list Call) :
  (getTokenInfo (chainAnalyzer this) tokenMint = Fulfilled None ->
     analyzeToken Number_toString this tokenMint log
     = (Rejected (Error "Token not found or invalid"),
        (log ++ [Call_getTokenInfo tokenMint])%list))
  /\ (forall info e,
        getTokenInfo (chainAnalyzer this) tokenMint = Fulfilled (Some info) ->
        state (analyzeTokenEconomics (chainAnalyzer this) tokenMint) = Rejected e
        \/ state (analyzeSocialSignals (socialAnalyzer this) tokenMint) = Rejected e
        \/ state (analyzeCode (codeAnalyzer this) tokenMint) = Rejected e ->
        exists e',
          analyzeToken Number_toString this tokenMint log
          = (Rejected e', (log ++ calls_when_found tokenMint)%list)
          /\ (state (analyzeTokenEconomics (chainAnalyzer this) tokenMint)
              = Rejected e'
              \/ state (analyzeSocialSignals (socialAnalyzer this) tokenMint)
                 = Rejected e'
              \/ state (analyzeCode (codeAnalyzer this) tokenMint)
                 = Rejected e'))
  /\ (forall info onChainResult codeResult e,
        getTokenInfo (chainAnalyzer this) tokenMint = Fulfilled (Some info) ->
        state (analyzeTokenEconomics (chainAnalyzer this) tokenMint)
        = Fulfilled onChainResult ->
        state (analyzeSocialSignals (socialAnalyzer this) tokenMint)
        = Rejected e ->
        state (analyzeCode (codeAnalyzer this) tokenMint)
        = Fulfilled codeResult ->
        analyzeToken Number_toString this tokenMint log
        = (Rejected e, (log ++ calls_when_found tokenMint)%list))
  /\ (forall report log',
        analyzeToken Number_toString this tokenMint log
        = (Fulfilled report, log') ->
        exists info onChainResult socialResult codeResult,
          getTokenInfo (chainAnalyzer this) tokenMint = Fulfilled (Some info)
          /\ state (analyzeTokenEconomics (chainAnalyzer this) tokenMint)
             = Fulfilled onChainResult
          /\ state (analyzeSocialSignals (socialAnalyzer this) tokenMint)
             = Fulfilled socialResult
          /\ state (analyzeCode (codeAnalyzer this) tokenMint)
             = Fulfilled codeResult
          /\ Report.analysis report
             = {| onChain := onChainResult; social := socialResult;
                  code := codeResult |}
          /\ log' = (log ++ calls_when_found tokenMint)%list).
Proof.
  set (p1 := analyzeTokenEconomics (chainAnalyzer this) tokenMint).
  set (p2 := analyzeSocialSignals (socialAnalyzer this) tokenMint).
  set (p3 := analyzeCode (codeAnalyzer this) tokenMint).
  assert (Hrej : forall info,
    getTokenInfo (chainAnalyzer this) tokenMint = Fulfilled (Some info) ->
    (exists e, state p1 = Rejected e \/ state p2 = Rejected e
               \/ state p3 = Rejected e) ->
    exists e',
      analyzeToken Number_toString this tokenMint log
      = (Rejected e', (log ++ calls_when_found tokenMint)%list)
      /\ (state p1 = Rejected e' \/ state p2 = Rejected e'
          \/ state p3 = Rejected e')).
  { intros info Hinfo (e & He).
    destruct (Promise_all3_settles p1 p2 p3) as [(a & b & c & Hall)|(e' & Hall)].
    - apply Promise_all3_fulfilled in Hall. destruct Hall as (Ha & Hb & Hc).
      destruct He as [He|[He|He]]; congruence.
    - exists e'. split.
      + apply (analyzeToken_sub_analyzer_rejected _ _ _ _ info e' Hinfo Hall).
      + apply Promise_all3_rejected. exact Hall. }
  split; [apply analyzeToken_not_found|].
  split; [intros info e Hinfo He; apply (Hrej info Hinfo); exists e; exact He|].
  split.
  { intros info a c e Hinfo Ha Hb Hc.
    destruct (Hrej info Hinfo) as (e' & Hrun & He').
    - exists e. right. left. exact Hb.
    - destruct He' as [He'|[He'|He']]; congruence. }
  intros report log' Hrun.
  destruct (analyzeToken_fulfilled_inv _ _ _ _ _ _ Hrun)
    as (info & a & b & c & Hinfo & Hall).
  destruct (analyzeToken_report Number_toString this tokenMint log info a b c
              Hinfo Hall) as (report' & Hrun' & Han & _).
  rewrite Hrun in Hrun'. inversion Hrun'; subst.
  apply Promise_all3_fulfilled in Hall. destruct Hall as (Ha & Hb & Hc).
  exists info, a, b, c. repeat split; assumption.
Qed.

Lemma analyzeToken_all_or_nothing_witness :
  analyzeToken integer_toString
    (sample_detector (Fulfilled None) (fulfilled_at 1 (scored 80))
       (fulfilled_at 2 (scored 60)) (fulfilled_at 3 (scored 40)))
    "invalid-token" []
  = (Rejected (Error "Token not found or invalid"),
     [Call_getTokenInfo "invalid-token"])
  /\ analyzeToken integer_toString
       (sample_detector found (fulfilled_at 1 (scored 80))
          (rejected_at 5 "Social analysis failed") (fulfilled_at 3 (scored 40)))
       "test-token" []
     = (Rejected (Error "Social analysis failed"),
        calls_when_found "test-token").
Proof.
  split.
  - apply (proj1 (analyzeToken_all_or_nothing integer_toString
             (sample_detector (Fulfilled None) (fulfilled_at 1 (scored 80))
                (fulfilled_at 2 (scored 60)) (fulfilled_at 3 (scored 40)))
             "invalid-token" [])).
    reflexivity.
  - apply (proj1 (proj2 (proj2 (analyzeToken_all_or_nothing integer_toString
             (sample_detector found (fulfilled_at 1 (scored 80))
                (rejected_at 5 "Social analysis failed")
                (fulfilled_at 3 (scored 40)))
             "test-token" [])))
             {| symbol := Some "TEST" |} (scored 80) (scored 40));
      reflexivity.
Defined.

(** C5: the code departs from the claim.  With sub-scores 100, 65 and 50
    the weighted sum is 79.5: the report stores the score 80 and the level
    HIGH, while the classifier maps the stored score 80 to CRITICAL. *)
Lemma riskLevel_is_not_classified_from_rounded_score :
  exists report log',
    analyzeToken integer_toString
      (sample_detector found (fulfilled_at 1 (scored 100))
         (fulfilled_at 2 (scored 65)) (fulfilled_at 3 (scored 50)))
      "test-token" []
    = (Fulfilled report, log')
    /\ Report.riskScore report = of_Z 80
    /\ Report.riskLevel report = HIGH
    /\ getRiskLevel (Report.riskScore report) = CRITICAL
    /\ Report.riskLevel report <> getRiskLevel (Report.riskScore report).
Proof.
  eexists. eexists. split; [reflexivity|]. cbn [Report.riskScore Report.riskLevel].
  split; [reflexivity|]. split; [reflexivity|]. split; [reflexivity|].
  intro H. vm_compute in H. discriminate.
Qed.

(** Where the two come apart: in every report the level is the classifier
    applied to the weighted sum before it is rounded, and the score is
    the rounding of that sum. *)
Lemma report_riskLevel_of_weighted_sum
    (Number_toString : number -> string) (this : RugPullDetector)
    (tokenMint : string) (log log' : list Call) (report : Report.t) :
  analyzeToken Number_toString this tokenMint log = (Fulfilled report, log') ->
  let weighted :=
    calculateRiskScore (onChain (Report.analysis report))
      (social (Report.analysis report)) (code (Report.analysis report)) in
  Report.riskLevel report = getRiskLevel weighted
  /\ Report.riskScore report = Math_round weighted.
Proof.
  intro Hrun.
  destruct (analyzeToken_fulfilled_inv _ _ _ _ _ _ Hrun)
    as (info & a & b & c & Hinfo & Hall).
  destruct (analyzeToken_report Number_toString this tokenMint log info a b c
              Hinfo Hall) as (report' & Hrun' & Han & Hscore & Hlevel & _).
  rewrite Hrun in Hrun'. inversion Hrun'; subst report'.
  rewrite Han. cbn [onChain social code].
  split; [exact Hlevel|exact Hscore].
Qed.

(** C6: on every number other than NaN the normalizer is
    [min(100, max(0, score))], its result is in [0,100], and it returns
    its argument when that is in [0,100] (up to the sign of zero:
    [normalize(-0)] is [+0]); [normalize(-5) = 0], [normalize(150) = 100];
    on NaN it returns NaN. *)
Theorem normalizeScore_clamp (s : number) :
  is_nan s = false ->
  normalizeScore s = Math_min (of_Z 100) (Math_max (of_Z 0) s)
  /\ le (of_Z 0) (normalizeScore s) = true
  /\ le (normalizeScore s) (of_Z 100) = true
  /\ (le (of_Z 0) s = true -> le s (of_Z 100) = true ->
      strict_eq (normalizeScore s) s = true
      /\ (is_neg_zero s = false -> normalizeScore s = s))
  /\ normalizeScore (of_Z (-5)) = of_Z 0
  /\ normalizeScore (of_Z 150) = of_Z 100
  /\ normalizeScore NaN = NaN.
Proof.
  intro Hnan. split; [reflexivity|].
  destruct (normalizeScore_clamps s Hnan) as (Hlo & Hhi & Hid).
  repeat split; try assumption; try reflexivity; apply Hid; assumption.
Qed.

Lemma normalizeScore_clamp_witness :
  is_nan (decimal 425 10) = false
  /\ le (of_Z 0) (decimal 425 10) = true
  /\ le (decimal 425 10) (of_Z 100) = true
  /\ normalizeScore (decimal 425 10) = decimal 425 10.
Proof.
  split; [reflexivity|]. split; [reflexivity|]. split; [reflexivity|].
  apply (normalizeScore_clamp (decimal 425 10) eq_refl); reflexivity.
Defined.

(** C7, as stated, fails: a NaN or missing [riskScore] does not reach the
    arithmetic; [|| 0] replaces it by 0, and the result is a number. *)
Lemma nan_score_is_replaced_by_zero :
  calculateRiskScore nan_scored nan_scored nan_scored = of_Z 0
  /\ calculateRiskScore unscored unscored unscored = of_Z 0
  /\ calculateRiskScore nan_scored (scored 50) (scored 25) = of_Z 20
  /\ is_nan (calculateRiskScore nan_scored (scored 50) (scored 25)) = false.
Proof. repeat split; reflexivity. Qed.

(** C7 (amended): [calculateRiskScore] has no failure mode, and for
    sub-scores that are numbers or missing it never returns NaN: a NaN,
    zero or missing [riskScore] is replaced by the default 0 before it is
    normalised, and the result depends on the sub-scores through that
    replacement only. *)
Theorem calculateRiskScore_never_NaN (onChain social code : SubAnalysis) :
  valid_score (riskScore onChain) -> valid_score (riskScore social) ->
  valid_score (riskScore code) ->
  is_nan (calculateRiskScore onChain social code) = false
  /\ or_zero (Some NaN) = of_Z 0
  /\ or_zero None = of_Z 0
  /\ (forall onChain' social' code',
        or_zero (riskScore onChain') = or_zero (riskScore onChain) ->
        or_zero (riskScore social') = or_zero (riskScore social) ->
        or_zero (riskScore code') = or_zero (riskScore code) ->
        calculateRiskScore onChain' social' code'
        = calculateRiskScore onChain social code).
Proof.
  intros H1 H2 H3. split.
  { destruct (calculateRiskScore_in_range onChain social code H1 H2 H3)
      as [->|(m & e & -> & _)]; reflexivity. }
  split; [reflexivity|]. split; [reflexivity|].
  intros o s c Ho Hs Hc. unfold calculateRiskScore. rewrite Ho, Hs, Hc.
  reflexivity.
Qed.

Lemma calculateRiskScore_never_NaN_witness :
  valid_score (riskScore nan_scored)
  /\ valid_score (riskScore unscored)
  /\ valid_score (riskScore (scored 50))
  /\ is_nan (calculateRiskScore nan_scored unscored (scored 50)) = false.
Proof.
  split; [reflexivity|]. split; [exact I|]. split; [reflexivity|].
  apply (calculateRiskScore_never_NaN nan_scored unscored (scored 50));
    solve [reflexivity | exact I].
Defined.

(** C8: the recommendation list is, in this order, the two headlines of
    the score's band, then for each on-chain flag in turn its warnings
    (one per matching pattern group, repeated for repeated flags), then
    the social warning if there are social flags, then the code warning
    if there are code flags. *)
Theorem generateRecommendations_order (score : number)
    (onChain social code : SubAnalysis) :
  generateRecommendations score onChain social code
  = (tier_headlines score
     ++ flat_map flag_warnings (or_empty (redFlags onChain))
     ++ social_warning social ++ code_warning code)%list
  /\ List.length (tier_headlines score) = 2%nat
  /\ In "DO NOT BUY - HIGH RUG PULL RISK"
       (generateRecommendations (of_Z 85) onChain social code)
  /\ (let warnings := flat_map flag_warnings (or_empty (redFlags onChain)) in
      count mint_warning warnings
      = List.length (filter about_mint (or_empty (redFlags onChain)))
      /\ count liquidity_warning warnings
         = List.length (filter about_liquidity (or_empty (redFlags onChain)))
      /\ count concentration_warning warnings
         = List.length
             (filter about_concentration (or_empty (redFlags onChain))))
  /\ generateRecommendations (of_Z 70)
       (flagged ["mint authority not renounced"; "LP unlocked, low liquidity";
                 "mint authority not renounced"])
       (flagged ["suspicious activity"; "bots"]) (flagged ["vulnerabilities"])
     = ["EXTREME CAUTION - High risk detected";
        "Only invest what you can afford to lose";
        mint_warning; liquidity_warning; mint_warning;
        "Social media shows suspicious activity";
        "Contract contains potential vulnerabilities"].
Proof.
  split; [apply generateRecommendations_shape|].
  split; [apply tier_headlines_length|].
  split.
  { rewrite generateRecommendations_shape. apply in_or_app. left.
    left. reflexivity. }
  split; [apply count_flag_warnings|reflexivity].
Qed.

(** C9: the summary is the headline, then -- exactly when the three flag
    lists together are not empty -- the section titled KEY RED FLAGS with
    at most the first five flags and the count of the others, then the
    recommendation line with the label of the score's band. *)
Theorem generateSummary_key_red_flags (Number_toString : number -> string)
    (score : number) (onChain social code : SubAnalysis) :
  includes (Number_toString (Math_round score)) "K" = false ->
  includes (generateSummary Number_toString score onChain social code)
    "KEY RED FLAGS"
  = (0 <? List.length (all_red_flags onChain social code))%nat
  /\ generateSummary Number_toString score onChain social code
     = (summary_headline Number_toString score
        ++ red_flag_section Number_toString (all_red_flags onChain social code)
        ++ "💡 RECOMMENDATION: " ++ summary_label score)%string
  /\ (all_red_flags onChain social code = [] ->
      red_flag_section Number_toString (all_red_flags onChain social code)
      = EmptyString%string)
  /\ (List.length (firstn 5 (all_red_flags onChain social code)) <= 5)%nat
  /\ In (summary_label score)
       ["DO NOT BUY"; "EXTREME CAUTION"; "MODERATE CAUTION"; "APPEARS SAFE"].
Proof.
  intro HnoK. split.
  { destruct (all_red_flags onChain social code) as [|flag flags] eqn:Hall.
    - apply summary_omits_section; assumption.
    - apply summary_mentions_flags. rewrite Hall. discriminate. }
  split; [apply generateSummary_shape|].
  split; [intros ->; reflexivity|].
  split; [apply firstn_le_length|].
  unfold summary_label.
  destruct (ge score (of_Z 80)); [cbn; auto|].
  destruct (ge score (of_Z 60)); [cbn; auto|].
  destruct (ge score (of_Z 40)); cbn; auto.
Qed.

Lemma generateSummary_key_red_flags_witness :
  includes (integer_toString (Math_round (of_Z 75))) "K" = false
  /\ includes
       (generateSummary integer_toString (of_Z 75)
          (flagged ["Mint authority not renounced"]) (flagged []) unscored)
       "KEY RED FLAGS" = true
  /\ includes
       (generateSummary integer_toString (of_Z 75) (flagged []) (flagged [])
          unscored)
       "KEY RED FLAGS" = false.
Proof.
  split; [reflexivity|]. split.
  - apply (proj1 (generateSummary_key_red_flags integer_toString (of_Z 75)
             (flagged ["Mint authority not renounced"%string]) (flagged [])
             unscored eq_refl)).
  - apply (proj1 (generateSummary_key_red_flags integer_toString (of_Z 75)
             (flagged []) (flagged []) unscored eq_refl)).
Defined.

(** C10: for every score, NaN and out-of-range ones included, the
    recommendation list has at least two elements and starts with the two
    headlines of one band; a score that fails the three comparisons, as
    NaN does, gets those of the last band. *)
Theorem generateRecommendations_never_empty (score : number)
    (onChain social code : SubAnalysis) :
  (2 <= List.length (generateRecommendations score onChain social code))%nat
  /\ firstn 2 (generateRecommendations score onChain social code)
     = tier_headlines score
  /\ In (tier_headlines score) headline_pairs
  /\ NoDup headline_pairs
  /\ (ge score (of_Z 80) = false -> ge score (of_Z 60) = false ->
      ge score (of_Z 40) = false ->
      tier_headlines score
      = ["APPEARS LEGITIMATE - Low risk detected";
         "Still exercise normal caution with new tokens"]%string)
  /\ firstn 2 (generateRecommendations NaN onChain social code)
     = ["APPEARS LEGITIMATE - Low risk detected";
        "Still exercise normal caution with new tokens"]%string.
Proof.
  assert (Hfirst : forall sc,
    firstn 2 (generateRecommendations sc onChain social code)
    = tier_headlines sc).
  { intro sc. rewrite generateRecommendations_shape.
    rewrite <- (tier_headlines_length sc) at 1.
    rewrite firstn_app, Nat.sub_diag, firstn_all. cbn [firstn].
    apply app_nil_r. }
  split.
  { rewrite generateRecommendations_shape, length_app, tier_headlines_length.
    lia. }
  split; [apply Hfirst|]. split.
  { unfold tier_headlines, headline_pairs.
    destruct (ge score (of_Z 80)); [cbn; auto|].
    destruct (ge score (of_Z 60)); [cbn; auto|].
    destruct (ge score (of_Z 40)); cbn; auto. }
  split.
  { unfold headline_pairs.
    repeat constructor; cbn; intuition discriminate. }
  split.
  { intros H80 H60 H40. unfold tier_headlines. rewrite H80, H60, H40.
    reflexivity. }
  rewrite Hfirst. reflexivity.
Qed.

Lemma generateRecommendations_never_empty_witness :
  ge (of_Z (-3)) (of_Z 80) = false
  /\ tier_headlines (of_Z (-3))
     = ["APPEARS LEGITIMATE - Low risk detected";
        "Still exercise normal caution with new tokens"]%string.
Proof.
  split; [reflexivity|].
  apply (proj1 (proj2 (proj2 (proj2 (proj2
           (generateRecommendations_never_empty (of_Z (-3)) unscored unscored
              unscored))))));
    reflexivity.
Defined.


(** * The rest of the code: lemmas and further properties *)

Close Scope Z_scope.

(** ** The analysis by symbol, and the labels of the bot *)

Lemma ascii_lower_upper (c : ascii) :
  ascii_toLowerCase (ascii_toUpperCase c) = ascii_toLowerCase c.
Proof. destruct c as [[] [] [] [] [] [] [] []]; reflexivity. Qed.

Lemma toLowerCase_toUpperCase (s : string) :
  toLowerCase (toUpperCase s) = toLowerCase s.
Proof.
  induction s as [|c s IH]; [reflexivity|].
  cbn [toUpperCase toLowerCase string_map] in *.
  rewrite ascii_lower_upper. f_equal. exact IH.
Qed.

Lemma is_ascii_toUpperCase (s : string) :
  is_ascii s = true -> is_ascii (toUpperCase s) = true.
Proof.
  induction s as [|c s IH]; [reflexivity|].
  cbn [toUpperCase string_map is_ascii]. intro H.
  apply andb_prop in H. destruct H as [Hc Hs].
  apply andb_true_intro. split; [|exact (IH Hs)].
  revert Hc. destruct c as [[] [] [] [] [] [] [] []]; vm_compute; congruence.
Qed.

(** X1. The canned analyses of [analyzeTokenBySymbol] agree with the
    scoring engine: the risk level is the one [getRiskLevel] gives to the
    score, the two recommendations are the ones [generateRecommendations]
    gives to the score when no flag is passed, and the symbol is returned
    as it was given. *)
Theorem analyzeTokenBySymbol_agrees_with_engine
    (String_toLowerCase : string -> string) (symbol : string) :
  let analysis := analyzeTokenBySymbol String_toLowerCase symbol in
  SymbolAnalysis.riskLevel analysis
  = RiskLevel_toString (getRiskLevel (SymbolAnalysis.riskScore analysis))
  /\ SymbolAnalysis.recommendations analysis
     = generateRecommendations (SymbolAnalysis.riskScore analysis)
         unscored unscored unscored
  /\ SymbolAnalysis.tokenSymbol analysis = symbol.
Proof.
  unfold analyzeTokenBySymbol.
  destruct (includes (String_toLowerCase symbol) "fake"
            || includes (String_toLowerCase symbol) "rug");
    [repeat split; reflexivity|].
  destruct (includes (String_toLowerCase symbol) "moon"
            || includes (String_toLowerCase symbol) "shot");
    repeat split; reflexivity.
Qed.

(** X2. On symbols of ASCII characters [analyzeTokenBySymbol] does not
    depend on the case of the letters: the analysis of the symbol in
    capitals, which the bot asks for, has the score, the level, the
    issues and the recommendations of the analysis of the symbol itself. *)
Theorem analyzeTokenBySymbol_ignores_case (symbol : string) :
  is_ascii symbol = true ->
  is_ascii (toUpperCase symbol) = true
  /\ let a := analyzeTokenBySymbol toLowerCase symbol in
     let b := analyzeTokenBySymbol toLowerCase (toUpperCase symbol) in
     SymbolAnalysis.riskScore b = SymbolAnalysis.riskScore a
     /\ SymbolAnalysis.riskLevel b = SymbolAnalysis.riskLevel a
     /\ SymbolAnalysis.onChainIssues b = SymbolAnalysis.onChainIssues a
     /\ SymbolAnalysis.socialIssues b = SymbolAnalysis.socialIssues a
     /\ SymbolAnalysis.codeIssues b = SymbolAnalysis.codeIssues a
     /\ SymbolAnalysis.recommendations b = SymbolAnalysis.recommendations a.
Proof.
  intro Hascii. split; [apply is_ascii_toUpperCase; exact Hascii|].
  unfold analyzeTokenBySymbol. rewrite toLowerCase_toUpperCase.
  destruct (includes (toLowerCase symbol) "fake"
            || includes (toLowerCase symbol) "rug");
    [repeat split; reflexivity|].
  destruct (includes (toLowerCase symbol) "moon"
            || includes (toLowerCase symbol) "shot");
    repeat split; reflexivity.
Qed.

Lemma analyzeTokenBySymbol_ignores_case_witness :
  is_ascii "MoonShot" = true
  /\ SymbolAnalysis.riskScore (analyzeTokenBySymbol toLowerCase "MOONSHOT")
     = SymbolAnalysis.riskScore (analyzeTokenBySymbol toLowerCase "MoonShot").
Proof.
  split; [reflexivity|].
  apply (proj2 (analyzeTokenBySymbol_ignores_case "MoonShot" eq_refl)).
Defined.

(** X3. The label, the emoji and the advice of the bot follow the tiers
    of the detector: CRITICAL, HIGH RISK and MEDIUM RISK on the bands of
    CRITICAL, HIGH and MEDIUM, and LOW RISK on both LOW and SAFE, which
    the bot does not tell apart. *)
Theorem bot_labels_follow_the_tiers (score : number) :
  match getRiskLevel score with
  | CRITICAL =>
      Bot.getRiskLevel score = "CRITICAL"
      /\ Bot.getRiskEmoji (Bot.getRiskLevel score) = "🚨"
      /\ Bot.getRecommendation score = "DO NOT BUY - HIGH RUG PULL RISK"
  | HIGH =>
      Bot.getRiskLevel score = "HIGH RISK"
      /\ Bot.getRiskEmoji (Bot.getRiskLevel score) = "⚠️"
      /\ Bot.getRecommendation score = "EXTREME CAUTION - HIGH RISK"
  | MEDIUM =>
      Bot.getRiskLevel score = "MEDIUM RISK"
      /\ Bot.getRiskEmoji (Bot.getRiskLevel score) = "🟡"
      /\ Bot.getRecommendation score = "PROCEED WITH CAUTION"
  | LOW | SAFE =>
      Bot.getRiskLevel score = "LOW RISK"
      /\ Bot.getRiskEmoji (Bot.getRiskLevel score) = "✅"
      /\ Bot.getRecommendation score = "APPEARS LEGITIMATE - but always DYOR"
  end.
Proof.
  unfold getRiskLevel, Bot.getRiskLevel, Bot.getRecommendation.
  destruct (ge score (of_Z 80)); [repeat split; reflexivity|].
  destruct (ge score (of_Z 60)); [repeat split; reflexivity|].
  destruct (ge score (of_Z 40)); [repeat split; reflexivity|].
  destruct (ge score (of_Z 20)); repeat split; reflexivity.
Qed.

Open Scope Z_scope.

(** ** Rounding below a bound whose mantissa may be odd *)

Lemma rne_lt_half (M n : Z) (mrs : shr_record) (K : Z) :
  0 <= n -> shifted M n mrs ->
  2 * M < (2 * K + 1) * 2 ^ n ->
  round_nearest_even (shr_m mrs) (loc_of_shr_record mrs) <= K.
Proof.
  intros Hn Hsh HK. destruct Hsh as (rem & Hm & HM & Hrem & Hr & Hs).
  pose proof (pow2_pos n Hn) as HP.
  destruct mrs as [m r s]. cbn [shr_m shr_r shr_s] in *.
  set (P := 2 ^ n) in *.
  assert (Hle : m <= K) by nia.
  assert (Hlt : m < K \/ (m = K /\ 2 * rem < P)) by nia.
  destruct Hlt as [Hlt|[HmK Hhalf]].
  - destruct r, s; cbn [loc_of_shr_record round_nearest_even];
      try destruct (Z.even m); lia.
  - assert (r = false).
    { destruct r; [|reflexivity].
      assert (P <= 2 * rem) by (apply Hr; reflexivity). lia. }
    subst r. destruct s; cbn [loc_of_shr_record round_nearest_even]; lia.
Qed.

Lemma binary_round_aux_lt (M e mB eB : Z) :
  0 < M -> - bias <= e ->
  e <= fexp prec emax (Zdigits2 M + e) ->
  2 ^ 52 <= mB < 2 ^ 53 -> -1074 <= eB <= 971 ->
  2 * val M e < (2 * mB + 1) * 2 ^ (eB + bias) ->
  binary_round_aux prec emax false M e loc_Exact = S754_zero false \/
  exists m' e',
    binary_round_aux prec emax false M e loc_Exact = S754_finite false m' e'
    /\ bounded prec emax m' e' = true
    /\ val (Zpos m') e' <= val mB eB.
Proof.
  intros HM He Hpre HmB HeB Hval.
  destruct (Zdigits2_pos_bounds M HM) as [Hd HMd].
  set (d := Zdigits2 M) in *.
  rewrite fexp_eq in Hpre.
  set (ev := Z.max (d + e - 53) (-1074)) in *.
  set (n := ev - e).
  assert (Hn : 0 <= n) by (unfold n; lia).
  destruct (shr_spec M e n ltac:(lia) Hn) as (mrs & Hshr & Hsh).
  assert (H1 : shr_fexp prec emax M e loc_Exact = (mrs, ev)).
  { unfold shr_fexp. rewrite fexp_eq. fold d. fold ev. cbn [shr_record_of_loc].
    fold n. rewrite Hshr. f_equal. unfold n. lia. }
  set (m1 := round_nearest_even (shr_m mrs) (loc_of_shr_record mrs)).
  pose proof (rne_between M n mrs Hsh) as Hbetween. fold m1 in Hbetween.
  pose proof (rne_le_exact M n mrs Hn Hsh) as Hexact. fold m1 in Hexact.
  pose proof (rne_lt_half M n mrs mB Hn Hsh) as Hhalf. fold m1 in Hhalf.
  destruct Hsh as (rem & Hm0 & HMeq & Hrem & _ & _).
  set (m0 := shr_m mrs) in *.
  unfold val, bias in *.
  assert (HPe : 0 < 2 ^ (e + 1200)) by (apply pow2_pos; lia).
  assert (HPn : 0 < 2 ^ n) by (apply pow2_pos; lia).
  assert (HPev : 2 ^ (ev + 1200) = 2 ^ (e + 1200) * 2 ^ n).
  { rewrite <- pow2_split by lia. f_equal. unfold n. lia. }
  assert (HD : 2 ^ (d - 1 + (e + 1200)) = 2 ^ (d - 1) * 2 ^ (e + 1200))
    by (apply pow2_split; lia).
  assert (HevB : ev <= eB).
  { assert (d - 1 + (e + 1200) < 53 + (eB + 1200)).
    { apply pow2_lt_inv; try lia.
      rewrite HD. rewrite (pow2_split 53 (eB + 1200)) by lia.
      assert (0 < 2 ^ (eB + 1200)) by (apply pow2_pos; lia).
      change (2 ^ 53) with 9007199254740992 in *.
      assert (2 ^ (d - 1) * 2 ^ (e + 1200) <= M * 2 ^ (e + 1200))
        by (apply Z.mul_le_mono_nonneg_r; lia).
      assert (mB * 2 ^ (eB + 1200) <= 9007199254740991 * 2 ^ (eB + 1200))
        by (apply Z.mul_le_mono_nonneg_r; lia).
      lia. }
    lia. }
  assert (HPd : 0 < 2 ^ (eB - ev)) by (apply pow2_pos; lia).
  assert (HPB : 2 ^ (eB + 1200) = 2 ^ (eB - ev) * 2 ^ (ev + 1200)).
  { rewrite <- pow2_split by lia. f_equal. lia. }
  assert (Hm1K : m1 <= mB * 2 ^ (eB - ev)).
  { destruct (Z.eq_dec ev eB) as [Heq|Hne].
    - rewrite Heq, Z.sub_diag. change (2 ^ 0) with 1. rewrite Z.mul_1_r.
      apply Hhalf. rewrite <- Heq in Hval. rewrite HPev in Hval.
      apply (Z.mul_lt_mono_pos_r (2 ^ (e + 1200))); [exact HPe|]. lia.
    - apply Hexact.
      assert (Hlt : d <= 52 + (eB - ev) + n) by (unfold n; lia).
      assert (2 ^ d <= 2 ^ (52 + (eB - ev) + n)) by (apply pow2_le; lia).
      rewrite !pow2_split in H by lia.
      change (2 ^ 52) with 4503599627370496 in *.
      assert (4503599627370496 * (2 ^ (eB - ev) * 2 ^ n)
              <= mB * (2 ^ (eB - ev) * 2 ^ n)).
      { apply Z.mul_le_mono_nonneg_r; [|lia].
        apply Z.mul_nonneg_nonneg; lia. }
      lia. }
  assert (Hval1 : m1 * 2 ^ (ev + 1200) <= mB * 2 ^ (eB + 1200)).
  { rewrite HPB, Z.mul_assoc.
    assert (0 < 2 ^ (ev + 1200)) by (apply pow2_pos; lia).
    apply Z.mul_le_mono_nonneg_r; [lia|exact Hm1K]. }
  assert (Hsize : (ev = -1074 /\ m0 < 2 ^ 52) \/ 2 ^ 52 <= m0 < 2 ^ 53).
  { destruct (Z_le_gt_dec (-1074) (d + e - 53)) as [Hnorm|Hsub].
    - right. assert (Hnd : n = d - 53) by (unfold n; lia).
      assert (Hp1 : 2 ^ d = 2 ^ 53 * 2 ^ n).
      { rewrite <- pow2_split by lia. f_equal. lia. }
      assert (Hp2 : 2 ^ (d - 1) = 2 ^ 52 * 2 ^ n).
      { rewrite <- pow2_split by lia. f_equal. lia. }
      rewrite Hp1, Hp2 in HMd.
      change (2 ^ 52) with 4503599627370496 in *.
      change (2 ^ 53) with 9007199254740992 in *.
      split.
      + destruct (Z_lt_le_dec m0 4503599627370496) as [Hlt|Hge];
          [exfalso|exact Hge].
        assert ((m0 + 1) * 2 ^ n <= 4503599627370496 * 2 ^ n)
          by (apply Z.mul_le_mono_nonneg_r; lia).
        lia.
      + destruct (Z_lt_le_dec m0 9007199254740992) as [Hlt|Hge];
          [exact Hlt|exfalso].
        assert (9007199254740992 * 2 ^ n <= m0 * 2 ^ n)
          by (apply Z.mul_le_mono_nonneg_r; lia).
        lia.
    - left. split; [lia|].
      assert (2 ^ d <= 2 ^ (52 + n)) by (apply pow2_le; unfold n; lia).
      rewrite pow2_split in H by lia.
      change (2 ^ 52) with 4503599627370496 in *.
      destruct (Z_lt_le_dec m0 4503599627370496) as [Hlt|Hge];
        [exact Hlt|exfalso].
      assert (4503599627370496 * 2 ^ n <= m0 * 2 ^ n)
        by (apply Z.mul_le_mono_nonneg_r; lia).
      lia. }
  assert (Hev : -1074 <= ev) by lia.
  change (2 ^ 52) with 4503599627370496 in *.
  change (2 ^ 53) with 9007199254740992 in *.
  destruct (Z.eq_dec m1 0) as [Hz|Hnz].
  - left.
    assert (H2 : shr_fexp prec emax m1 ev loc_Exact
                 = (Build_shr_record 0 false false, ev))
      by (rewrite Hz; apply shr_fexp_zero; exact Hev).
    rewrite (binary_round_aux_eq false M e _ _ _ _ H1 H2). reflexivity.
  - right. destruct (Z.eq_dec m1 9007199254740992) as [Hc|Hnc].
    + assert (HevB' : ev < eB).
      { destruct (Z.eq_dec ev eB) as [Heq|Hne]; [|lia].
        rewrite Heq, Z.sub_diag in Hm1K. change (2 ^ 0) with 1 in Hm1K. lia. }
      exists 4503599627370496%positive, (ev + 1).
      assert (H2 : shr_fexp prec emax m1 ev loc_Exact
                   = (Build_shr_record (2 ^ 52) false false, ev + 1))
        by (rewrite Hc; apply (shr_fexp_carry ev Hev)).
      rewrite (binary_round_aux_eq false M e _ _ _ _ H1 H2).
      cbn [shr_m]. change (2 ^ 52) with 4503599627370496.
      change (emax - prec) with 971.
      replace (ev + 1 <=? 971) with true by (symmetry; apply Z.leb_le; lia).
      split; [reflexivity|]. split.
      * unfold bounded, canonical_mantissa. rewrite fexp_eq.
        change (Z.pos (digits2_pos 4503599627370496)) with 53.
        change (emax - prec) with 971.
        apply andb_true_intro. split; [apply Z.eqb_eq|apply Z.leb_le]; lia.
      * replace (ev + 1 + 1200) with (1 + (ev + 1200)) by lia.
        rewrite pow2_split by lia. change (2 ^ 1) with 2.
        rewrite Hc in Hval1. lia.
    + assert (Hm1 : 0 < m1 < 9007199254740992) by lia.
      destruct (shr_fexp_fits m1 ev Hev Hm1 ltac:(lia)) as [H2 Hcan].
      rewrite (binary_round_aux_eq false M e _ _ _ _ H1 H2).
      cbn [shr_m].
      destruct m1 as [|p|p] eqn:Em1; try lia.
      exists p, ev. change (emax - prec) with 971.
      replace (ev <=? 971) with true by (symmetry; apply Z.leb_le; lia).
      split; [reflexivity|]. split.
      * unfold bounded, canonical_mantissa. cbn [Zdigits2] in Hcan.
        rewrite Hcan. change (emax - prec) with 971.
        apply andb_true_intro. split; [apply Z.eqb_eq|apply Z.leb_le]; lia.
      * exact Hval1.
Qed.

Lemma mul_in_range_lt (x : number) (mw : positive) (ew V mB eB : Z) :
  in_range V x ->
  2 ^ 52 <= Zpos mw -> -126 <= ew <= 0 ->
  2 ^ 52 <= mB < 2 ^ 53 -> -1074 <= eB <= 971 ->
  2 * (V * Zpos mw) < (2 * mB + 1) * 2 ^ (eB + bias - ew) ->
  in_range (val mB eB) (mul x (S754_finite false mw ew)).
Proof.
  intros [Hz|(m & e & Hx & Hb & Hv)] Hmw Hew HmB HeB Hclosed.
  - subst x. left. reflexivity.
  - subst x. unfold mul, SFmul. cbn [xorb].
    pose proof (bounded_inv m e Hb) as (He & Hm & _).
    rewrite Pos2Z.inj_mul.
    assert (HM : 0 < Zpos m * Zpos mw) by lia.
    destruct (binary_round_aux_lt (Zpos m * Zpos mw) (e + ew) mB eB)
      as [Hr|(m' & e' & Hr & Hb' & Hv')]; try assumption.
    + unfold bias. lia.
    + rewrite fexp_eq.
      destruct (Zdigits2_pos_bounds _ HM) as [HD HMD].
      set (D := Zdigits2 (Zpos m * Zpos mw)) in *.
      assert (52 < D).
      { apply pow2_lt_inv; [lia|lia|].
        change (2 ^ 52) with 4503599627370496 in *. nia. }
      lia.
    + unfold val, bias in *.
      assert (HP : 0 < 2 ^ (- ew)) by (apply pow2_pos; lia).
      assert (H1 : 2 ^ (e + 1200) = 2 ^ (e + ew + 1200) * 2 ^ (- ew)).
      { rewrite <- pow2_split by lia. f_equal; try lia. }
      assert (H2 : 2 ^ (eB + 1200 - ew) = 2 ^ (eB + 1200) * 2 ^ (- ew)).
      { rewrite <- pow2_split by lia. f_equal; try lia. }
      rewrite H1 in Hv. rewrite H2 in Hclosed.
      assert (0 < 2 ^ (e + ew + 1200)) by (apply pow2_pos; lia).
      assert (0 < 2 ^ (eB + 1200)) by (apply pow2_pos; lia).
      set (A := 2 ^ (e + ew + 1200)) in *.
      set (B := 2 ^ (eB + 1200)) in *.
      set (Q := 2 ^ (- ew)) in *.
      assert (Hs : 2 * (Zpos m * Zpos mw * A) * Q < (2 * mB + 1) * B * Q) by nia.
      nia.
    + left. exact Hr.
    + right. exists m', e'. auto.
Qed.

Lemma is_random_in_range (r : number) :
  is_random r = true -> in_range Vrandom r.
Proof.
  unfold is_random. intro H.
  apply andb_prop in H. destruct H as [H Hlt].
  apply andb_prop in H. destruct H as [H Hle].
  apply andb_prop in H. destruct H as [Hv Hnz].
  destruct r as [s|s| |s m e]; try discriminate.
  - destruct s; [discriminate|]. left. reflexivity.
  - destruct s; discriminate.
  - destruct s; [discriminate|].
    right. exists m, e. split; [reflexivity|]. split; [exact Hv|].
    pose proof (bounded_inv m e Hv) as (He & Hm & Hc).
    unfold lt, SFltb in Hlt.
    change (of_Z 1) with (S754_finite false 4503599627370496 (-52)) in Hlt.
    cbn [SFcompare] in Hlt.
    unfold Vrandom, val, bias.
    change (2 ^ 52) with 4503599627370496 in *.
    change (2 ^ 53) with 9007199254740992 in *.
    destruct (Z.compare_spec e (-52)) as [Heq|Hl|Hg]; try discriminate.
    + subst e. rewrite Pos.compare_cont_spec in Hlt. cbn [Pos.switch_Eq] in Hlt.
      destruct (Pos.compare_spec m 4503599627370496) as [?|Hpl|?];
        try discriminate.
      apply Pos2Z.pos_lt_pos in Hpl. lia.
    + assert (HP : 0 < 2 ^ (e + 1200)) by (apply pow2_pos; lia).
      assert (Hs : 2 ^ (-53 + 1200) = 2 ^ (-53 - e) * 2 ^ (e + 1200)).
      { rewrite <- pow2_split by lia. f_equal. lia. }
      assert (1 <= 2 ^ (-53 - e)).
      { change 1 with (2 ^ 0). apply pow2_le. lia. }
      rewrite Hs. nia.
Qed.

(** ** Rounding down to an integer *)

Lemma Math_floor_in_range (x : number) (V N : Z) :
  in_range V x -> 0 < N <= 2 ^ 52 -> V < N * 2 ^ bias ->
  exists k, 0 <= k < N /\ Math_floor x = of_Z k.
Proof.
  intros [Hz|(m & e & Hx & Hb & Hv)] HN HV; subst x.
  - exists 0. split; [lia|reflexivity].
  - pose proof (bounded_inv m e Hb) as (He & Hm & Hc).
    unfold val, bias in *.
    assert (HPe : 0 < 2 ^ (e + 1200)) by (apply pow2_pos; lia).
    assert (H12 : 0 < 2 ^ 1200) by (apply pow2_pos; lia).
    destruct (Z_le_gt_dec 0 e) as [Hpos|Hneg].
    + exfalso. destruct Hc as [Hc|Hc]; [lia|].
      assert (2 ^ 1200 <= 2 ^ (e + 1200)) by (apply pow2_le; lia).
      nia.
    + cbn [Math_floor].
      replace (0 <=? e) with false by (symmetry; apply Z.leb_gt; lia).
      unfold floor_integer. cbn [cond_Zopp].
      assert (HP : 0 < 2 ^ (- e)) by (apply pow2_pos; lia).
      assert (Hs : 2 ^ 1200 = 2 ^ (e + 1200) * 2 ^ (- e)).
      { rewrite <- pow2_split by lia. f_equal. lia. }
      rewrite Hs in HV.
      set (k := Zpos m / 2 ^ (- e)).
      pose proof (Z.div_mod (Zpos m) (2 ^ (- e)) ltac:(lia)) as Hdm.
      pose proof (Z.mod_pos_bound (Zpos m) (2 ^ (- e)) ltac:(lia)) as Hmb.
      fold k in Hdm.
      assert (Hk : 0 <= k < N) by nia.
      exists k. split; [exact Hk|].
      destruct (k =? 0) eqn:Ek; [|reflexivity].
      apply Z.eqb_eq in Ek. rewrite Ek. reflexivity.
Qed.

(** ** Products of a random value *)

Lemma of_Z_30 : of_Z 30 = S754_finite false 8444249301319680 (-48).
Proof. reflexivity. Qed.

Lemma mul_random_20 (r : number) :
  is_random r = true ->
  in_range (val 5629499534213119 (-48)) (mul r (of_Z 20)).
Proof.
  intro H. rewrite of_Z_20.
  apply (mul_in_range_lt _ _ _ Vrandom); try closed_arith.
  apply is_random_in_range; exact H.
Qed.

Lemma mul_random_30 (r : number) :
  is_random r = true ->
  in_range (val 8444249301319679 (-48)) (mul r (of_Z 30)).
Proof.
  intro H. rewrite of_Z_30.
  apply (mul_in_range_lt _ _ _ Vrandom); try closed_arith.
  apply is_random_in_range; exact H.
Qed.

Lemma mul_random_100 (r : number) :
  is_random r = true -> in_range V100 (mul r (of_Z 100)).
Proof.
  intro H. rewrite of_Z_100. unfold V100.
  apply (mul_in_range _ _ _ Vrandom); try closed_arith.
  apply is_random_in_range; exact H.
Qed.

Lemma floor_random_20 (r : number) :
  is_random r = true ->
  exists k, 0 <= k < 20 /\ Math_floor (mul r (of_Z 20)) = of_Z k.
Proof.
  intro H. apply (Math_floor_in_range _ (val 5629499534213119 (-48)));
    [apply mul_random_20; exact H|split; [lia|closed_arith]|].
  apply Z.ltb_lt. vm_compute. reflexivity.
Qed.

Lemma floor_random_30 (r : number) :
  is_random r = true ->
  exists k, 0 <= k < 30 /\ Math_floor (mul r (of_Z 30)) = of_Z k.
Proof.
  intro H. apply (Math_floor_in_range _ (val 8444249301319679 (-48)));
    [apply mul_random_30; exact H|split; [lia|closed_arith]|].
  apply Z.ltb_lt. vm_compute. reflexivity.
Qed.

(** Sums of small integers are exact. *)
Lemma integers_below (n : nat) (k : Z) :
  0 <= k < Z.of_nat n -> In k (map Z.of_nat (seq 0 n)).
Proof.
  intro H. apply in_map_iff. exists (Z.to_nat k). split; [lia|].
  apply in_seq. lia.
Qed.

Lemma add_60_exact (k : Z) :
  0 <= k < 30 -> add (of_Z 60) (of_Z k) = of_Z (60 + k).
Proof.
  intro H. apply (integers_below 30) in H. revert k H. apply Forall_forall.
  repeat (constructor; [vm_compute; reflexivity|]). constructor.
Qed.

Lemma add_40_exact (k : Z) :
  0 <= k < 30 -> add (of_Z 40) (of_Z k) = of_Z (40 + k).
Proof.
  intro H. apply (integers_below 30) in H. revert k H. apply Forall_forall.
  repeat (constructor; [vm_compute; reflexivity|]). constructor.
Qed.

Open Scope string_scope.

(** ** The demo analysis *)

Lemma getDemoAnalysis_score (draws : Chain.DemoDraws) (tokenMintAddress : string) :
  is_random (Chain.score_draw draws) = true ->
  exists k : Z,
    Chain.riskScore (Chain.getDemoAnalysis draws tokenMintAddress) = of_Z k
    /\ if Array_includes Chain.safeTokens tokenMintAddress
       then (0 <= k <= 19)%Z
            /\ Chain.redFlags (Chain.getDemoAnalysis draws tokenMintAddress)
               = []
       else if Array_includes Chain.riskyTokens tokenMintAddress
       then (60 <= k <= 89)%Z
            /\ List.length
                 (Chain.redFlags (Chain.getDemoAnalysis draws tokenMintAddress))
               = 3%nat
       else (40 <= k <= 69)%Z
            /\ List.length
                 (Chain.redFlags (Chain.getDemoAnalysis draws tokenMintAddress))
               = 2%nat.
Proof.
  intro H. unfold Chain.getDemoAnalysis.
  destruct (Array_includes Chain.safeTokens tokenMintAddress).
  - destruct (floor_random_20 _ H) as (k & Hk & E).
    exists k. cbn [Chain.riskScore Chain.redFlags]. rewrite E.
    split; [reflexivity|]. split; [lia|reflexivity].
  - destruct (floor_random_30 _ H) as (k & Hk & E).
    destruct (Array_includes Chain.riskyTokens tokenMintAddress).
    + exists (60 + k)%Z. cbn [Chain.riskScore Chain.redFlags]. rewrite E.
      split; [apply add_60_exact; exact Hk|]. split; [lia|reflexivity].
    + exists (40 + k)%Z. cbn [Chain.riskScore Chain.redFlags]. rewrite E.
      split; [apply add_40_exact; exact Hk|]. split; [lia|reflexivity].
Qed.

Lemma getTokenInfo_fulfilled (connection : Chain.Connection) (mint : string)
    (draw : number) :
  exists info, Chain.getTokenInfo connection mint draw = Fulfilled info.
Proof.
  unfold Chain.getTokenInfo.
  destruct (Chain.getTokenSupply connection mint) as [s|e];
    [|eexists; reflexivity].
  destruct (Chain.getAccountInfo connection mint) as [[[[buffer|]]|]|e];
    cbn; try (eexists; reflexivity).
  unfold Chain.Buffer_readUInt8.
  destruct (nth_error buffer 44); eexists; reflexivity.
Qed.

Lemma slice_36_68_has_44 (buffer : list N) (d : N) :
  nth_error buffer 44 = Some d -> In d (Chain.Buffer_slice 36 68 buffer).
Proof.
  intro H. apply (nth_error_In _ 8). unfold Chain.Buffer_slice.
  rewrite nth_error_firstn. cbn [Nat.sub Nat.ltb Nat.leb].
  rewrite nth_error_skipn. exact H.
Qed.

Lemma nth_error_short {A : Type} (l : list A) (n : nat) :
  (n <? List.length l)%nat = false -> nth_error l n = None.
Proof. intro H. apply nth_error_None. apply Nat.ltb_ge. exact H. Qed.

Lemma getTokenInfo_read (connection : Chain.Connection) (mint : string)
    (draw : number) (uiAmountString : option string) (buffer : list N)
    (d : N) :
  Chain.getTokenSupply connection mint = Fulfilled uiAmountString ->
  Chain.getAccountInfo connection mint
  = Fulfilled (Some {| Chain.data := Some buffer |}) ->
  nth_error buffer 44 = Some d ->
  Chain.getTokenInfo connection mint draw
  = Fulfilled
      {| Chain.totalSupply := uiAmountString;
         Chain.mintAuthorityRenounced :=
           forallb (fun byte => (byte =? 0)%N) (Chain.Buffer_slice 36 68 buffer);
         Chain.decimals := Some d |}.
Proof.
  intros Hs Ha Hd. unfold Chain.getTokenInfo. rewrite Hs, Ha.
  cbn [settled_bind settled_catch].
  unfold Chain.read_decimals, Chain.Buffer_readUInt8. rewrite Hd.
  cbn [settled_bind settled_catch settled_map].
  unfold Chain.no_mint_authority.
  repeat f_equal.
  induction (Chain.Buffer_slice 36 68 buffer) as [|b l IH]; [reflexivity|].
  cbn [existsb forallb]. rewrite negb_orb, negb_involutive. f_equal. exact IH.
Qed.

(** ** Holders *)

Lemma generateRandomHolders_length (draw : nat -> number) :
  List.length (Chain.generateRandomHolders draw) = 5%nat.
Proof. reflexivity. Qed.

Lemma fold_left_length {A B : Type} (f : list A -> B -> list A) (l : list B)
    (acc : list A) :
  (forall acc b,
      List.length acc <= List.length (f acc b) <= List.length acc + 1)%nat ->
  (List.length acc <= List.length (fold_left f l acc)
   <= List.length acc + List.length l)%nat.
Proof.
  intro Hf. revert acc. induction l as [|b l IH]; intro acc; cbn [fold_left].
  - cbn [List.length]. lia.
  - specialize (IH (f acc b)). specialize (Hf acc b). cbn [List.length]. lia.
Qed.

Lemma tracked_holders_length (connection : Chain.Connection)
    (accounts : list string) (acc : list Chain.Holder) :
  (List.length acc
   <= List.length
        (fold_left
           (fun holders account =>
              match Chain.getTokenAccountBalance connection account with
              | Fulfilled uiAmount =>
                  push holders {| Chain.address := account;
                                  Chain.amount := Some (or_zero uiAmount);
                                  Chain.percentage := of_Z 0 |}
              | Rejected err => holders
              end) accounts acc)
   <= List.length acc + List.length accounts)%nat.
Proof.
  apply fold_left_length. intros holders account.
  destruct (Chain.getTokenAccountBalance connection account) as [ui|e].
  - unfold push. rewrite length_app. cbn [List.length]. lia.
  - lia.
Qed.

Lemma set_percentages_length (holders : list Chain.Holder) :
  List.length (Chain.set_percentages holders) = List.length holders.
Proof. unfold Chain.set_percentages. apply length_map. Qed.

Lemma getHolderDistribution_holders (connection : Chain.Connection)
    (mint : string) (draw : nat -> number) :
  exists holders,
    Chain.getHolderDistribution connection mint draw = Fulfilled holders
    /\ (1 <= List.length holders <= 5)%nat.
Proof.
  unfold Chain.getHolderDistribution.
  destruct (Chain.getTokenLargestAccounts connection mint) as [accounts|e];
    cbn [settled_bind settled_catch].
  - match goal with
    | |- context [fold_left ?f ?l ?a] =>
        pose proof (tracked_holders_length connection l a) as H;
        set (holders := fold_left f l a) in *
    end.
    assert (Hl : (List.length (slice0 5 accounts) <= 5)%nat).
    { unfold slice0. rewrite length_firstn. lia. }
    cbn [List.length] in H.
    destruct (List.length holders =? 0)%nat eqn:E.
    + eexists. split; [reflexivity|]. rewrite generateRandomHolders_length. lia.
    + apply Nat.eqb_neq in E. eexists. split; [reflexivity|].
      rewrite set_percentages_length. lia.
  - eexists. split; [reflexivity|]. rewrite generateRandomHolders_length. lia.
Qed.

Section RealMode.

Variable Number_toFixed1 : number -> string.

Lemma holder_score_nonempty (holders : list Chain.Holder) :
  holders <> [] ->
  Chain.analyzeHolderConcentration Number_toFixed1 holders
  = let '(score, issues) :=
      Chain.concentration Number_toFixed1 (Chain.top3 holders) in
    {| Chain.score := score;
       Chain.issues := issues;
       Chain.description := Chain.description
         (Chain.analyzeHolderConcentration Number_toFixed1 holders);
       Chain.topHolders := None |}.
Proof.
  intro H. unfold Chain.analyzeHolderConcentration.
  destruct holders as [|h l]; [contradiction|]. cbn [List.length Nat.eqb].
  destruct (Chain.concentration Number_toFixed1 (Chain.top3 (h :: l))).
  reflexivity.
Qed.

Lemma real_score (tokenInfo : Chain.MintInfo) (holders : list Chain.Holder)
    (lpInfo : Chain.LpInfo) :
  holders <> [] ->
  Math_round
    (add (add (mul (Chain.score (Chain.analyzeMintAuthority tokenInfo))
                 (decimal 4 10))
              (mul (Chain.score
                      (Chain.analyzeHolderConcentration Number_toFixed1
                         holders))
                 (decimal 35 100)))
         (mul (Chain.score (Chain.analyzeLiquidityPool lpInfo))
            (decimal 25 100)))
  = of_Z (real_points tokenInfo holders lpInfo).
Proof.
  intro H. rewrite (holder_score_nonempty holders H).
  unfold real_points, concentration_points, Chain.concentration,
    Chain.analyzeMintAuthority, Chain.analyzeLiquidityPool.
  destruct (Chain.mintAuthorityRenounced tokenInfo),
    (Chain.lpLocked lpInfo),
    (gt (Chain.top3 holders) (of_Z 90)),
    (gt (Chain.top3 holders) (of_Z 70)),
    (gt (Chain.top3 holders) (of_Z 50));
    cbn [Chain.score negb Z.b2z]; vm_compute; reflexivity.
Qed.

Lemma real_points_range (tokenInfo : Chain.MintInfo)
    (holders : list Chain.Holder) (lpInfo : Chain.LpInfo) :
  (0 <= real_points tokenInfo holders lpInfo <= 100)%Z.
Proof.
  unfold real_points, concentration_points.
  destruct (Chain.mintAuthorityRenounced tokenInfo),
    (Chain.lpLocked lpInfo),
    (gt (Chain.top3 holders) (of_Z 90)),
    (gt (Chain.top3 holders) (of_Z 70)),
    (gt (Chain.top3 holders) (of_Z 50)); cbn [negb Z.b2z]; lia.
Qed.

Lemma real_flags_length (tokenInfo : Chain.MintInfo)
    (holders : list Chain.Holder) (lpInfo : Chain.LpInfo) :
  (List.length (real_flags Number_toFixed1 tokenInfo holders lpInfo) <= 3)%nat.
Proof.
  unfold real_flags, Chain.analyzeMintAuthority, Chain.analyzeLiquidityPool,
    Chain.analyzeHolderConcentration, Chain.concentration.
  rewrite !length_app.
  destruct (Chain.mintAuthorityRenounced tokenInfo),
    (Chain.lpLocked lpInfo), (List.length holders =? 0)%nat,
    (gt (Chain.top3 holders) (of_Z 90)),
    (gt (Chain.top3 holders) (of_Z 70)),
    (gt (Chain.top3 holders) (of_Z 50)); cbn; lia.
Qed.

Lemma analyzeTokenEconomics_fallback (this : Chain.Env)
    (tokenMintAddress : string) :
  real_mode this tokenMintAddress = false ->
  Chain.analyzeTokenEconomics Number_toFixed1 this tokenMintAddress
  = Fulfilled (Chain.getDemoAnalysis (Chain.demo_draws this) tokenMintAddress).
Proof.
  unfold real_mode, Chain.analyzeTokenEconomics. intro H.
  destruct (Chain.isValidSolanaAddress this tokenMintAddress);
    [|reflexivity].
  destruct (Chain.demoMode this); [reflexivity|discriminate].
Qed.

Lemma analyzeTokenEconomics_real (this : Chain.Env)
    (tokenMintAddress : string) :
  real_mode this tokenMintAddress = true ->
  exists mintPublicKey tokenInfo holders,
    Chain.PublicKey_new this tokenMintAddress = Fulfilled mintPublicKey
    /\ Chain.getTokenInfo (Chain.connection this) mintPublicKey
         (Chain.tokenInfo_draw this) = Fulfilled tokenInfo
    /\ Chain.getHolderDistribution (Chain.connection this) mintPublicKey
         (Chain.holders_draw this) = Fulfilled holders
    /\ holders <> []
    /\ Chain.analyzeTokenEconomics Number_toFixed1 this tokenMintAddress
       = Fulfilled
           (let lpInfo :=
              Chain.getLiquidityPoolInfo (Chain.locked_draw this)
                (Chain.amount_draw this) tokenMintAddress in
            {| Chain.riskScore := of_Z (real_points tokenInfo holders lpInfo);
               Chain.redFlags :=
                 real_flags Number_toFixed1 tokenInfo holders lpInfo;
               Chain.details :=
                 Chain.RealDetails (Chain.analyzeMintAuthority tokenInfo)
                   (Chain.analyzeHolderConcentration Number_toFixed1 holders)
                   (Chain.analyzeLiquidityPool lpInfo) |}).
Proof.
  unfold real_mode, Chain.analyzeTokenEconomics, Chain.isValidSolanaAddress.
  intro H.
  destruct (Chain.PublicKey_new this tokenMintAddress) as [pk|e];
    [|discriminate].
  destruct (Chain.demoMode this); [discriminate|].
  destruct (getTokenInfo_fulfilled (Chain.connection this) pk
              (Chain.tokenInfo_draw this)) as (tokenInfo & Hinfo).
  destruct (getHolderDistribution_holders (Chain.connection this) pk
              (Chain.holders_draw this)) as (holders & Hholders & Hlen).
  exists pk, tokenInfo, holders.
  assert (Hne : holders <> []).
  { intro E. rewrite E in Hlen. cbn in Hlen. lia. }
  split; [reflexivity|]. split; [exact Hinfo|]. split; [exact Hholders|].
  split; [exact Hne|].
  cbn [negb settled_bind settled_catch]. rewrite Hinfo, Hholders.
  cbn [settled_bind settled_catch]. rewrite (real_score _ _ _ Hne).
  reflexivity.
Qed.

End RealMode.

Open Scope Z_scope.

(** ** The order of canonical numbers is that of their values *)

Lemma SFcompare_val (m1 : positive) (e1 : Z) (m2 : positive) (e2 : Z) :
  bounded prec emax m1 e1 = true -> bounded prec emax m2 e2 = true ->
  SFcompare (S754_finite false m1 e1) (S754_finite false m2 e2)
  = Some (val (Zpos m1) e1 ?= val (Zpos m2) e2).
Proof.
  intros H1 H2.
  pose proof (bounded_inv m1 e1 H1) as (He1 & Hm1 & Hc1).
  pose proof (bounded_inv m2 e2 H2) as (He2 & Hm2 & Hc2).
  cbn [SFcompare]. unfold val, bias. f_equal.
  change (2 ^ 52) with 4503599627370496 in *.
  change (2 ^ 53) with 9007199254740992 in *.
  destruct (Z.compare_spec e1 e2) as [Heq|Hl|Hg].
  - subst e2. rewrite Pos.compare_cont_spec. cbn [Pos.switch_Eq].
    assert (HP : 0 < 2 ^ (e1 + 1200)) by (apply pow2_pos; lia).
    change (Pos.compare m1 m2) with (Zpos m1 ?= Zpos m2).
    destruct (Z.compare_spec (Zpos m1) (Zpos m2)) as [E|L|G]; symmetry.
    + apply Z.compare_eq_iff. rewrite E. reflexivity.
    + apply Z.compare_lt_iff. nia.
    + apply Z.compare_gt_iff. nia.
  - symmetry. apply Z.compare_lt_iff.
    assert (HP : 0 < 2 ^ (e1 + 1200)) by (apply pow2_pos; lia).
    assert (Hs : 2 ^ (e2 + 1200) = 2 ^ (e2 - e1) * 2 ^ (e1 + 1200)).
    { rewrite <- pow2_split by lia. f_equal. lia. }
    assert (2 ^ 1 <= 2 ^ (e2 - e1)) by (apply pow2_le; lia).
    change (2 ^ 1) with 2 in *. rewrite Hs.
    destruct Hc2 as [Hc2|Hc2]; [lia|]. nia.
  - symmetry. apply Z.compare_gt_iff.
    assert (HP : 0 < 2 ^ (e2 + 1200)) by (apply pow2_pos; lia).
    assert (Hs : 2 ^ (e1 + 1200) = 2 ^ (e1 - e2) * 2 ^ (e2 + 1200)).
    { rewrite <- pow2_split by lia. f_equal. lia. }
    assert (2 ^ 1 <= 2 ^ (e1 - e2)) by (apply pow2_le; lia).
    change (2 ^ 1) with 2 in *. rewrite Hs.
    destruct Hc1 as [Hc1|Hc1]; [lia|]. nia.
Qed.

(** A positive number of the range of the scores, against an integer
    threshold [n = mn * 2^en]. *)
Lemma gt_threshold_val (m : positive) (e : Z) (mn : positive) (en n : Z) :
  bounded prec emax m e = true -> bounded prec emax mn en = true ->
  e < 0 -> val (Zpos mn) en = n * 2 ^ bias ->
  gt (S754_finite false m e) (S754_finite false mn en)
  = (n * 2 ^ (- e) <? Zpos m).
Proof.
  intros Hb Hbn He Hn. unfold gt, SFltb.
  rewrite (SFcompare_val mn en m e Hbn Hb). rewrite Hn.
  pose proof (bounded_inv m e Hb) as (Hbe & _ & _).
  unfold val, bias.
  assert (HP : 0 < 2 ^ (e + 1200)) by (apply pow2_pos; lia).
  assert (HQ : 0 < 2 ^ (- e)) by (apply pow2_pos; lia).
  assert (Hs : 2 ^ 1200 = 2 ^ (- e) * 2 ^ (e + 1200)).
  { rewrite <- pow2_split by lia. f_equal. lia. }
  rewrite Hs, Z.mul_assoc.
  set (P := 2 ^ (e + 1200)) in *. set (A := n * 2 ^ (- e)).
  destruct (Z.ltb_spec A (Zpos m)) as [L|G].
  - replace (A * P ?= Zpos m * P) with Lt; [reflexivity|].
    symmetry. apply Z.compare_lt_iff. apply Z.mul_lt_mono_pos_r; assumption.
  - destruct (A * P ?= Zpos m * P) eqn:E; try reflexivity.
    apply Z.compare_lt_iff in E. apply Z.mul_lt_mono_pos_r in E; [lia|assumption].
Qed.

Lemma of_Z_70 : of_Z 70 = S754_finite false 4925812092436480 (-46).
Proof. reflexivity. Qed.

Lemma of_Z_50 : of_Z 50 = S754_finite false 7036874417766400 (-47).
Proof. reflexivity. Qed.

Lemma of_Z_90 : of_Z 90 = S754_finite false 6333186975989760 (-46).
Proof. reflexivity. Qed.

(** A positive score: its value against the thresholds 50 and 70, and its
    rounding. *)
Lemma score_finite (m : positive) (e : Z) :
  bounded prec emax m e = true -> val (Zpos m) e <= V100 ->
  e < 0
  /\ gt (S754_finite false m e) (of_Z 70) = (70 * 2 ^ (- e) <? Zpos m)
  /\ gt (S754_finite false m e) (of_Z 50) = (50 * 2 ^ (- e) <? Zpos m)
  /\ le (S754_finite false m e) (of_Z 30) = (Zpos m <=? 30 * 2 ^ (- e))
  /\ Math_round (S754_finite false m e) = of_Z (round_integer false m e)
  /\ 0 <= round_integer false m e <= 100.
Proof.
  intros Hb Hv.
  pose proof (bounded_inv m e Hb) as (He & Hm & Hc).
  assert (Hneg : e < 0).
  { destruct (Z_le_gt_dec 0 e) as [Hpos|Hneg]; [exfalso|lia].
    unfold V100, val, bias in Hv.
    change (-46 + 1200) with 1154 in Hv.
    assert (H1200 : 7036874417766400 * 2 ^ 1154 = 100 * 2 ^ 1200)
      by (vm_compute; reflexivity).
    rewrite H1200 in Hv.
    destruct Hc as [Hc|Hc]; [lia|].
    assert (2 ^ 1200 <= 2 ^ (e + 1200)) by (apply pow2_le; lia).
    change (2 ^ 52) with 4503599627370496 in Hc.
    assert (0 < 2 ^ 1200) by (apply pow2_pos; lia). nia. }
  split; [exact Hneg|].
  split; [rewrite of_Z_70; apply gt_threshold_val; try assumption;
          try reflexivity; vm_compute; reflexivity|].
  split; [rewrite of_Z_50; apply gt_threshold_val; try assumption;
          try reflexivity; vm_compute; reflexivity|].
  split.
  { unfold le, ge.
    rewrite (SFcompare_antisym (S754_finite false m e) (of_Z 30)).
    change (of_Z 30) with (S754_finite false 8444249301319680 (-48)).
    rewrite (SFcompare_val m e 8444249301319680 (-48) Hb eq_refl).
    unfold val, bias.
    assert (HP : 0 < 2 ^ (e + 1200)) by (apply pow2_pos; lia).
    assert (HQ : 0 < 2 ^ (- e)) by (apply pow2_pos; lia).
    assert (Hs : 8444249301319680 * 2 ^ (-48 + 1200)
                 = 30 * (2 ^ (- e) * 2 ^ (e + 1200))).
    { rewrite <- pow2_split by lia. replace (- e + (e + 1200)) with 1200 by lia.
      vm_compute. reflexivity. }
    rewrite Hs, Z.mul_assoc. cbn [option_map].
    set (P := 2 ^ (e + 1200)) in *. set (A := 30 * 2 ^ (- e)).
    destruct (Z.leb_spec (Zpos m) A) as [L|G].
    - destruct (Zpos m * P ?= A * P) eqn:E; try reflexivity.
      apply Z.compare_gt_iff in E.
      apply Z.mul_lt_mono_pos_r in E; [lia|assumption].
    - replace (Zpos m * P ?= A * P) with Gt; [reflexivity|].
      symmetry. apply Z.compare_gt_iff.
      apply Z.mul_lt_mono_pos_r; assumption. }
  cbn [Math_round].
  replace (0 <=? e) with false by (symmetry; apply Z.leb_gt; lia).
  set (r := round_integer false m e).
  pose proof (round_integer_nearest false m e Hneg) as [Hlo Hhi].
  fold r in Hlo, Hhi. cbn [cond_Zopp] in Hlo, Hhi.
  assert (HP : 0 < 2 ^ (- e)) by (apply pow2_pos; lia).
  assert (HPe : 0 < 2 ^ (e + 1200)) by (apply pow2_pos; lia).
  unfold V100, val, bias in Hv.
  change (-46 + 1200) with 1154 in Hv.
  assert (H1200 : 7036874417766400 * 2 ^ 1154 = 100 * 2 ^ 1200)
    by (vm_compute; reflexivity).
  rewrite H1200 in Hv.
  assert (Hs : 2 ^ 1200 = 2 ^ (e + 1200) * 2 ^ (- e)).
  { rewrite <- pow2_split by lia. f_equal. lia. }
  rewrite Hs in Hv.
  assert (Hm100 : Zpos m <= 100 * 2 ^ (- e)) by nia.
  assert (Hr : 0 <= r <= 100) by nia.
  split; [|exact Hr].
  destruct (r =? 0) eqn:Er; [|reflexivity].
  apply Z.eqb_eq in Er. rewrite Er. reflexivity.
Qed.

Close Scope Z_scope.

(** ** The chain analyzer used by the detector *)

(** X4. [getTokenInfo] does not fail: when a request fails, or the
    account data have no byte at offset 44, its answer is the default one
    -- a supply of 1000000, 9 decimals, and a mint authority that is
    renounced when the random draw exceeds 0.3. *)
Theorem getTokenInfo_falls_back_to_defaults (connection : Chain.Connection)
    (mint : string) (draw : number) :
  account_read connection mint = false ->
  Chain.getTokenInfo connection mint draw
  = Fulfilled
      {| Chain.totalSupply := Some "1000000";
         Chain.mintAuthorityRenounced := gt draw (decimal 3 10);
         Chain.decimals := Some 9%N |}.
Proof.
  unfold account_read, Chain.getTokenInfo.
  destruct (Chain.getTokenSupply connection mint) as [s|e];
    [|reflexivity].
  destruct (Chain.getAccountInfo connection mint) as [[[[buffer|]]|]|e];
    try discriminate; try reflexivity.
  intro H. cbn [settled_bind settled_catch]. unfold Chain.read_decimals.
  unfold Chain.Buffer_readUInt8.
  rewrite (nth_error_short _ _ H). reflexivity.
Qed.

Lemma getTokenInfo_falls_back_to_defaults_witness :
  account_read offline USDC = false
  /\ Chain.getTokenInfo offline USDC half
     = Fulfilled
         {| Chain.totalSupply := Some "1000000";
            Chain.mintAuthorityRenounced := true;
            Chain.decimals := Some 9%N |}.
Proof.
  split; [reflexivity|].
  apply (getTokenInfo_falls_back_to_defaults offline USDC half).
  reflexivity.
Defined.

(** X5. The byte of the decimals, at offset 44, lies in the range 36..67
    that [getTokenInfo] scans for a mint authority: when both requests
    succeed and that byte is not zero, the mint authority is reported as
    not renounced, whatever the other bytes. *)
Theorem nonzero_decimals_read_as_mint_authority
    (connection : Chain.Connection) (mint : string) (draw : number)
    (uiAmountString : option string) (buffer : list N) (d : N) :
  Chain.getTokenSupply connection mint = Fulfilled uiAmountString ->
  Chain.getAccountInfo connection mint
  = Fulfilled (Some {| Chain.data := Some buffer |}) ->
  nth_error buffer 44 = Some d ->
  d <> 0%N ->
  Chain.getTokenInfo connection mint draw
  = Fulfilled {| Chain.totalSupply := uiAmountString;
                 Chain.mintAuthorityRenounced := false;
                 Chain.decimals := Some d |}.
Proof.
  intros Hs Ha Hd Hnz.
  rewrite (getTokenInfo_read _ _ _ _ _ _ Hs Ha Hd). repeat f_equal.
  apply not_true_is_false. intro Hall.
  rewrite forallb_forall in Hall.
  specialize (Hall d (slice_36_68_has_44 buffer d Hd)).
  apply N.eqb_eq in Hall. contradiction.
Qed.

Lemma nonzero_decimals_read_as_mint_authority_witness :
  Chain.getTokenSupply (sample_node 9) USDC = Fulfilled (Some "1000000000")
  /\ Chain.getAccountInfo (sample_node 9) USDC
     = Fulfilled (Some {| Chain.data := Some (mint_account_data 9) |})
  /\ nth_error (mint_account_data 9) 44 = Some 9%N
  /\ 9%N <> 0%N
  /\ Chain.getTokenInfo (sample_node 9) USDC half
     = Fulfilled {| Chain.totalSupply := Some "1000000000";
                    Chain.mintAuthorityRenounced := false;
                    Chain.decimals := Some 9%N |}.
Proof.
  split; [reflexivity|]. split; [reflexivity|]. split; [reflexivity|].
  split; [discriminate|].
  apply (nonzero_decimals_read_as_mint_authority (sample_node 9) USDC half
           (Some "1000000000") (mint_account_data 9) 9%N);
    solve [reflexivity | discriminate].
Defined.

(** X6. [getHolderDistribution] does not fail and never yields an empty
    list: it yields between one and five holders, and when the request of
    the largest accounts fails they are the five random ones. *)
Theorem getHolderDistribution_never_empty (connection : Chain.Connection)
    (mint : string) (draw : nat -> number) :
  exists holders,
    Chain.getHolderDistribution connection mint draw = Fulfilled holders
    /\ (1 <= List.length holders <= 5)%nat
    /\ match Chain.getTokenLargestAccounts connection mint with
       | Rejected _ => holders = Chain.generateRandomHolders draw
       | Fulfilled accounts =>
           (List.length holders <= List.length accounts)%nat
           \/ holders = Chain.generateRandomHolders draw
       end.
Proof.
  destruct (getHolderDistribution_holders connection mint draw)
    as (holders & Hres & Hlen).
  exists holders. split; [exact Hres|]. split; [exact Hlen|].
  unfold Chain.getHolderDistribution in Hres.
  destruct (Chain.getTokenLargestAccounts connection mint) as [accounts|e];
    cbn [settled_bind settled_catch] in Hres.
  - match type of Hres with
    | context [fold_left ?f ?l ?a] =>
        pose proof (tracked_holders_length connection l a) as H;
        set (tracked := fold_left f l a) in *
    end.
    cbn [List.length] in H.
    destruct (List.length tracked =? 0)%nat; injection Hres as <-.
    + right. reflexivity.
    + left. rewrite set_percentages_length.
      assert (List.length (slice0 5 accounts) <= List.length accounts)%nat
        by (unfold slice0; rewrite length_firstn; lia).
      lia.
  - injection Hres as <-. reflexivity.
Qed.

(** X7. The demo analysis of a token of the safe list has a score from 0
    to 19, which the detector's tiers call SAFE, and no red flag; of
    another token of the risky list a score from 60 to 89, HIGH or
    CRITICAL, and three red flags; of any other token a score from 40 to
    69, MEDIUM or HIGH, and two red flags.  The scores are integers. *)
Theorem getDemoAnalysis_ranges (draws : Chain.DemoDraws)
    (tokenMintAddress : string) :
  is_random (Chain.score_draw draws) = true ->
  exists k : Z,
    Chain.riskScore (Chain.getDemoAnalysis draws tokenMintAddress) = of_Z k
    /\ if Array_includes Chain.safeTokens tokenMintAddress
       then (0 <= k <= 19)%Z
            /\ getRiskLevel (of_Z k) = SAFE
            /\ Chain.redFlags (Chain.getDemoAnalysis draws tokenMintAddress)
               = []
       else if Array_includes Chain.riskyTokens tokenMintAddress
       then (60 <= k <= 89)%Z
            /\ (getRiskLevel (of_Z k) = HIGH
                \/ getRiskLevel (of_Z k) = CRITICAL)
            /\ List.length
                 (Chain.redFlags (Chain.getDemoAnalysis draws tokenMintAddress))
               = 3%nat
       else (40 <= k <= 69)%Z
            /\ (getRiskLevel (of_Z k) = MEDIUM
                \/ getRiskLevel (of_Z k) = HIGH)
            /\ List.length
                 (Chain.redFlags (Chain.getDemoAnalysis draws tokenMintAddress))
               = 2%nat.
Proof.
  intro Hr.
  destruct (getDemoAnalysis_score draws tokenMintAddress Hr)
    as (k & Hk & Hcase).
  exists k. split; [exact Hk|].
  destruct (Array_includes Chain.safeTokens tokenMintAddress).
  - destruct Hcase as [Hrange Hflags]. split; [exact Hrange|].
    split; [|exact Hflags].
    rewrite getRiskLevel_integer by lia. unfold classify_integer.
    repeat match goal with
           | |- context [(?a <=? ?b)%Z] => destruct (Z.leb_spec a b); try lia
           end.
    reflexivity.
  - destruct (Array_includes Chain.riskyTokens tokenMintAddress);
      destruct Hcase as [Hrange Hflags]; (split; [exact Hrange|]);
      (split; [|exact Hflags]);
      rewrite getRiskLevel_integer by lia; unfold classify_integer;
      repeat match goal with
             | |- context [(?a <=? ?b)%Z] => destruct (Z.leb_spec a b); try lia
             end; auto.
Qed.

Lemma getDemoAnalysis_ranges_witness :
  is_random (Chain.score_draw sample_draws) = true
  /\ exists k : Z,
       Chain.riskScore (Chain.getDemoAnalysis sample_draws BONK) = of_Z k
       /\ (60 <= k <= 89)%Z
       /\ (getRiskLevel (of_Z k) = HIGH \/ getRiskLevel (of_Z k) = CRITICAL)
       /\ List.length (Chain.redFlags (Chain.getDemoAnalysis sample_draws BONK))
          = 3%nat.
Proof.
  split; [reflexivity|].
  apply (getDemoAnalysis_ranges sample_draws BONK). reflexivity.
Defined.

Lemma of_Z_zero_inv (k : Z) : (0 <= k <= 100)%Z -> of_Z k = of_Z 0 -> k = 0%Z.
Proof.
  intro H. assert (Hk : (0 <= k < Z.of_nat 101)%Z) by lia.
  apply integers_below in Hk. clear H. revert k Hk.
  apply (proj1 (Forall_forall (fun k => of_Z k = of_Z 0 -> k = 0%Z) _)).
  constructor; [reflexivity|].
  repeat (constructor; [intro E; vm_compute in E; discriminate E|]).
  constructor.
Qed.

Section RealModeFlags.

Variable Number_toFixed1 : number -> string.

Lemma real_points_zero_iff (tokenInfo : Chain.MintInfo)
    (holders : list Chain.Holder) (lpInfo : Chain.LpInfo) :
  holders <> [] ->
  real_points tokenInfo holders lpInfo = 0%Z
  <-> real_flags Number_toFixed1 tokenInfo holders lpInfo = [].
Proof.
  intro H. unfold real_points, real_flags, concentration_points.
  rewrite (holder_score_nonempty Number_toFixed1 holders H).
  unfold Chain.concentration, Chain.analyzeMintAuthority,
    Chain.analyzeLiquidityPool, push.
  destruct (Chain.mintAuthorityRenounced tokenInfo),
    (Chain.lpLocked lpInfo),
    (gt (Chain.top3 holders) (of_Z 90)),
    (gt (Chain.top3 holders) (of_Z 70)),
    (gt (Chain.top3 holders) (of_Z 50));
    cbn [Chain.issues negb Z.b2z app]; split; intro E;
    try reflexivity; try discriminate E; try (exfalso; lia).
Qed.

Lemma real_flags_known (tokenInfo : Chain.MintInfo)
    (holders : list Chain.Holder) (lpInfo : Chain.LpInfo) :
  holders <> [] ->
  ~ In "Could not analyze holder distribution"
      (real_flags Number_toFixed1 tokenInfo holders lpInfo).
Proof.
  intro H. unfold real_flags.
  rewrite (holder_score_nonempty Number_toFixed1 holders H).
  unfold Chain.concentration, Chain.analyzeMintAuthority,
    Chain.analyzeLiquidityPool, push.
  destruct (Chain.mintAuthorityRenounced tokenInfo),
    (Chain.lpLocked lpInfo),
    (gt (Chain.top3 holders) (of_Z 90)),
    (gt (Chain.top3 holders) (of_Z 70)),
    (gt (Chain.top3 holders) (of_Z 50));
    cbn [Chain.issues negb app In append];
    intro E; repeat destruct E as [E|E]; try discriminate E; exact E.
Qed.

End RealModeFlags.

(** X8. With the demo mode off and a valid address, [analyzeTokenEconomics]
    returns the real analysis, whatever the node answers (the requests for
    the token info and the holders do not fail): its score is 40 for a
    mint authority that is not renounced, plus 25 for a pool that is not
    locked, plus 35, 26 or 18 when the three largest holders have more
    than 90, 70 or 50 percent; its red flags are the issues of the three
    analyzers, in this order. *)
Theorem analyzeTokenEconomics_real_mode (Number_toFixed1 : number -> string)
    (this : Chain.Env) (tokenMintAddress : string) :
  Chain.isValidSolanaAddress this tokenMintAddress = true ->
  Chain.demoMode this = false ->
  exists mintPublicKey tokenInfo holders,
    Chain.PublicKey_new this tokenMintAddress = Fulfilled mintPublicKey
    /\ Chain.getTokenInfo (Chain.connection this) mintPublicKey
         (Chain.tokenInfo_draw this) = Fulfilled tokenInfo
    /\ Chain.getHolderDistribution (Chain.connection this) mintPublicKey
         (Chain.holders_draw this) = Fulfilled holders
    /\ Chain.analyzeTokenEconomics Number_toFixed1 this tokenMintAddress
       = Fulfilled
           (let lpInfo :=
              Chain.getLiquidityPoolInfo (Chain.locked_draw this)
                (Chain.amount_draw this) tokenMintAddress in
            {| Chain.riskScore :=
                 of_Z (40 * Z.b2z (negb (Chain.mintAuthorityRenounced tokenInfo))
                       + concentration_points (Chain.top3 holders)
                       + 25 * Z.b2z (negb (Chain.lpLocked lpInfo)));
               Chain.redFlags :=
                 (Chain.issues (Chain.analyzeMintAuthority tokenInfo)
                  ++ Chain.issues
                       (Chain.analyzeHolderConcentration Number_toFixed1
                          holders)
                  ++ Chain.issues (Chain.analyzeLiquidityPool lpInfo))%list;
               Chain.details :=
                 Chain.RealDetails (Chain.analyzeMintAuthority tokenInfo)
                   (Chain.analyzeHolderConcentration Number_toFixed1 holders)
                   (Chain.analyzeLiquidityPool lpInfo) |}).
Proof.
  intros Hv Hd.
  destruct (analyzeTokenEconomics_real Number_toFixed1 this tokenMintAddress)
    as (pk & tokenInfo & holders & Hpk & Hinfo & Hholders & _ & Hres).
  { unfold real_mode. rewrite Hv, Hd. reflexivity. }
  exists pk, tokenInfo, holders. repeat split; assumption.
Qed.

Lemma analyzeTokenEconomics_real_mode_witness :
  Chain.isValidSolanaAddress (sample_env false (sample_node 9)) USDC = true
  /\ Chain.demoMode (sample_env false (sample_node 9)) = false
  /\ exists a,
       Chain.analyzeTokenEconomics sample_toFixed1
         (sample_env false (sample_node 9)) USDC = Fulfilled a
       /\ Chain.riskScore a = of_Z 75.
Proof.
  split; [reflexivity|]. split; [reflexivity|].
  destruct (analyzeTokenEconomics_real_mode sample_toFixed1
              (sample_env false (sample_node 9)) USDC eq_refl eq_refl)
    as (pk & tokenInfo & holders & Hpk & Hinfo & Hholders & Hres).
  eexists. split; [exact Hres|].
  injection Hinfo as <-. injection Hholders as <-.
  vm_compute. reflexivity.
Defined.

(** X9. In the real mode the score is 0 exactly when there is no red flag,
    and the flag of the holder analysis for an empty list of holders is
    never raised. *)
Theorem real_mode_score_zero_iff_no_flags
    (Number_toFixed1 : number -> string) (this : Chain.Env)
    (tokenMintAddress : string) :
  Chain.isValidSolanaAddress this tokenMintAddress = true ->
  Chain.demoMode this = false ->
  exists a,
    Chain.analyzeTokenEconomics Number_toFixed1 this tokenMintAddress
    = Fulfilled a
    /\ (Chain.riskScore a = of_Z 0 <-> Chain.redFlags a = [])
    /\ ~ In "Could not analyze holder distribution" (Chain.redFlags a).
Proof.
  intros Hv Hd.
  destruct (analyzeTokenEconomics_real Number_toFixed1 this tokenMintAddress)
    as (pk & tokenInfo & holders & Hpk & Hinfo & Hholders & Hne & Hres).
  { unfold real_mode. rewrite Hv, Hd. reflexivity. }
  eexists. split; [exact Hres|]. cbn [Chain.riskScore Chain.redFlags].
  split.
  - rewrite <- (real_points_zero_iff Number_toFixed1 _ _ _ Hne). split.
    + apply of_Z_zero_inv. apply real_points_range.
    + intros ->. reflexivity.
  - apply real_flags_known. exact Hne.
Qed.

Lemma real_mode_score_zero_iff_no_flags_witness :
  Chain.isValidSolanaAddress (sample_env false offline) USDC = true
  /\ Chain.demoMode (sample_env false offline) = false
  /\ exists a,
       Chain.analyzeTokenEconomics sample_toFixed1 (sample_env false offline)
         USDC = Fulfilled a
       /\ (Chain.riskScore a = of_Z 0 <-> Chain.redFlags a = [])
       /\ ~ In "Could not analyze holder distribution" (Chain.redFlags a).
Proof.
  split; [reflexivity|]. split; [reflexivity|].
  apply (real_mode_score_zero_iff_no_flags sample_toFixed1
           (sample_env false offline) USDC); reflexivity.
Defined.

Lemma analyzeTokenEconomics_integer_score
    (Number_toFixed1 : number -> string) (this : Chain.Env)
    (tokenMintAddress : string) :
  is_random (Chain.score_draw (Chain.demo_draws this)) = true ->
  exists a k,
    Chain.analyzeTokenEconomics Number_toFixed1 this tokenMintAddress
    = Fulfilled a
    /\ Chain.riskScore a = of_Z k /\ (0 <= k <= 100)%Z
    /\ (List.length (Chain.redFlags a) <= 3)%nat.
Proof.
  intro Hr. destruct (real_mode this tokenMintAddress) eqn:Hmode.
  - destruct (analyzeTokenEconomics_real Number_toFixed1 this
                tokenMintAddress Hmode)
      as (pk & tokenInfo & holders & Hpk & Hinfo & Hholders & Hne & Hres).
    eexists. eexists. split; [exact Hres|]. cbn [Chain.riskScore Chain.redFlags].
    split; [reflexivity|]. split; [apply real_points_range|].
    apply real_flags_length.
  - rewrite (analyzeTokenEconomics_fallback Number_toFixed1 _ _ Hmode).
    destruct (getDemoAnalysis_score (Chain.demo_draws this) tokenMintAddress Hr)
      as (k & Hk & Hcase).
    eexists. exists k. split; [reflexivity|]. split; [exact Hk|].
    destruct (Array_includes Chain.safeTokens tokenMintAddress).
    + destruct Hcase as [Hrange Hflags]. rewrite Hflags. cbn. lia.
    + destruct (Array_includes Chain.riskyTokens tokenMintAddress);
        destruct Hcase as [Hrange Hflags]; rewrite Hflags; lia.
Qed.

(** X10. [analyzeTokenEconomics] does not fail, in either mode and whatever
    the address and the answers of the node: it returns an analysis whose
    score is an integer from 0 to 100, with at most three red flags. *)
Theorem analyzeTokenEconomics_never_rejects
    (Number_toFixed1 : number -> string) (this : Chain.Env)
    (tokenMintAddress : string) :
  is_random (Chain.score_draw (Chain.demo_draws this)) = true ->
  exists a k,
    Chain.analyzeTokenEconomics Number_toFixed1 this tokenMintAddress
    = Fulfilled a
    /\ Chain.riskScore a = of_Z k /\ (0 <= k <= 100)%Z
    /\ (List.length (Chain.redFlags a) <= 3)%nat.
Proof. apply analyzeTokenEconomics_integer_score. Qed.

Lemma analyzeTokenEconomics_never_rejects_witness :
  is_random (Chain.score_draw (Chain.demo_draws (sample_env true offline)))
  = true
  /\ exists a k,
       Chain.analyzeTokenEconomics sample_toFixed1 (sample_env true offline)
         "not an address" = Fulfilled a
       /\ Chain.riskScore a = of_Z k /\ (0 <= k <= 100)%Z
       /\ (List.length (Chain.redFlags a) <= 3)%nat.
Proof.
  split; [reflexivity|].
  apply (analyzeTokenEconomics_never_rejects sample_toFixed1
           (sample_env true offline) "not an address").
  reflexivity.
Defined.

(** X11. An invalid address is not reported: for it, as in the demo mode,
    [analyzeTokenEconomics] returns the demo analysis of the address. *)
Theorem analyzeTokenEconomics_invalid_address_gets_demo
    (Number_toFixed1 : number -> string) (this : Chain.Env)
    (tokenMintAddress : string) :
  Chain.isValidSolanaAddress this tokenMintAddress = false
  \/ Chain.demoMode this = true ->
  Chain.analyzeTokenEconomics Number_toFixed1 this tokenMintAddress
  = Fulfilled (Chain.getDemoAnalysis (Chain.demo_draws this) tokenMintAddress).
Proof.
  intro H. apply analyzeTokenEconomics_fallback. unfold real_mode.
  destruct H as [-> | ->]; [reflexivity|apply andb_false_r].
Qed.

Lemma analyzeTokenEconomics_invalid_address_gets_demo_witness :
  (Chain.isValidSolanaAddress (sample_env false (sample_node 9))
     "not an address" = false
   \/ Chain.demoMode (sample_env false (sample_node 9)) = true)
  /\ Chain.analyzeTokenEconomics sample_toFixed1
       (sample_env false (sample_node 9)) "not an address"
     = Fulfilled (Chain.getDemoAnalysis sample_draws "not an address").
Proof.
  split; [left; reflexivity|].
  apply (analyzeTokenEconomics_invalid_address_gets_demo sample_toFixed1
           (sample_env false (sample_node 9)) "not an address").
  left. reflexivity.
Defined.

(** ** The social and the code analyzer *)

Lemma analyzeSocialSignals_score (draw : number) (tokenMint : string) :
  is_random draw = true ->
  exists k : Z,
    Social.riskScore (Social.analyzeSocialSignals draw tokenMint) = of_Z k
    /\ (0 <= k <= 100)%Z.
Proof.
  intro Hr. unfold Social.analyzeSocialSignals. cbn [Social.riskScore].
  destruct (Math_round_in_range _ (mul_random_100 draw Hr)) as (k & Hk & E).
  exists k. split; assumption.
Qed.

(** X12. The social score is an integer from 0 to 100, and the red flags
    go with it: a score of 71 or more has the two flags of suspicious
    activity, a score from 51 to 69 the flag of limited engagement, and a
    score of 49 or less none.  (The flags are decided before the score is
    rounded: at 50 and at 70 either number of flags occurs.) *)
Theorem analyzeSocialSignals_score_and_flags (draw : number)
    (tokenMint : string) :
  is_random draw = true ->
  exists k : Z,
    Social.riskScore (Social.analyzeSocialSignals draw tokenMint) = of_Z k
    /\ (0 <= k <= 100)%Z
    /\ ((71 <= k)%Z ->
        Social.redFlags (Social.analyzeSocialSignals draw tokenMint)
        = ["Suspicious social media activity detected";
           "Potential bot network promoting token"])
    /\ ((51 <= k <= 69)%Z ->
        Social.redFlags (Social.analyzeSocialSignals draw tokenMint)
        = ["Limited genuine community engagement"])
    /\ ((k <= 49)%Z ->
        Social.redFlags (Social.analyzeSocialSignals draw tokenMint) = []).
Proof.
  intro Hr. unfold Social.analyzeSocialSignals.
  cbn [Social.riskScore Social.redFlags].
  destruct (mul_random_100 draw Hr) as [Hz|(m & e & Hx & Hb & Hv)];
    rewrite ?Hz, ?Hx.
  - exists 0%Z. split; [reflexivity|]. split; [lia|].
    repeat split; intro; try reflexivity; exfalso; lia.
  - destruct (score_finite m e Hb Hv) as (He & H70 & H50 & _ & Hround & Hk).
    rewrite H70, H50, Hround.
    pose proof (round_integer_nearest false m e He) as [Hlo Hhi].
    cbn [cond_Zopp] in Hlo, Hhi.
    assert (HP : (0 < 2 ^ (- e))%Z) by (apply pow2_pos; lia).
    set (k := round_integer false m e) in *. set (P := (2 ^ (- e))%Z) in *.
    exists k. split; [reflexivity|]. split; [exact Hk|].
    split; [|split].
    + intro H71. replace (70 * P <? Zpos m)%Z with true; [reflexivity|].
      symmetry. apply Z.ltb_lt. nia.
    + intro H51. replace (70 * P <? Zpos m)%Z with false.
      * replace (50 * P <? Zpos m)%Z with true; [reflexivity|].
        symmetry. apply Z.ltb_lt. nia.
      * symmetry. apply Z.ltb_ge. nia.
    + intro H49. replace (70 * P <? Zpos m)%Z with false.
      * replace (50 * P <? Zpos m)%Z with false; [reflexivity|].
        symmetry. apply Z.ltb_ge. nia.
      * symmetry. apply Z.ltb_ge. nia.
Qed.

Lemma analyzeSocialSignals_score_and_flags_witness :
  is_random (decimal 9 10) = true
  /\ exists k : Z,
       Social.riskScore (Social.analyzeSocialSignals (decimal 9 10) USDC)
       = of_Z k
       /\ (0 <= k <= 100)%Z
       /\ ((71 <= k)%Z ->
           Social.redFlags (Social.analyzeSocialSignals (decimal 9 10) USDC)
           = ["Suspicious social media activity detected";
              "Potential bot network promoting token"])
       /\ ((51 <= k <= 69)%Z ->
           Social.redFlags (Social.analyzeSocialSignals (decimal 9 10) USDC)
           = ["Limited genuine community engagement"])
       /\ ((k <= 49)%Z ->
           Social.redFlags (Social.analyzeSocialSignals (decimal 9 10) USDC)
           = []).
Proof.
  split; [reflexivity|].
  apply (analyzeSocialSignals_score_and_flags (decimal 9 10) USDC).
  reflexivity.
Defined.

(** X13. The code score is a number from 0 to 100 (it is not rounded), and
    an analysis never has both red flags and green flags. *)
Theorem analyzeCode_score_and_flags (draw : number) (tokenMint : string) :
  is_random draw = true ->
  le (of_Z 0) (Code.riskScore (Code.analyzeCode draw tokenMint)) = true
  /\ le (Code.riskScore (Code.analyzeCode draw tokenMint)) (of_Z 100) = true
  /\ (Code.redFlags (Code.analyzeCode draw tokenMint) = []
      \/ Code.greenFlags (Code.analyzeCode draw tokenMint) = []).
Proof.
  intro Hr. unfold Code.analyzeCode.
  cbn [Code.riskScore Code.redFlags Code.greenFlags].
  pose proof (mul_random_100 draw Hr) as Hin.
  destruct (in_range_bounds _ Hin) as [H0 H100].
  split; [exact H0|]. split; [exact H100|].
  destruct Hin as [Hz|(m & e & Hx & Hb & Hv)]; rewrite ?Hz, ?Hx.
  - left. reflexivity.
  - destruct (score_finite m e Hb Hv) as (He & H70 & _ & H30 & _).
    rewrite H70, H30.
    assert (HP : (0 < 2 ^ (- e))%Z) by (apply pow2_pos; lia).
    destruct (Z.ltb_spec (70 * 2 ^ (- e)) (Zpos m)) as [L|G];
      [|left; reflexivity].
    right. replace (Zpos m <=? 30 * 2 ^ (- e))%Z with false; [reflexivity|].
    symmetry. apply Z.leb_gt. lia.
Qed.

Lemma analyzeCode_score_and_flags_witness :
  is_random (decimal 9 10) = true
  /\ le (of_Z 0) (Code.riskScore (Code.analyzeCode (decimal 9 10) USDC)) = true
  /\ le (Code.riskScore (Code.analyzeCode (decimal 9 10) USDC)) (of_Z 100)
     = true
  /\ (Code.redFlags (Code.analyzeCode (decimal 9 10) USDC) = []
      \/ Code.greenFlags (Code.analyzeCode (decimal 9 10) USDC) = []).
Proof.
  split; [reflexivity|].
  apply (analyzeCode_score_and_flags (decimal 9 10) USDC). reflexivity.
Defined.

(** ** The detector with its own analyzers *)

Lemma small_integer_valid (k : Z) :
  (0 <= k <= 100)%Z -> valid_score (Some (of_Z k)).
Proof.
  intro H. assert (Hk : (0 <= k < Z.of_nat 101)%Z) by lia.
  apply integers_below in Hk. clear H. revert k Hk.
  apply (proj1 (Forall_forall (fun k => valid_score (Some (of_Z k))) _)).
  repeat (constructor; [reflexivity|]). constructor.
Qed.

Lemma in_range_valid (V : Z) (x : number) :
  in_range V x -> valid_score (Some x).
Proof.
  intros [->|(m & e & -> & Hb & _)]; [reflexivity|exact Hb].
Qed.

(** X14. A detector made by [new RugPullDetector()] always returns a
    report, whatever the address and the answers of the node: its chain
    analyzer never answers [null] and none of the three analyses fails.
    The token name of the report is the mint address itself (the token
    info of the chain analyzer has no symbol), and the score is an integer
    from 0 to 100. *)
Theorem new_RugPullDetector_always_reports
    (Number_toString Number_toFixed1 : number -> string) (w : World)
    (tokenMint : string) (log : list Call) :
  is_random (Chain.score_draw (Chain.demo_draws (chain w))) = true ->
  is_random (social_draw w) = true ->
  is_random (code_draw w) = true ->
  exists report r,
    analyzeToken Number_toString (new_RugPullDetector Number_toFixed1 w)
      tokenMint log
    = (Fulfilled report, (log ++ calls_when_found tokenMint)%list)
    /\ Report.token report = tokenMint
    /\ Report.mintAddress report = tokenMint
    /\ Report.riskScore report = of_Z r /\ (0 <= r <= 100)%Z.
Proof.
  intros Hchain Hsocial Hcode.
  destruct (getTokenInfo_fulfilled (Chain.connection (chain w)) tokenMint
              (info_draw w)) as (info & Hinfo).
  destruct (analyzeTokenEconomics_integer_score Number_toFixed1 (chain w)
              tokenMint Hchain) as (a & k & Ha & Hk & Hkr & _).
  destruct (analyzeSocialSignals_score (social_draw w) tokenMint Hsocial)
    as (ks & Hks & Hksr).
  pose proof (mul_random_100 (code_draw w) Hcode) as Hc.
  set (onChainResult := chain_result a).
  set (socialResult :=
         social_result (Social.analyzeSocialSignals (social_draw w) tokenMint)).
  set (codeResult := code_result (Code.analyzeCode (code_draw w) tokenMint)).
  destruct (Math_round_in_range
              (calculateRiskScore onChainResult socialResult codeResult))
    as (r & Hr & Hround).
  { apply calculateRiskScore_in_range.
    - cbn [onChainResult chain_result riskScore]. rewrite Hk.
      apply small_integer_valid; exact Hkr.
    - cbn [socialResult social_result riskScore]. rewrite Hks.
      apply small_integer_valid; exact Hksr.
    - cbn [codeResult code_result riskScore Code.analyzeCode Code.riskScore].
      apply (in_range_valid V100). exact Hc. }
  eexists. exists r.
  unfold analyzeToken, try_catch, bind, invoke, await, throw, push, ret,
    new_RugPullDetector.
  cbn [chainAnalyzer socialAnalyzer codeAnalyzer getTokenInfo
       analyzeTokenEconomics analyzeSocialSignals analyzeCode clock_ISO].
  rewrite Hinfo, Ha. cbn [settled_map settled_bind].
  unfold Promise_all3, join_promise. cbn [state settles_at].
  unfold calls_when_found. rewrite <- !app_assoc.
  split; [reflexivity|]. cbn [Report.token Report.mintAddress Report.riskScore].
  split; [reflexivity|]. split; [reflexivity|].
  split; [exact Hround|exact Hr].
Qed.

Lemma new_RugPullDetector_always_reports_witness :
  is_random (Chain.score_draw (Chain.demo_draws
                                 (chain (sample_world false offline)))) = true
  /\ is_random (social_draw (sample_world false offline)) = true
  /\ is_random (code_draw (sample_world false offline)) = true
  /\ exists report r,
       analyzeToken integer_toString
         (new_RugPullDetector sample_toFixed1 (sample_world false offline))
         "FAKE" []
       = (Fulfilled report, ([] ++ calls_when_found "FAKE")%list)
       /\ Report.token report = "FAKE"
       /\ Report.mintAddress report = "FAKE"
       /\ Report.riskScore report = of_Z r /\ (0 <= r <= 100)%Z.
Proof.
  split; [reflexivity|]. split; [reflexivity|]. split; [reflexivity|].
  apply (new_RugPullDetector_always_reports integer_toString sample_toFixed1
           (sample_world false offline) "FAKE" []); reflexivity.
Defined.

Open Scope Z_scope.

Lemma gt_threshold_mono (x : number) (m1 m2 : positive) (e1 e2 : Z) :
  e2 < e1 \/ (e2 = e1 /\ (m2 <= m1)%positive) ->
  gt x (S754_finite false m1 e1) = true ->
  gt x (S754_finite false m2 e2) = true.
Proof.
  intro Hc. unfold gt, SFltb.
  destruct x as [s|s| |s m e]; cbn; try congruence.
  destruct s; [congruence|].
  rewrite !Pos.compare_cont_spec.
  destruct (Z.compare_spec e1 e) as [<-|Hl|Hg]; cbn; try congruence.
  - destruct (Pos.compare_spec m1 m) as [->|Hpl|Hpg]; cbn; try congruence;
      intros _.
    destruct (Z.compare_spec e2 e1) as [->|?|?]; cbn;
      try reflexivity; try (exfalso; lia).
    destruct (Pos.compare_spec m2 m); cbn; try reflexivity; exfalso; lia.
  - intros _. destruct (Z.compare_spec e2 e) as [->|?|?]; cbn;
      try reflexivity; exfalso; lia.
Qed.

Lemma gt_90_70 (x : number) : gt x (of_Z 90) = true -> gt x (of_Z 70) = true.
Proof.
  rewrite of_Z_90, of_Z_70. apply gt_threshold_mono.
  right. split; [reflexivity|lia].
Qed.

Open Scope string_scope.

Section FirstVersion.

Variable Number_toFixed1 : number -> string.

Lemma generateRecommendations_headlines (totalScore : number)
    (mintRisk holderRisk lpRisk : Chain.Risk) :
  ChainV1.generateRecommendations totalScore mintRisk holderRisk lpRisk
  = (chain_headlines totalScore
     ++ (if includes (Chain.description mintRisk) "✅" then []
         else ["🔍 Verify mint authority is renounced before any investment"])
     ++ (if gt (Chain.score holderRisk) (of_Z 50)
         then ["🔍 Monitor top wallet movements for potential dumps"]
         else [])
     ++ (if includes (Chain.description lpRisk) "✅" then []
         else ["🔍 Confirm LP tokens are locked in a reputable locker"]))%list.
Proof.
  unfold ChainV1.generateRecommendations, chain_headlines, push.
  destruct (ge totalScore (of_Z 80)), (ge totalScore (of_Z 60)),
    (ge totalScore (of_Z 40)),
    (includes (Chain.description mintRisk) "✅"),
    (gt (Chain.score holderRisk) (of_Z 50)),
    (includes (Chain.description lpRisk) "✅"); reflexivity.
Qed.

Lemma holder_score_above_50 (holders : list Chain.Holder) :
  gt (Chain.score (ChainV1.analyzeHolderConcentration Number_toFixed1 holders))
    (of_Z 50)
  = negb (List.length holders =? 0)%nat && gt (Chain.top3 holders) (of_Z 70).
Proof.
  unfold ChainV1.analyzeHolderConcentration, Chain.concentration.
  destruct (List.length holders =? 0)%nat; [reflexivity|].
  destruct (gt (Chain.top3 holders) (of_Z 90)) eqn:H90.
  - rewrite (gt_90_70 _ H90). reflexivity.
  - destruct (gt (Chain.top3 holders) (of_Z 70)); [reflexivity|].
    destruct (gt (Chain.top3 holders) (of_Z 50)); reflexivity.
Qed.

End FirstVersion.

(** X15. The recommendations of the first chain analyzer, on the results
    of its own three analyzers: the two headlines of the band of the
    score, then the advice to verify the mint authority exactly when it is
    not renounced, the advice to monitor the top wallets exactly when
    there are holders and the three largest have more than 70 percent,
    and the advice to confirm the lock exactly when the pool is not
    locked. *)
Theorem chain_recommendations_follow_the_findings
    (Number_toFixed1 : number -> string) (totalScore : number)
    (tokenInfo : Chain.MintInfo) (holders : list Chain.Holder)
    (lpInfo : Chain.LpInfo) :
  ChainV1.generateRecommendations totalScore
    (ChainV1.analyzeMintAuthority tokenInfo)
    (ChainV1.analyzeHolderConcentration Number_toFixed1 holders)
    (ChainV1.analyzeLiquidityPool lpInfo)
  = (chain_headlines totalScore
     ++ (if Chain.mintAuthorityRenounced tokenInfo then []
         else ["🔍 Verify mint authority is renounced before any investment"])
     ++ (if negb (List.length holders =? 0)%nat
            && gt (Chain.top3 holders) (of_Z 70)
         then ["🔍 Monitor top wallet movements for potential dumps"]
         else [])
     ++ (if Chain.lpLocked lpInfo then []
         else ["🔍 Confirm LP tokens are locked in a reputable locker"]))%list.
Proof.
  rewrite generateRecommendations_headlines, holder_score_above_50.
  unfold ChainV1.analyzeMintAuthority, ChainV1.analyzeLiquidityPool.
  cbn [Chain.description].
  destruct (Chain.mintAuthorityRenounced tokenInfo), (Chain.lpLocked lpInfo);
    reflexivity.
Qed.

Lemma getTokenInfo_v1_fulfilled (connection : Chain.Connection)
    (mint : string) :
  exists info, ChainV1.getTokenInfo connection mint = Fulfilled info.
Proof.
  unfold ChainV1.getTokenInfo.
  destruct (Chain.getTokenSupply connection mint) as [s|e];
    [|eexists; reflexivity].
  destruct (Chain.getAccountInfo connection mint) as [[[[buffer|]]|]|e];
    cbn [settled_bind settled_catch Chain.read_decimals settled_map];
    try (eexists; reflexivity).
  unfold Chain.Buffer_readUInt8.
  destruct (nth_error buffer 44); eexists; reflexivity.
Qed.

Lemma getHolderDistribution_v1_fulfilled (connection : Chain.Connection)
    (mint : string) :
  exists holders,
    ChainV1.getHolderDistribution connection mint = Fulfilled holders.
Proof.
  unfold ChainV1.getHolderDistribution.
  destruct (Chain.getTokenLargestAccounts connection mint) as [accounts|e];
    [|eexists; reflexivity].
  cbn [settled_bind].
  match goal with
  | |- context [fold_left ?f ?l ?a] => destruct (fold_left f l a)
  end; eexists; reflexivity.
Qed.

(** Once a balance cannot be read the loop is left. *)
Lemma read_balances_rejected (connection : Chain.Connection)
    (accounts : list string) (e : JsError) :
  fold_left
    (fun acc account =>
       settled_bind acc (fun holders =>
       settled_bind (Chain.getTokenAccountBalance connection account)
         (fun uiAmount =>
       Fulfilled
         (push holders {| Chain.address := account;
                          Chain.amount := uiAmount;
                          Chain.percentage := of_Z 0 |}))))
    accounts (Rejected e)
  = Rejected e.
Proof. induction accounts as [|a l IH]; [reflexivity|exact IH]. Qed.

Lemma read_balances_failure (connection : Chain.Connection)
    (accounts : list string) (account : string) (e : JsError)
    (acc : settled (list Chain.Holder)) :
  In account accounts ->
  Chain.getTokenAccountBalance connection account = Rejected e ->
  exists e',
    fold_left
      (fun acc account =>
         settled_bind acc (fun holders =>
         settled_bind (Chain.getTokenAccountBalance connection account)
           (fun uiAmount =>
         Fulfilled
           (push holders {| Chain.address := account;
                            Chain.amount := uiAmount;
                            Chain.percentage := of_Z 0 |}))))
      accounts acc
    = Rejected e'.
Proof.
  revert acc. induction accounts as [|a l IH]; intros acc Hin He;
    [contradiction|].
  cbn [fold_left]. destruct Hin as [->|Hin].
  - rewrite He. destruct acc as [holders|e0]; cbn [settled_bind];
      eexists; apply read_balances_rejected.
  - apply IH; assumption.
Qed.

Section FirstVersionReport.

Variable Number_toFixed1 : number -> string.

Lemma first_version_score (tokenInfo : Chain.MintInfo)
    (holders : list Chain.Holder) (lpInfo : Chain.LpInfo) :
  Math_round
    (add (add (mul (Chain.score (ChainV1.analyzeMintAuthority tokenInfo))
                 (decimal 4 10))
              (mul (Chain.score
                      (ChainV1.analyzeHolderConcentration Number_toFixed1
                         holders))
                 (decimal 35 100)))
         (mul (Chain.score (ChainV1.analyzeLiquidityPool lpInfo))
            (decimal 25 100)))
  = of_Z (40 * Z.b2z (negb (Chain.mintAuthorityRenounced tokenInfo))
          + holder_points holders
          + 25 * Z.b2z (negb (Chain.lpLocked lpInfo)))
  /\ (0 <= 40 * Z.b2z (negb (Chain.mintAuthorityRenounced tokenInfo))
          + holder_points holders
          + 25 * Z.b2z (negb (Chain.lpLocked lpInfo)) <= 100)%Z.
Proof.
  unfold holder_points, concentration_points,
    ChainV1.analyzeHolderConcentration, Chain.concentration,
    ChainV1.analyzeMintAuthority, ChainV1.analyzeLiquidityPool.
  destruct holders as [|h l]; cbn [List.length Nat.eqb];
    destruct (Chain.mintAuthorityRenounced tokenInfo),
      (Chain.lpLocked lpInfo);
    try (destruct (gt (Chain.top3 (h :: l)) (of_Z 90)),
           (gt (Chain.top3 (h :: l)) (of_Z 70)),
           (gt (Chain.top3 (h :: l)) (of_Z 50)));
    cbn [Chain.score negb Z.b2z]; (split; [vm_compute; reflexivity|lia]).
Qed.

End FirstVersionReport.

(** X16. [analyzeToken] of the first chain analyzer fails for an invalid
    address only, with the error of the key wrapped in its own message;
    for a valid address it returns a report, whatever the node answers,
    with a score that is 40 for a mint authority not renounced, plus 25
    for a pool not locked, plus the points of the holders, and that is
    therefore an integer from 0 to 100. *)
Theorem first_analyzeToken_fails_on_invalid_address_only
    (Number_toFixed1 : number -> string) (this : ChainV1.Env)
    (tokenMintAddress : string) :
  match ChainV1.PublicKey_new this tokenMintAddress with
  | Rejected error =>
      ChainV1.analyzeToken Number_toFixed1 this tokenMintAddress
      = Rejected (Error ("Failed to analyze token " ++ tokenMintAddress
                         ++ ": " ++ message_of error))
  | Fulfilled mintPublicKey =>
      exists report tokenInfo holders,
        ChainV1.analyzeToken Number_toFixed1 this tokenMintAddress
        = Fulfilled report
        /\ ChainV1.getTokenInfo (ChainV1.connection this) mintPublicKey
           = Fulfilled tokenInfo
        /\ ChainV1.getHolderDistribution (ChainV1.connection this)
             mintPublicKey = Fulfilled holders
        /\ ChainV1.tokenAddress report = tokenMintAddress
        /\ ChainV1.riskScore report
           = of_Z (40 * Z.b2z (negb (Chain.mintAuthorityRenounced tokenInfo))
                   + holder_points holders
                   + 25 * Z.b2z (negb (gt (ChainV1.locked_draw this)
                                         (decimal 7 10))))
        /\ (0 <= 40 * Z.b2z (negb (Chain.mintAuthorityRenounced tokenInfo))
                 + holder_points holders
                 + 25 * Z.b2z (negb (gt (ChainV1.locked_draw this)
                                       (decimal 7 10))) <= 100)%Z
        /\ ChainV1.riskLevel report
           = RiskLevel_toString (getRiskLevel (ChainV1.riskScore report))
  end.
Proof.
  unfold ChainV1.analyzeToken.
  destruct (ChainV1.PublicKey_new this tokenMintAddress) as [pk|e];
    [|reflexivity].
  destruct (getTokenInfo_v1_fulfilled (ChainV1.connection this) pk)
    as (tokenInfo & Hinfo).
  destruct (getHolderDistribution_v1_fulfilled (ChainV1.connection this) pk)
    as (holders & Hholders).
  cbn [settled_bind settled_catch]. rewrite Hinfo, Hholders.
  cbn [settled_bind settled_catch].
  set (lpInfo := ChainV1.getLiquidityPoolInfo (ChainV1.locked_draw this)
                   (ChainV1.amount_draw this) tokenMintAddress).
  destruct (first_version_score Number_toFixed1 tokenInfo holders lpInfo)
    as [Hscore Hrange].
  eexists. exists tokenInfo, holders.
  split; [reflexivity|]. split; [reflexivity|]. split; [reflexivity|].
  cbn [ChainV1.tokenAddress ChainV1.riskScore ChainV1.riskLevel].
  split; [reflexivity|]. split; [exact Hscore|]. split; [exact Hrange|].
  unfold ChainV1.getRiskLevel, getRiskLevel.
  repeat match goal with
         | |- context [if ?c then _ else _] => destruct c
         end; reflexivity.
Qed.

(** X17. In the first version a single balance that cannot be read empties
    the holder list: [getHolderDistribution] yields no holder at all, and
    the holder analysis is then the one of an unknown distribution, with
    score 50. *)
Theorem first_getHolderDistribution_all_or_nothing
    (Number_toFixed1 : number -> string) (connection : Chain.Connection)
    (mint : string) (accounts : list string) (account : string)
    (e : JsError) :
  Chain.getTokenLargestAccounts connection mint = Fulfilled accounts ->
  In account (slice0 10 accounts) ->
  Chain.getTokenAccountBalance connection account = Rejected e ->
  ChainV1.getHolderDistribution connection mint = Fulfilled []
  /\ Chain.score (ChainV1.analyzeHolderConcentration Number_toFixed1 [])
     = of_Z 50
  /\ Chain.issues (ChainV1.analyzeHolderConcentration Number_toFixed1 [])
     = ["Could not analyze holder distribution"].
Proof.
  intros Hl Hin He. split; [|split; reflexivity].
  unfold ChainV1.getHolderDistribution. rewrite Hl. cbn [settled_bind].
  destruct (read_balances_failure connection _ account e (Fulfilled []) Hin He)
    as (e' & ->).
  reflexivity.
Qed.

Lemma first_getHolderDistribution_all_or_nothing_witness :
  Chain.getTokenLargestAccounts flaky_node USDC
  = Fulfilled ["holder-a"; "holder-b"]
  /\ In "holder-b" (slice0 10 ["holder-a"; "holder-b"])
  /\ Chain.getTokenAccountBalance flaky_node "holder-b"
     = Rejected (Error "429 Too Many Requests")
  /\ ChainV1.getHolderDistribution flaky_node USDC = Fulfilled []
  /\ Chain.score (ChainV1.analyzeHolderConcentration sample_toFixed1 [])
     = of_Z 50
  /\ Chain.issues (ChainV1.analyzeHolderConcentration sample_toFixed1 [])
     = ["Could not analyze holder distribution"].
Proof.
  split; [reflexivity|]. split; [right; left; reflexivity|].
  split; [reflexivity|].
  apply (first_getHolderDistribution_all_or_nothing sample_toFixed1 flaky_node
           USDC ["holder-a"; "holder-b"] "holder-b"
           (Error "429 Too Many Requests"));
    [reflexivity|right; left; reflexivity|reflexivity].
Defined.

Close Scope Z_scope.

Lemma sum_of_zeros {A : Type} (f : A -> number) (l : list A) :
  (forall x, In x l -> f x = of_Z 0) ->
  fold_left (fun sum x => add sum (f x)) l (of_Z 0) = of_Z 0.
Proof.
  induction l as [|a l IH]; intro H; [reflexivity|].
  cbn [fold_left]. rewrite (H a (or_introl eq_refl)).
  change (add (of_Z 0) (of_Z 0)) with (of_Z 0).
  apply IH. intros x Hx. apply H. right. exact Hx.
Qed.

Lemma In_slice0 {A : Type} (n : nat) (l : list A) (x : A) :
  In x (slice0 n l) -> In x l.
Proof.
  unfold slice0. revert l. induction n as [|n IH]; intros l H; [contradiction|].
  destruct l as [|a l]; [contradiction|].
  cbn [firstn] in H. destruct H as [->|H]; [left; reflexivity|].
  right. apply IH. exact H.
Qed.

(** X18. Holders whose balances are all zero or unknown get a percentage
    of 0 each, and the holder analysis then finds nothing: its score is 0
    and it raises no issue. *)
Theorem holders_without_balance_raise_no_issue
    (Number_toFixed1 : number -> string) (holders : list Chain.Holder) :
  holders <> [] ->
  (forall holder, In holder holders ->
                  or_zero (Chain.amount holder) = of_Z 0) ->
  Forall (fun holder => Chain.percentage holder = of_Z 0)
    (Chain.set_percentages holders)
  /\ Chain.score
       (Chain.analyzeHolderConcentration Number_toFixed1
          (Chain.set_percentages holders)) = of_Z 0
  /\ Chain.issues
       (Chain.analyzeHolderConcentration Number_toFixed1
          (Chain.set_percentages holders)) = [].
Proof.
  intros Hne Hz.
  assert (Hp : Forall (fun holder => Chain.percentage holder = of_Z 0)
                 (Chain.set_percentages holders)).
  { unfold Chain.set_percentages.
    rewrite (sum_of_zeros (fun holder => or_zero (Chain.amount holder))
               holders Hz).
    apply Forall_forall. intros h Hin. apply in_map_iff in Hin.
    destruct Hin as (h0 & <- & _). reflexivity. }
  split; [exact Hp|].
  assert (Htop : Chain.top3 (Chain.set_percentages holders) = of_Z 0).
  { unfold Chain.top3. apply sum_of_zeros. intros h Hin.
    rewrite Forall_forall in Hp. apply Hp.
    apply (In_slice0 _ _ _ Hin). }
  unfold Chain.analyzeHolderConcentration.
  rewrite set_percentages_length.
  destruct holders as [|h l]; [contradiction|]. cbn [List.length Nat.eqb].
  rewrite Htop. split; reflexivity.
Qed.

Lemma holders_without_balance_raise_no_issue_witness :
  [holder_of "holder-a" None; holder_of "holder-b" (Some (of_Z 0))] <> []
  /\ (forall holder,
         In holder [holder_of "holder-a" None;
                    holder_of "holder-b" (Some (of_Z 0))] ->
         or_zero (Chain.amount holder) = of_Z 0)
  /\ Chain.score
       (Chain.analyzeHolderConcentration sample_toFixed1
          (Chain.set_percentages
             [holder_of "holder-a" None;
              holder_of "holder-b" (Some (of_Z 0))])) = of_Z 0.
Proof.
  assert (H : forall holder,
             In holder [holder_of "holder-a" None;
                        holder_of "holder-b" (Some (of_Z 0))] ->
             or_zero (Chain.amount holder) = of_Z 0).
  { intros holder [<-|[<-|[]]]; reflexivity. }
  split; [discriminate|]. split; [exact H|].
  apply (holders_without_balance_raise_no_issue sample_toFixed1
           [holder_of "holder-a" None; holder_of "holder-b" (Some (of_Z 0))]);
    [discriminate|exact H].
Defined.

Lemma lookup_Map_set (m : list (string * JsValue)) (key : string)
    (v : JsValue) :
  Js.lookup (Resolver.Map_set m key v) key = v.
Proof.
  induction m as [|[k old] rest IH]; cbn [Resolver.Map_set Js.lookup].
  - rewrite String.eqb_refl. reflexivity.
  - destruct (String.eqb k key) eqn:E; cbn [Js.lookup]; rewrite E;
      [reflexivity|exact IH].
Qed.

Section ResolverProofs.

Variable String_toLowerCase : string -> string.
Variable this : Resolver.Env.

Lemma Map_set_valid (m : list (string * JsValue)) (key : string)
    (v : JsValue) :
  Forall (fun entry => valid_address this (snd entry) = true) m ->
  valid_address this v = true ->
  Forall (fun entry => valid_address this (snd entry) = true)
    (Resolver.Map_set m key v).
Proof.
  intros Hm Hv. induction Hm as [|[k old] rest Hold Hrest IH];
    cbn [Resolver.Map_set].
  - constructor; [exact Hv|constructor].
  - destruct (String.eqb k key); constructor; assumption.
Qed.

Lemma lookup_valid (m : list (string * JsValue)) (key : string) :
  Forall (fun entry => valid_address this (snd entry) = true) m ->
  Js.truthy (Js.lookup m key) = true ->
  valid_address this (Js.lookup m key) = true.
Proof.
  intros Hm. induction Hm as [|[k old] rest Hold Hrest IH];
    cbn [Js.lookup]; [discriminate|].
  destruct (String.eqb k key); [intros _; exact Hold|exact IH].
Qed.

(** What [searchTokenList] returns is [null] or a valid address, and it
    makes one request. *)
Lemma searchTokenList_result (tokenListUrl symbol : string)
    (st : Resolver.State) :
  snd (Resolver.searchTokenList String_toLowerCase this tokenListUrl symbol st)
  = {| Resolver.tokenCache := Resolver.tokenCache st;
       Resolver.requests := (Resolver.requests st ++ [tokenListUrl])%list |}
  /\ match fst (Resolver.searchTokenList String_toLowerCase this tokenListUrl
                  symbol st) with
     | Fulfilled v => v = JsNull \/ valid_address this v = true
     | Rejected _ => True
     end.
Proof.
  unfold Resolver.searchTokenList. cbn [fst snd]. split; [reflexivity|].
  destruct (Resolver.axios_get this (Resolver.requests st) tokenListUrl)
    as [data|e]; cbn [settled_bind settled_catch]; [|exact I].
  destruct (Resolver.tokens_of tokenListUrl data) as [tokens|e];
    cbn [settled_bind settled_catch]; [|exact I].
  destruct (Resolver.find String_toLowerCase symbol tokens) as [token|e];
    cbn [settled_bind settled_catch]; [|exact I].
  destruct (Js.truthy token); [|left; reflexivity].
  destruct (Js.get token "address") as [address|e];
    cbn [settled_bind settled_catch]; [|exact I].
  unfold valid_address.
  destruct (Js.truthy address) eqn:Ht; [|left; reflexivity].
  destruct (Resolver.PublicKey_valid this address) eqn:Hv;
    [right; rewrite Ht, Hv; reflexivity|left; reflexivity].
Qed.

(** The loop over the lists: it asks the lists in their order, up to the
    first that has a valid address, which it caches under the lowered
    symbol; when none has, every list was asked and the cache is as
    before. *)
Lemma search_lists_result (lists : list string) (symbol : string)
    (st : Resolver.State) :
  match Resolver.search_lists String_toLowerCase this lists symbol st with
  | (Some v, st') =>
      valid_address this v = true
      /\ Resolver.tokenCache st'
         = Resolver.Map_set (Resolver.tokenCache st)
             (String_toLowerCase symbol) v
      /\ exists n, (n < List.length lists)%nat
                   /\ Resolver.requests st'
                      = (Resolver.requests st ++ firstn (S n) lists)%list
  | (None, st') =>
      Resolver.tokenCache st' = Resolver.tokenCache st
      /\ Resolver.requests st' = (Resolver.requests st ++ lists)%list
  end.
Proof.
  revert st. induction lists as [|url rest IH]; intro st;
    cbn [Resolver.search_lists].
  - split; [reflexivity|]. rewrite app_nil_r. reflexivity.
  - pose proof (searchTokenList_result url symbol st) as [Hst Hres].
    destruct (Resolver.searchTokenList String_toLowerCase this url symbol st)
      as [[v|e] st1]; cbn [fst snd] in Hst, Hres; subst st1.
    + destruct (Js.truthy v) eqn:Ht.
      * destruct Hres as [->|Hv]; [discriminate|].
        cbn [Resolver.tokenCache Resolver.requests].
        split; [exact Hv|]. split; [reflexivity|].
        exists 0%nat. split; [cbn [List.length]; lia|reflexivity].
      * specialize (IH {| Resolver.tokenCache := Resolver.tokenCache st;
                          Resolver.requests :=
                            (Resolver.requests st ++ [url])%list |}).
        destruct (Resolver.search_lists String_toLowerCase this rest symbol _)
          as [[v'|] st2]; cbn [Resolver.tokenCache Resolver.requests] in IH.
        -- destruct IH as (Hv & Hc & n & Hn & Hr).
           split; [exact Hv|]. split; [exact Hc|].
           exists (S n). split; [cbn [List.length]; lia|].
           rewrite Hr, <- app_assoc. reflexivity.
        -- destruct IH as (Hc & Hr). split; [exact Hc|].
           rewrite Hr, <- app_assoc. reflexivity.
    + specialize (IH {| Resolver.tokenCache := Resolver.tokenCache st;
                        Resolver.requests :=
                          (Resolver.requests st ++ [url])%list |}).
      destruct (Resolver.search_lists String_toLowerCase this rest symbol _)
        as [[v'|] st2]; cbn [Resolver.tokenCache Resolver.requests] in IH.
      * destruct IH as (Hv & Hc & n & Hn & Hr).
        split; [exact Hv|]. split; [exact Hc|].
        exists (S n). split; [cbn [List.length]; lia|].
        rewrite Hr, <- app_assoc. reflexivity.
      * destruct IH as (Hc & Hr). split; [exact Hc|].
        rewrite Hr, <- app_assoc. reflexivity.
Qed.

Lemma answer_at_first (url : string) (rest : list string) (symbol : string)
    (st : Resolver.State) :
  answer_at String_toLowerCase this (url :: rest) symbol st 0
  = fst (Resolver.searchTokenList String_toLowerCase this url symbol st).
Proof.
  unfold answer_at, Resolver.searchTokenList.
  cbn [fst nth firstn Resolver.requests]. rewrite app_nil_r. reflexivity.
Qed.

Lemma answer_at_next (url : string) (rest : list string) (symbol : string)
    (st : Resolver.State) (i : nat) :
  answer_at String_toLowerCase this (url :: rest) symbol st (S i)
  = answer_at String_toLowerCase this rest symbol
      {| Resolver.tokenCache := Resolver.tokenCache st;
         Resolver.requests := (Resolver.requests st ++ [url])%list |} i.
Proof.
  unfold answer_at, Resolver.searchTokenList.
  cbn [fst nth firstn Resolver.requests Resolver.tokenCache].
  rewrite <- app_assoc. reflexivity.
Qed.

(** The list that ends the loop is the first whose answer is an address:
    the lists before it answered [null] or failed, and no list after it is
    asked. *)
Lemma search_lists_first_hit (lists : list string) (symbol : string)
    (st : Resolver.State) :
  match Resolver.search_lists String_toLowerCase this lists symbol st with
  | (Some v, st') =>
      exists k, (k < List.length lists)%nat
                /\ Resolver.requests st'
                   = (Resolver.requests st ++ firstn (S k) lists)%list
                /\ (forall i, (i < k)%nat ->
                      is_hit (answer_at String_toLowerCase this lists symbol
                                st i) = false)
                /\ answer_at String_toLowerCase this lists symbol st k
                   = Fulfilled v
                /\ Js.truthy v = true
  | (None, st') =>
      forall i, (i < List.length lists)%nat ->
        is_hit (answer_at String_toLowerCase this lists symbol st i) = false
  end.
Proof.
  revert st. induction lists as [|url rest IH]; intro st;
    cbn [Resolver.search_lists].
  - intros i Hi. cbn [List.length] in Hi. lia.
  - pose proof (searchTokenList_result url symbol st) as [Hst _].
    pose proof (answer_at_first url rest symbol st) as H0.
    destruct (Resolver.searchTokenList String_toLowerCase this url symbol st)
      as [[v|e] st1]; cbn [fst snd] in Hst, H0; subst st1.
    + destruct (Js.truthy v) eqn:Ht.
      * exists 0%nat. cbn [Resolver.requests].
        split; [cbn [List.length]; lia|]. split; [reflexivity|].
        split; [intros i Hi; lia|]. split; [exact H0|exact Ht].
      * specialize (IH {| Resolver.tokenCache := Resolver.tokenCache st;
                          Resolver.requests :=
                            (Resolver.requests st ++ [url])%list |}).
        destruct (Resolver.search_lists String_toLowerCase this rest symbol _)
          as [[v'|] st2]; cbn [Resolver.requests] in IH.
        -- destruct IH as (k & Hk & Hr & Hbefore & Hat & Hv).
           exists (S k). split; [cbn [List.length]; lia|].
           split; [rewrite Hr, <- app_assoc; reflexivity|].
           split; [|split; [rewrite answer_at_next; exact Hat|exact Hv]].
           intros [|i] Hi.
           ++ rewrite H0. exact Ht.
           ++ rewrite answer_at_next. apply Hbefore. lia.
        -- intros [|i] Hi.
           ++ rewrite H0. exact Ht.
           ++ rewrite answer_at_next. apply IH. cbn [List.length] in Hi. lia.
    + specialize (IH {| Resolver.tokenCache := Resolver.tokenCache st;
                        Resolver.requests :=
                          (Resolver.requests st ++ [url])%list |}).
      destruct (Resolver.search_lists String_toLowerCase this rest symbol _)
        as [[v'|] st2]; cbn [Resolver.requests] in IH.
      * destruct IH as (k & Hk & Hr & Hbefore & Hat & Hv).
        exists (S k). split; [cbn [List.length]; lia|].
        split; [rewrite Hr, <- app_assoc; reflexivity|].
        split; [|split; [rewrite answer_at_next; exact Hat|exact Hv]].
        intros [|i] Hi.
        -- rewrite H0. reflexivity.
        -- rewrite answer_at_next. apply Hbefore. lia.
      * intros [|i] Hi.
        -- rewrite H0. reflexivity.
        -- rewrite answer_at_next. apply IH. cbn [List.length] in Hi. lia.
Qed.

Lemma resolveSymbolToMint_cached (symbol : string) (st : Resolver.State) :
  Js.truthy
    (Resolver.Map_get (Resolver.tokenCache st) (String_toLowerCase symbol))
  = true ->
  Resolver.resolveSymbolToMint String_toLowerCase this symbol st
  = (Fulfilled
       (Resolver.Map_get (Resolver.tokenCache st) (String_toLowerCase symbol)),
     st).
Proof. intro H. unfold Resolver.resolveSymbolToMint. rewrite H. reflexivity. Qed.

Lemma resolveSymbolToMint_result (symbol : string) (st : Resolver.State) :
  valid_cache this st ->
  exists v st',
    Resolver.resolveSymbolToMint String_toLowerCase this symbol st
    = (Fulfilled v, st')
    /\ valid_cache this st'
    /\ if Js.truthy v then
         valid_address this v = true
         /\ Resolver.Map_get (Resolver.tokenCache st')
              (String_toLowerCase symbol) = v
       else
         v = JsNull /\ Resolver.tokenCache st' = Resolver.tokenCache st
         /\ Resolver.requests st'
            = (Resolver.requests st ++ Resolver.tokenLists this)%list.
Proof.
  intro Hc. unfold Resolver.resolveSymbolToMint.
  destruct (Js.truthy
              (Resolver.Map_get (Resolver.tokenCache st)
                 (String_toLowerCase symbol))) eqn:Hcached.
  - eexists. exists st. split; [reflexivity|]. split; [exact Hc|].
    rewrite Hcached. split; [|reflexivity].
    apply lookup_valid; assumption.
  - pose proof (search_lists_result (Resolver.tokenLists this) symbol st)
      as Hs.
    destruct (Resolver.search_lists String_toLowerCase this
                (Resolver.tokenLists this) symbol st) as [[v|] st'].
    + destruct Hs as (Hv & Hcache & _).
      exists v, st'. split; [reflexivity|].
      assert (Ht : Js.truthy v = true).
      { unfold valid_address in Hv. apply andb_prop in Hv. apply Hv. }
      rewrite Ht. split.
      * unfold valid_cache. rewrite Hcache. apply Map_set_valid; assumption.
      * split; [exact Hv|]. unfold Resolver.Map_get. rewrite Hcache.
        apply lookup_Map_set.
    + destruct Hs as (Hcache & Hreq). cbn.
      exists JsNull, st'. split; [reflexivity|]. split.
      * unfold valid_cache. rewrite Hcache. exact Hc.
      * cbn [Js.truthy]. repeat split; assumption.
Qed.

End ResolverProofs.

Section ResolverRoundTrip.

Variable String_toLowerCase : string -> string.
Variable this : Resolver.Env.

Lemma resolveSymbolToMint_caches (symbol : string) (st st' : Resolver.State)
    (v : JsValue) :
  Resolver.resolveSymbolToMint String_toLowerCase this symbol st
  = (Fulfilled v, st') ->
  Js.truthy v = true ->
  Resolver.Map_get (Resolver.tokenCache st') (String_toLowerCase symbol) = v.
Proof.
  unfold Resolver.resolveSymbolToMint.
  destruct (Js.truthy
              (Resolver.Map_get (Resolver.tokenCache st)
                 (String_toLowerCase symbol))) eqn:Hcached.
  - intros E _. injection E as <- <-. reflexivity.
  - pose proof (search_lists_result String_toLowerCase this
                  (Resolver.tokenLists this) symbol st) as Hs.
    destruct (Resolver.search_lists String_toLowerCase this
                (Resolver.tokenLists this) symbol st) as [[w|] st1].
    + destruct Hs as (_ & Hcache & _). intros E _. injection E as <- <-.
      unfold Resolver.Map_get. rewrite Hcache. apply lookup_Map_set.
    + cbn. intros E Ht. injection E as <- <-. discriminate Ht.
Qed.

Lemma matches_true_truthy (symbol : string) (t : JsValue) :
  Resolver.matches String_toLowerCase symbol t = Fulfilled true ->
  Js.truthy t = true.
Proof.
  destruct t; cbn; try discriminate; reflexivity.
Qed.

Lemma find_first_match (symbol : string) (before after : list JsValue)
    (token : JsValue) :
  Forall (fun t => Resolver.matches String_toLowerCase symbol t
                   = Fulfilled false) before ->
  Resolver.matches String_toLowerCase symbol token = Fulfilled true ->
  Resolver.find String_toLowerCase symbol (before ++ token :: after)
  = Fulfilled token.
Proof.
  intros Hb Ht. induction Hb as [|t rest Hm Hrest IH];
    cbn [app Resolver.find].
  - rewrite Ht. reflexivity.
  - rewrite Hm. exact IH.
Qed.

End ResolverRoundTrip.

(** X19. [resolveSymbolToMint] does not fail.  From a cache of valid
    addresses it returns a valid address, then cached under the lowered
    symbol, or [null]; it returns [null] only after it has asked every
    token list in turn, and leaves the cache as it was. *)
Theorem resolveSymbolToMint_null_or_valid
    (String_toLowerCase : string -> string) (this : Resolver.Env)
    (symbol : string) (st : Resolver.State) :
  valid_cache this st ->
  exists v st',
    Resolver.resolveSymbolToMint String_toLowerCase this symbol st
    = (Fulfilled v, st')
    /\ valid_cache this st'
    /\ if Js.truthy v then
         valid_address this v = true
         /\ Resolver.Map_get (Resolver.tokenCache st')
              (String_toLowerCase symbol) = v
       else
         v = JsNull /\ Resolver.tokenCache st' = Resolver.tokenCache st
         /\ Resolver.requests st'
            = (Resolver.requests st ++ Resolver.tokenLists this)%list.
Proof. apply resolveSymbolToMint_result. Qed.

Lemma resolveSymbolToMint_null_or_valid_witness :
  valid_cache sample_resolver empty_state
  /\ exists v st',
       Resolver.resolveSymbolToMint toLowerCase sample_resolver "WIF"
         empty_state = (Fulfilled v, st')
       /\ valid_cache sample_resolver st'
       /\ if Js.truthy v then
            valid_address sample_resolver v = true
            /\ Resolver.Map_get (Resolver.tokenCache st') (toLowerCase "WIF")
               = v
          else
            v = JsNull
            /\ Resolver.tokenCache st' = Resolver.tokenCache empty_state
            /\ Resolver.requests st'
               = (Resolver.requests empty_state
                  ++ Resolver.tokenLists sample_resolver)%list.
Proof.
  split; [constructor|].
  apply (resolveSymbolToMint_null_or_valid toLowerCase sample_resolver "WIF"
           empty_state).
  constructor.
Defined.

(** X20. Once a symbol is resolved, resolving it again -- in any case of
    its letters -- returns the same address from the cache, with no
    request and no change of the state. *)
Theorem resolveSymbolToMint_remembers
    (String_toLowerCase : string -> string) (this : Resolver.Env)
    (symbol symbol' : string) (st st' : Resolver.State) (v : JsValue) :
  Resolver.resolveSymbolToMint String_toLowerCase this symbol st
  = (Fulfilled v, st') ->
  Js.truthy v = true ->
  String_toLowerCase symbol' = String_toLowerCase symbol ->
  Resolver.resolveSymbolToMint String_toLowerCase this symbol' st'
  = (Fulfilled v, st').
Proof.
  intros Hres Ht Hsame.
  pose proof (resolveSymbolToMint_caches String_toLowerCase this symbol st st'
                v Hres Ht) as Hc.
  rewrite resolveSymbolToMint_cached; rewrite Hsame, Hc;
    [reflexivity|exact Ht].
Qed.

Lemma resolveSymbolToMint_remembers_witness :
  exists st',
    Resolver.resolveSymbolToMint toLowerCase sample_resolver "USDC" empty_state
    = (Fulfilled (JsString "EPjFWdd5AufqSSqeM2qN1xzybapC8G4wEGGkZwyTDt1v"),
       st')
    /\ Resolver.requests st'
       = firstn 2 Resolver.default_tokenLists
    /\ Js.truthy
         (JsString "EPjFWdd5AufqSSqeM2qN1xzybapC8G4wEGGkZwyTDt1v") = true
    /\ toLowerCase "usdc" = toLowerCase "USDC"
    /\ Resolver.resolveSymbolToMint toLowerCase sample_resolver "usdc" st'
       = (Fulfilled (JsString "EPjFWdd5AufqSSqeM2qN1xzybapC8G4wEGGkZwyTDt1v"),
          st').
Proof.
  eexists. split; [reflexivity|]. split; [reflexivity|].
  split; [reflexivity|]. split; [reflexivity|].
  apply (resolveSymbolToMint_remembers toLowerCase sample_resolver "USDC"
           "usdc" empty_state);
    reflexivity.
Defined.

(** X21. The requests of [resolveSymbolToMint] are the first [n] token
    lists, in their order.  None is made when the symbol is cached.  When
    an address is returned, the last list asked is the first whose answer
    is an address, and that address is returned: the lists before it
    answered [null] or failed, and no list after it is asked.  When
    [null] is returned every list was asked, and none answered with an
    address. *)
Theorem resolveSymbolToMint_asks_the_lists_in_order
    (String_toLowerCase : string -> string) (this : Resolver.Env)
    (symbol : string) (st : Resolver.State) :
  exists n,
    Resolver.requests
      (snd (Resolver.resolveSymbolToMint String_toLowerCase this symbol st))
    = (Resolver.requests st ++ firstn n (Resolver.tokenLists this))%list
    /\ (n <= List.length (Resolver.tokenLists this))%nat
    /\ (if Js.truthy
             (Resolver.Map_get (Resolver.tokenCache st)
                (String_toLowerCase symbol))
        then n = 0%nat
        else
          match fst (Resolver.resolveSymbolToMint String_toLowerCase this
                       symbol st) with
          | Fulfilled v =>
              if Js.truthy v then
                exists k,
                  n = S k
                  /\ (forall i, (i < k)%nat ->
                        is_hit (answer_at String_toLowerCase this
                                  (Resolver.tokenLists this) symbol st i)
                        = false)
                  /\ answer_at String_toLowerCase this
                       (Resolver.tokenLists this) symbol st k
                     = Fulfilled v
              else
                n = List.length (Resolver.tokenLists this)
                /\ (forall i, (i < n)%nat ->
                      is_hit (answer_at String_toLowerCase this
                                (Resolver.tokenLists this) symbol st i)
                      = false)
          | Rejected _ => False
          end).
Proof.
  unfold Resolver.resolveSymbolToMint.
  destruct (Js.truthy
              (Resolver.Map_get (Resolver.tokenCache st)
                 (String_toLowerCase symbol))) eqn:Hcached.
  - exists 0%nat. cbn [snd firstn]. rewrite app_nil_r.
    split; [reflexivity|]. split; [lia|reflexivity].
  - pose proof (search_lists_result String_toLowerCase this
                  (Resolver.tokenLists this) symbol st) as Hs.
    pose proof (search_lists_first_hit String_toLowerCase this
                  (Resolver.tokenLists this) symbol st) as Hf.
    destruct (Resolver.search_lists String_toLowerCase this
                (Resolver.tokenLists this) symbol st) as [[w|] st1].
    + destruct Hf as (k & Hk & Hr & Hbefore & Hat & Hw).
      exists (S k). cbn [fst snd]. split; [exact Hr|]. split; [lia|].
      rewrite Hw. exists k. split; [reflexivity|].
      split; [exact Hbefore|exact Hat].
    + destruct Hs as (_ & Hr). exists (List.length (Resolver.tokenLists this)).
      cbn. rewrite firstn_all. split; [exact Hr|]. split; [lia|].
      split; [reflexivity|exact Hf].
Qed.

(** X22. [searchTokenList] looks at the first entry that matches the
    symbol, by its symbol or its name, and at no other: its answer is the
    address of that entry if it is a valid one, and [null] if not, whatever
    the entries after it. *)
Theorem searchTokenList_first_match_only
    (String_toLowerCase : string -> string) (this : Resolver.Env)
    (tokenListUrl symbol : string) (st : Resolver.State) (data : JsValue)
    (before after : list JsValue) (token address : JsValue) :
  Resolver.axios_get this (Resolver.requests st) tokenListUrl
  = Fulfilled data ->
  Resolver.tokens_of tokenListUrl data
  = Fulfilled (before ++ token :: after)%list ->
  Forall (fun t => Resolver.matches String_toLowerCase symbol t
                   = Fulfilled false) before ->
  Resolver.matches String_toLowerCase symbol token = Fulfilled true ->
  Js.get token "address" = Fulfilled address ->
  fst (Resolver.searchTokenList String_toLowerCase this tokenListUrl symbol st)
  = Fulfilled (if valid_address this address then address else JsNull).
Proof.
  intros Hget Htokens Hbefore Hmatch Haddress.
  unfold Resolver.searchTokenList. cbn [fst].
  rewrite Hget. cbn [settled_bind]. rewrite Htokens. cbn [settled_bind].
  rewrite (find_first_match String_toLowerCase symbol before after token
             Hbefore Hmatch).
  cbn [settled_bind].
  rewrite (matches_true_truthy String_toLowerCase symbol token Hmatch).
  rewrite Haddress. cbn [settled_bind]. unfold valid_address.
  destruct (Js.truthy address); [|reflexivity].
  destruct (Resolver.PublicKey_valid this address); reflexivity.
Qed.

Lemma searchTokenList_first_match_only_witness :
  fst (Resolver.searchTokenList toLowerCase sample_resolver
         "https://api.raydium.io/v2/sdk/token" "bonk" empty_state)
  = Fulfilled JsNull.
Proof.
  apply (searchTokenList_first_match_only toLowerCase sample_resolver
           "https://api.raydium.io/v2/sdk/token" "bonk" empty_state
           (JsArray
              [JsObject [("symbol", JsString "BONK");
                         ("address", JsString "unknown")];
               JsObject [("symbol", JsString "Bonk");
                         ("address",
                          JsString "DezXAZ8z7PnrnRJjz3wXBoRgixCa6xjnB7YaB1pPB263")];
               JsObject [("symbol", JsString "USDC");
                         ("address",
                          JsString "EPjFWdd5AufqSSqeM2qN1xzybapC8G4wEGGkZwyTDt1v")]])
           []
           [JsObject [("symbol", JsString "Bonk");
                      ("address",
                       JsString "DezXAZ8z7PnrnRJjz3wXBoRgixCa6xjnB7YaB1pPB263")];
            JsObject [("symbol", JsString "USDC");
                      ("address",
                       JsString "EPjFWdd5AufqSSqeM2qN1xzybapC8G4wEGGkZwyTDt1v")]]
           (JsObject [("symbol", JsString "BONK");
                      ("address", JsString "unknown")])
           (JsString "unknown"));
    solve [reflexivity | constructor].
Defined.

Lemma split_space_from_word (piece word : string) :
  has_space word = false ->
  split_space_from piece word = [piece ++ word].
Proof.
  revert piece. induction word as [|c w IH]; intros piece H.
  - cbn. rewrite string_app_nil_r. reflexivity.
  - cbn in H |- *. apply orb_false_elim in H. destruct H as [Hc Hw].
    rewrite Hc, (IH _ Hw), string_app_assoc. reflexivity.
Qed.

Lemma split_space_from_space (piece word rest : string) :
  has_space word = false ->
  split_space_from piece (word ++ " " ++ rest)
  = (piece ++ word) :: split_space rest.
Proof.
  revert piece. induction word as [|c w IH]; intros piece H.
  - cbn. rewrite string_app_nil_r. reflexivity.
  - cbn in H. apply orb_false_elim in H. destruct H as [Hc Hw].
    cbn [append split_space_from]. rewrite Hc, (IH _ Hw), string_app_assoc.
    reflexivity.
Qed.

Lemma split_space_symbol (command word : string) :
  has_space command = false ->
  has_space word = false ->
  nth_error (split_space (command ++ " " ++ word)) 1 = Some word.
Proof.
  intros Hc Hw. unfold split_space.
  rewrite (split_space_from_space _ _ _ Hc). unfold split_space.
  rewrite (split_space_from_word _ _ Hw). reflexivity.
Qed.

Lemma split_space_symbol_then (command word rest : string) :
  has_space command = false ->
  has_space word = false ->
  nth_error (split_space (command ++ " " ++ word ++ " " ++ rest)) 1
  = Some word.
Proof.
  intros Hc Hw. unfold split_space.
  rewrite (split_space_from_space _ _ _ Hc). unfold split_space.
  rewrite (split_space_from_space _ _ _ Hw). reflexivity.
Qed.

Section BotProofs.

Variable Number_toString : number -> string.
Variable String_toUpperCase : string -> string.
Variable String_trim : string -> string.
Variable analyzeTokenBySymbol : string -> settled (option SymbolAnalysis.t).
Variable refused : list string -> string -> option JsError.

Lemma check_without_symbol (text : string) (sent : list string) :
  match nth_error (split_space text) 1 with
  | None | Some EmptyString => True
  | Some _ => False
  end ->
  BotHandlers.check Number_toString String_toUpperCase analyzeTokenBySymbol
    refused text sent
  = BotHandlers.reply refused usage sent.
Proof.
  unfold BotHandlers.check, Chat.bind, Chat.try_catch, Chat.ret.
  destruct (nth_error (split_space text) 1) as [[|c s]|];
    [reflexivity|contradiction|reflexivity].
Qed.

(** The handler depends on the text by its second piece only. *)
Lemma check_same_symbol (text text' : string) (sent : list string) :
  nth_error (split_space text) 1 = nth_error (split_space text') 1 ->
  BotHandlers.check Number_toString String_toUpperCase analyzeTokenBySymbol
    refused text sent
  = BotHandlers.check Number_toString String_toUpperCase analyzeTokenBySymbol
      refused text' sent.
Proof.
  intro H. unfold BotHandlers.check. rewrite H. reflexivity.
Qed.

(** With a symbol, the handler starts with the notice. *)
Lemma check_with_symbol (text word : string) (sent : list string) :
  nth_error (split_space text) 1 = Some word ->
  word <> EmptyString ->
  match refused sent (notice String_toUpperCase word) with
  | None =>
      exists replies,
        snd (BotHandlers.check Number_toString String_toUpperCase
               analyzeTokenBySymbol refused text sent)
        = (sent ++ notice String_toUpperCase word :: replies)%list
  | Some _ =>
      BotHandlers.check Number_toString String_toUpperCase
        analyzeTokenBySymbol refused text sent
      = BotHandlers.reply refused error_notice sent
  end.
Proof.
  intros Hnth Hne. unfold BotHandlers.check. rewrite Hnth.
  destruct word as [|c w]; [contradiction Hne; reflexivity|].
  unfold notice, error_notice, Chat.bind, Chat.try_catch, Chat.ret,
    Chat.await, BotHandlers.reply, push.
  destruct (refused sent _) as [e|].
  - destruct (refused sent _); reflexivity.
  - destruct (analyzeTokenBySymbol (String_toUpperCase (String c w)))
      as [[result|]|e];
      repeat match goal with
             | |- context [match refused ?s ?m with _ => _ end] =>
                 destruct (refused s m)
             end;
      cbn [snd];
      first [ exists []; reflexivity
            | eexists [_]; rewrite <- app_assoc; reflexivity
            | eexists [_; _]; rewrite <- !app_assoc; reflexivity ].
Qed.

End BotProofs.

(** X23. The symbol of [/check] is the piece of the text between its
    first space and the next one.  When that piece is missing or empty --
    the text has no space, its first space ends it, or another space
    follows its first space -- the handler answers with its usage and
    asks the detector nothing.  In every other case, as with a space
    after the symbol, what follows the second space is ignored and the
    handler starts with the notice for that piece (with the error notice,
    if the notice is refused). *)
Theorem check_usage_when_symbol_is_missing
    (Number_toString : number -> string)
    (String_toUpperCase : string -> string)
    (analyzeTokenBySymbol : string -> settled (option SymbolAnalysis.t))
    (refused : list string -> string -> option JsError)
    (command word rest : string) (sent : list string) :
  has_space command = false ->
  has_space word = false ->
  word <> EmptyString ->
  BotHandlers.check Number_toString String_toUpperCase analyzeTokenBySymbol
    refused command sent
  = BotHandlers.reply refused usage sent
  /\ BotHandlers.check Number_toString String_toUpperCase analyzeTokenBySymbol
       refused (command ++ " ") sent
     = BotHandlers.reply refused usage sent
  /\ BotHandlers.check Number_toString String_toUpperCase analyzeTokenBySymbol
       refused (command ++ " " ++ " " ++ rest) sent
     = BotHandlers.reply refused usage sent
  /\ BotHandlers.check Number_toString String_toUpperCase analyzeTokenBySymbol
       refused (command ++ " " ++ word ++ " " ++ rest) sent
     = BotHandlers.check Number_toString String_toUpperCase
         analyzeTokenBySymbol refused (command ++ " " ++ word) sent
  /\ match refused sent (notice String_toUpperCase word) with
     | None =>
         exists replies,
           snd (BotHandlers.check Number_toString String_toUpperCase
                  analyzeTokenBySymbol refused (command ++ " " ++ word) sent)
           = (sent ++ notice String_toUpperCase word :: replies)%list
     | Some _ =>
         BotHandlers.check Number_toString String_toUpperCase
           analyzeTokenBySymbol refused (command ++ " " ++ word) sent
         = BotHandlers.reply refused error_notice sent
     end.
Proof.
  intros H Hw Hne.
  split; [|split; [|split; [|split]]].
  - apply check_without_symbol. unfold split_space.
    rewrite (split_space_from_word _ _ H). exact I.
  - apply check_without_symbol. unfold split_space.
    replace (command ++ " ") with (command ++ " " ++ EmptyString)
      by reflexivity.
    rewrite (split_space_from_space _ _ _ H). exact I.
  - apply check_without_symbol. unfold split_space.
    rewrite (split_space_from_space _ _ _ H). cbn. exact I.
  - apply check_same_symbol.
    rewrite (split_space_symbol _ _ H Hw).
    apply (split_space_symbol_then _ _ _ H Hw).
  - apply check_with_symbol; [apply (split_space_symbol _ _ H Hw)|exact Hne].
Qed.

Lemma check_usage_when_symbol_is_missing_witness :
  has_space "/check" = false
  /\ has_space "BONK" = false
  /\ "BONK" <> EmptyString
  /\ BotHandlers.check integer_toString toUpperCase
       (fun s => Fulfilled (Some (analyzeTokenBySymbol toLowerCase s)))
       accepts_all ("/check" ++ " " ++ " " ++ "BONK") []
     = (Fulfilled tt, [usage])
  /\ BotHandlers.check integer_toString toUpperCase
       (fun s => Fulfilled (Some (analyzeTokenBySymbol toLowerCase s)))
       accepts_all ("/check" ++ " " ++ "BONK" ++ " " ++ EmptyString) []
     = BotHandlers.check integer_toString toUpperCase
         (fun s => Fulfilled (Some (analyzeTokenBySymbol toLowerCase s)))
         accepts_all ("/check" ++ " " ++ "BONK") [].
Proof.
  split; [reflexivity|]. split; [reflexivity|]. split; [discriminate|].
  split.
  - apply (check_usage_when_symbol_is_missing integer_toString toUpperCase
             (fun s => Fulfilled (Some (analyzeTokenBySymbol toLowerCase s)))
             accepts_all "/check" "BONK" "BONK" []);
      [reflexivity|reflexivity|discriminate].
  - apply (check_usage_when_symbol_is_missing integer_toString toUpperCase
             (fun s => Fulfilled (Some (analyzeTokenBySymbol toLowerCase s)))
             accepts_all "/check" "BONK" EmptyString []);
      [reflexivity|reflexivity|discriminate].
Defined.

(** X24. The handler of plain text never fails, whatever the detector and
    Telegram do: it sends nothing for a text that is not three to twelve
    capital letters once trimmed, and otherwise at most the notice and
    one line of result. *)
Theorem on_text_is_silent (Number_toString : number -> string)
    (String_trim : string -> string)
    (analyzeTokenBySymbol : string -> settled (option SymbolAnalysis.t))
    (refused : list string -> string -> option JsError)
    (message_text : string) (sent : list string) :
  exists sent',
    BotHandlers.on_text Number_toString String_trim analyzeTokenBySymbol
      refused message_text sent
    = (Fulfilled tt, sent')
    /\ (if looks_like_symbol (String_trim message_text)
        then exists replies,
               sent' = (sent ++ replies)%list
               /\ (List.length replies <= 2)%nat
               /\ (replies = []
                   \/ hd_error replies
                      = Some ("🔍 Analyzing $" ++ String_trim message_text
                              ++ "..."))
        else sent' = sent).
Proof.
  unfold BotHandlers.on_text.
  destruct (looks_like_symbol (String_trim message_text));
    [|eexists; split; reflexivity].
  unfold Chat.try_catch, Chat.bind, Chat.await, Chat.ret, BotHandlers.reply,
    push.
  destruct (refused sent _) as [e|].
  - exists sent. split; [reflexivity|]. exists []. rewrite app_nil_r.
    split; [reflexivity|]. split; [cbn; lia|left; reflexivity].
  - destruct (analyzeTokenBySymbol (String_trim message_text))
      as [[result|]|e].
    + destruct (refused _ _) as [e|]; eexists; (split; [reflexivity|]).
      * eexists [_]. split; [reflexivity|]. split; [cbn; lia|].
        right. reflexivity.
      * eexists [_; _]. rewrite <- app_assoc.
        split; [reflexivity|]. split; [cbn; lia|]. right. reflexivity.
    + eexists. split; [reflexivity|]. eexists [_]. split; [reflexivity|].
      split; [cbn; lia|right; reflexivity].
    + eexists. split; [reflexivity|]. eexists [_]. split; [reflexivity|].
      split; [cbn; lia|right; reflexivity].
Qed.

Section DashboardProofs.

Variable analyzeTokenBySymbol : JsValue -> settled JsValue.



End DashboardProofs.



(** The detector's own analyses have no property [symbol]: their results
    carry the symbols of the request. *)
Lemma bulk_check_of_the_detector :
  Dashboard.bulk_check (analyzeTokenBySymbol_of toLowerCase)
    (JsObject [("symbols", JsArray [JsString "RUGCOIN"; JsNum (of_Z 7)])])
  = {| Dashboard.status := 200;
       Dashboard.body :=
         Dashboard.Results_body
           [Dashboard.Analysed (JsString "RUGCOIN")
              (analysis_object (analyzeTokenBySymbol toLowerCase "RUGCOIN"));
            Dashboard.Failed (JsNum (of_Z 7)) "Analysis failed"] |}
  /\ Dashboard.result_symbol
       (Dashboard.Analysed (JsString "RUGCOIN")
          (analysis_object (analyzeTokenBySymbol toLowerCase "RUGCOIN")))
     = JsString "RUGCOIN".
Proof. split; reflexivity. Qed.

Lemma has_char_app (c : ascii) (a b : string) :
  has_char c (a ++ b) = has_char c a || has_char c b.
Proof.
  induction a as [|x a IH]; [reflexivity|].
  cbn [append has_char]. rewrite IH, orb_assoc. reflexivity.
Qed.

Lemma has_char_string_of_uint (c : ascii) (u : Decimal.uint) :
  (nat_of_ascii c <? 48)%nat || (57 <? nat_of_ascii c)%nat = true ->
  has_char c (NilEmpty.string_of_uint u) = false.
Proof.
  intro Hc. induction u; cbn [NilEmpty.string_of_uint has_char];
    rewrite ?IHu, ?orb_false_r; try reflexivity;
    match goal with
    | |- Ascii.eqb ?d c = false =>
        destruct (Ascii.eqb_spec d c) as [<-|_];
        [discriminate Hc|reflexivity]
    end.
Qed.

(** A pattern is not found across a text that lacks its first
    character. *)
Lemma includes_after (c : ascii) (pattern before after : string) :
  has_char c before = false ->
  includes (before ++ after) (String c pattern)
  = includes after (String c pattern).
Proof.
  induction before as [|x b IH]; intro H; [reflexivity|].
  cbn [has_char] in H. apply orb_false_elim in H. destruct H as [Hx Hb].
  cbn [append includes String.prefix].
  destruct (ascii_dec c x) as [->|_].
  - rewrite Ascii.eqb_refl in Hx. discriminate.
  - apply IH. exact Hb.
Qed.

Lemma sample_toFixed1_no_m (x : number) :
  has_char "m" (sample_toFixed1 x) = false.
Proof.
  unfold sample_toFixed1. rewrite has_char_app.
  replace (has_char "m" ".0") with false by reflexivity.
  rewrite orb_false_r.
  destruct (Math_round x) as [s|s| |s m e]; cbn [integer_toString];
    try reflexivity.
  - destruct s; reflexivity.
  - rewrite has_char_app, has_char_string_of_uint by reflexivity.
    destruct s; reflexivity.
Qed.

Section MintWarning.

Variable Number_toFixed1 : number -> string.
Hypothesis toFixed1_no_m : forall x, has_char "m" (Number_toFixed1 x) = false.

Lemma holder_issue_not_about_mint (x : number) (ending : string) :
  includes ending "mint authority" = false ->
  about_mint ("Top 3 wallets hold " ++ Number_toFixed1 x ++ ending) = false.
Proof.
  intro H. unfold about_mint.
  rewrite <- string_app_assoc.
  rewrite includes_after; [exact H|].
  rewrite has_char_app, toFixed1_no_m. reflexivity.
Qed.

Lemma real_flags_not_about_mint (tokenInfo : Chain.MintInfo)
    (holders : list Chain.Holder) (lpInfo : Chain.LpInfo) :
  filter about_mint (real_flags Number_toFixed1 tokenInfo holders lpInfo) = [].
Proof.
  unfold real_flags, Chain.analyzeMintAuthority, Chain.analyzeLiquidityPool,
    Chain.analyzeHolderConcentration, Chain.concentration, push.
  destruct (Chain.mintAuthorityRenounced tokenInfo),
    (Chain.lpLocked lpInfo), (List.length holders =? 0)%nat,
    (gt (Chain.top3 holders) (of_Z 90)),
    (gt (Chain.top3 holders) (of_Z 70)),
    (gt (Chain.top3 holders) (of_Z 50));
    cbn [Chain.issues negb app filter];
    rewrite ?holder_issue_not_about_mint by reflexivity; reflexivity.
Qed.

Lemma demo_flags_not_about_mint (draws : Chain.DemoDraws)
    (tokenMintAddress : string) :
  filter about_mint
    (Chain.redFlags (Chain.getDemoAnalysis draws tokenMintAddress)) = [].
Proof.
  unfold Chain.getDemoAnalysis.
  destruct (Array_includes Chain.safeTokens tokenMintAddress);
    [reflexivity|].
  destruct (Array_includes Chain.riskyTokens tokenMintAddress); reflexivity.
Qed.

Lemma chain_flags_not_about_mint (this : Chain.Env)
    (tokenMintAddress : string) (a : Chain.Analysis) :
  Chain.analyzeTokenEconomics Number_toFixed1 this tokenMintAddress
  = Fulfilled a ->
  filter about_mint (Chain.redFlags a) = [].
Proof.
  destruct (real_mode this tokenMintAddress) eqn:Hmode.
  - destruct (analyzeTokenEconomics_real Number_toFixed1 this
                tokenMintAddress Hmode)
      as (pk & tokenInfo & holders & _ & _ & _ & _ & Hres).
    rewrite Hres. intro E. injection E as <-.
    apply real_flags_not_about_mint.
  - rewrite (analyzeTokenEconomics_fallback Number_toFixed1 _ _ Hmode).
    intro E. injection E as <-. apply demo_flags_not_about_mint.
Qed.

End MintWarning.

Lemma count_zero_not_In (w : string) (l : list string) :
  count w l = 0%nat -> ~ In w l.
Proof.
  unfold count. intros H Hin.
  assert (Hf : In w (filter (String.eqb w) l)).
  { apply filter_In. split; [exact Hin|apply String.eqb_refl]. }
  destruct (filter (String.eqb w) l); [contradiction|discriminate].
Qed.

(** X26. The chain analyzer of the detector words its flag of the mint
    authority with a capital M, which the pattern of the detector's
    warning -- written in small letters -- does not match: no report of
    [new RugPullDetector()] has the warning of the mint authority among
    its recommendations, whatever the chain analysis found. *)
Theorem mint_warning_is_never_given
    (Number_toString Number_toFixed1 : number -> string) (w : World)
    (tokenMint : string) (log log' : list Call) (report : Report.t) :
  (forall x, has_char "m" (Number_toFixed1 x) = false) ->
  analyzeToken Number_toString (new_RugPullDetector Number_toFixed1 w)
    tokenMint log = (Fulfilled report, log') ->
  ~ In "Mint authority not renounced - unlimited token creation possible"
      (Report.recommendations report).
Proof.
  intros Hm Hrun.
  destruct (analyzeToken_fulfilled_inv Number_toString _ _ _ _ _ Hrun)
    as (info & a & b & c & Hinfo & Hall).
  destruct (analyzeToken_report Number_toString _ tokenMint log info a b c
              Hinfo Hall) as (report' & Hrun' & _ & _ & _ & Hrecs & _).
  rewrite Hrun in Hrun'. injection Hrun' as <-.
  rewrite Hrecs, generateRecommendations_shape.
  apply Promise_all3_fulfilled in Hall. destruct Hall as (Ha & _ & _).
  unfold new_RugPullDetector in Ha.
  cbn [chainAnalyzer analyzeTokenEconomics state] in Ha.
  destruct (Chain.analyzeTokenEconomics Number_toFixed1 (chain w) tokenMint)
    as [ca|e] eqn:Hca; [|discriminate Ha].
  cbn [settled_map settled_bind] in Ha. injection Ha as <-.
  pose proof (chain_flags_not_about_mint Number_toFixed1 Hm _ _ _ Hca)
    as Hflags.
  apply (count_zero_not_In mint_warning).
  rewrite !count_app.
  destruct (count_flag_warnings (or_empty (redFlags (chain_result ca))))
    as (Hcount & _).
  rewrite Hcount.
  change (or_empty (redFlags (chain_result ca))) with (Chain.redFlags ca).
  rewrite Hflags.
  unfold tier_headlines, social_warning, code_warning.
  repeat match goal with
         | |- context [if ?x then _ else _] => destruct x
         end; reflexivity.
Qed.

Lemma mint_warning_is_never_given_witness :
  exists report log',
    analyzeToken integer_toString
      (new_RugPullDetector sample_toFixed1 (sample_world false (sample_node 9)))
      USDC [] = (Fulfilled report, log')
    /\ In "Mint authority not renounced - developers can create unlimited tokens"
         (or_empty (redFlags (onChain (Report.analysis report))))
    /\ ~ In "Mint authority not renounced - unlimited token creation possible"
           (Report.recommendations report).
Proof.
  eexists. eexists. split; [reflexivity|]. split; [left; reflexivity|].
  eapply (mint_warning_is_never_given integer_toString sample_toFixed1
            (sample_world false (sample_node 9)) USDC []);
    [exact sample_toFixed1_no_m|reflexivity].
Defined.

(** X27. When Telegram accepts the replies, [/check] never fails and
    sends either its usage alone, or the notice of the analysis followed
    by exactly one more message -- the report, the notice that the token
    was not found, or, when the detector fails, the notice of an error. *)
Theorem check_sends_one_answer (Number_toString : number -> string)
    (String_toUpperCase : string -> string)
    (analyzeTokenBySymbol : string -> settled (option SymbolAnalysis.t))
    (text : string) (sent : list string) :
  exists replies,
    BotHandlers.check Number_toString String_toUpperCase analyzeTokenBySymbol
      accepts_all text sent
    = (Fulfilled tt, (sent ++ replies)%list)
    /\ match nth_error (split_space text) 1 with
       | None | Some EmptyString => replies = [usage]
       | Some tokenSymbol =>
           replies
           = ["🔍 Analyzing $" ++ String_toUpperCase tokenSymbol ++ "...";
              match analyzeTokenBySymbol (String_toUpperCase tokenSymbol) with
              | Fulfilled (Some result) =>
                  BotHandlers.report_message Number_toString result
              | Fulfilled None =>
                  "❌ Token $" ++ String_toUpperCase tokenSymbol
                  ++ " not found or analysis failed."
              | Rejected _ =>
                  "❌ Error analyzing token. Please try again later."
              end]
       end.
Proof.
  unfold BotHandlers.check, Chat.bind, Chat.try_catch, Chat.ret, Chat.await,
    BotHandlers.reply, accepts_all, push.
  destruct (nth_error (split_space text) 1) as [[|c s]|].
  - eexists. split; reflexivity.
  - destruct (analyzeTokenBySymbol (String_toUpperCase (String c s)))
      as [[result|]|e]; eexists; rewrite <- app_assoc; split; reflexivity.
  - eexists. split; reflexivity.
Qed.

(** X28. [getTokenInfoBySymbol] does not fail.  From a cache of valid
    addresses, it answers [null] in two cases only: the symbol is not
    resolved -- [resolveSymbolToMint] answers [null], having asked every
    token list -- or the supply of the resolved address cannot be read.
    In every other case it answers the info of the symbol asked for: the
    resolved address, which is a valid one, with the supply and the
    decimals of the answer for that address.  Its state is the one that
    the resolution leaves. *)
Theorem getTokenInfoBySymbol_null_or_info
    (String_toLowerCase : string -> string) (this : Resolver.Env)
    (getTokenSupply : JsValue -> settled (option string * option N))
    (symbol : string) (st : Resolver.State) :
  valid_cache this st ->
  exists mintAddress st',
    Resolver.resolveSymbolToMint String_toLowerCase this symbol st
    = (Fulfilled mintAddress, st')
    /\ valid_cache this st'
    /\ snd (Resolver.getTokenInfoBySymbol String_toLowerCase this
              getTokenSupply symbol st) = st'
    /\ if Js.truthy mintAddress then
         valid_address this mintAddress = true
         /\ fst (Resolver.getTokenInfoBySymbol String_toLowerCase this
                   getTokenSupply symbol st)
            = match getTokenSupply mintAddress with
              | Fulfilled tokenInfo =>
                  Fulfilled
                    (Some {| Resolver.symbol := symbol;
                             Resolver.mintAddress := mintAddress;
                             Resolver.totalSupply := fst tokenInfo;
                             Resolver.decimals := snd tokenInfo |})
              | Rejected _ => Fulfilled None
              end
       else
         mintAddress = JsNull
         /\ Resolver.requests st'
            = (Resolver.requests st ++ Resolver.tokenLists this)%list
         /\ fst (Resolver.getTokenInfoBySymbol String_toLowerCase this
                   getTokenSupply symbol st)
            = Fulfilled None.
Proof.
  intro Hc. unfold Resolver.getTokenInfoBySymbol.
  destruct (resolveSymbolToMint_result String_toLowerCase this symbol st Hc)
    as (v & st' & Hres & Hc' & Hv).
  exists v, st'. rewrite Hres. split; [reflexivity|]. split; [exact Hc'|].
  destruct (Js.truthy v) eqn:Ht; cbn [negb fst snd].
  - split; [reflexivity|]. destruct Hv as [Hvalid _].
    split; [exact Hvalid|].
    destruct (getTokenSupply v) as [tokenInfo|e]; reflexivity.
  - split; [reflexivity|]. destruct Hv as (Hnull & _ & Hreq).
    split; [exact Hnull|]. split; [exact Hreq|reflexivity].
Qed.

Lemma getTokenInfoBySymbol_null_or_info_witness :
  valid_cache sample_resolver empty_state
  /\ fst (Resolver.getTokenInfoBySymbol toLowerCase sample_resolver
            (fun _ => Fulfilled (Some "5034943397.677802", Some 6%N))
            "usdc" empty_state)
     = Fulfilled
         (Some {| Resolver.symbol := "usdc";
                  Resolver.mintAddress :=
                    JsString "EPjFWdd5AufqSSqeM2qN1xzybapC8G4wEGGkZwyTDt1v";
                  Resolver.totalSupply := Some "5034943397.677802";
                  Resolver.decimals := Some 6%N |})
  /\ fst (Resolver.getTokenInfoBySymbol toLowerCase sample_resolver
            (fun _ => Fulfilled (Some "5034943397.677802", Some 6%N))
            "wif" empty_state)
     = Fulfilled None.
Proof.
  split; [constructor|]. split.
  - destruct (getTokenInfoBySymbol_null_or_info toLowerCase sample_resolver
                (fun _ => Fulfilled (Some "5034943397.677802", Some 6%N))
                "usdc" empty_state)
      as (mintAddress & st' & Hres & _ & _ & Hanswer); [constructor|].
    injection Hres as <- _. exact (proj2 Hanswer).
  - destruct (getTokenInfoBySymbol_null_or_info toLowerCase sample_resolver
                (fun _ => Fulfilled (Some "5034943397.677802", Some 6%N))
                "wif" empty_state)
      as (mintAddress & st' & Hres & _ & _ & Hanswer); [constructor|].
    injection Hres as <- _. exact (proj2 (proj2 Hanswer)).
Defined.
